(** * sqlite-wasm: the worker-side database helper and the caller-side router

    A shallow embedding of
    - [src/public/DBHelperWorker.js]  (class [DbHelper] and the worker's
      [self.onmessage]), module [Public];
    - [src/unnamed/part_000]          (the draft of the same worker that
      reads rows column by column), modules [Draft] (the reader) and
      [Part000] (the rest);
    - [src/wasm-sql/DatabaseManager.js] (class [DatabaseManager], modules
      [Router] and [Manager]; class [DatabaseSource], module
      [DatabaseSource]).

    The SQL engine (wa-sqlite) is an external collaborator.  It is modelled
    as a deterministic transition function [respond] on an abstract engine
    state: every API call of the source becomes one [Call], is recorded in
    the world's [trace], and is answered by the engine with a returned value
    or a raised [Error].  [async]/[await] is sequential in these methods, so
    an awaited promise is modelled by its outcome: fulfilled ([Done]),
    rejected ([Thrown]) or never settled ([Pending]). *)

From Stdlib Require Import ZArith Ascii String List Bool Lia.
From stdpp Require Import base gmap strings list pretty.

Local Open Scope Z_scope.

(** ** JavaScript values *)

Module Js.

#[warnings="-register-all"]
Inductive value : Type :=
  | VUndefined
  | VNull
  | VBool (b : bool)
  | VNum (n : Z)
  | VFloat (bits : Z)                      (* a double, by its IEEE-754 bits *)
  | VStr (s : string)
  | VBlob (bytes : list Z)                 (* a Uint8Array *)
  | VError (message : string)              (* an Error object *)
  | VArr (items : list value)
  | VObj (fields : list (string * value)).

(** A [VObj] lists the own enumerable properties of an object, in the
    order of their creation; it is read as a map from keys to values
    (JavaScript enumerates the keys that are array indices first).  The
    prototype of an object is not part of the model.  A value stands for
    the reference the program holds: the code under study copies no array
    and no object, and a [VBlob] that the engine returned is the very
    array the engine returned (for wa-sqlite a view on its memory), with
    the bytes it showed when it was returned. *)

(** ToBoolean, as [if (x)] and [!x] apply it. *)
Definition truthy (v : value) : bool :=
  match v with
  | VUndefined | VNull => false
  | VBool b => b
  | VNum n => negb (n =? 0)
  | VFloat bits =>
      let magnitude := bits mod 2 ^ 63 in
      negb (magnitude =? 0) && (magnitude <=? 9218868437227405312)
  | VStr s => match s with EmptyString => false | String _ _ => true end
  | VBlob _ | VError _ | VArr _ | VObj _ => true
  end.

(** A parameter with a default value: [f(x = d)] takes [d] when the
    argument is [undefined]. *)
Definition default_param (v d : value) : value :=
  match v with VUndefined => d | _ => v end.

(** Property read [o[k]] of an own property, and the definition of an
    own property, as an object literal and a spread make it: an existing
    key keeps its position, a new key is appended. *)
Fixpoint get_field (fields : list (string * value)) (k : string) : value :=
  match fields with
  | [] => VUndefined
  | (k', v) :: rest => if String.eqb k' k then v else get_field rest k
  end.

Fixpoint set_field (fields : list (string * value)) (k : string) (v : value)
  : list (string * value) :=
  match fields with
  | [] => [(k, v)]
  | (k', v') :: rest =>
      if String.eqb k' k then (k', v) :: rest else (k', v') :: set_field rest k v
  end.

(** The assignment [o[k] = v] on an object made by a literal [{}].  For
    every key but one it defines the own property.  The key [__proto__]
    is the accessor of [Object.prototype]: the assignment runs its setter,
    which changes the prototype when [v] is an object or [null] and does
    nothing otherwise; in both cases no own property is created. *)
Definition assign_field (fields : list (string * value)) (k : string) (v : value)
  : list (string * value) :=
  if String.eqb k "__proto__" then fields else set_field fields k v.

(** The string a template literal [`${e}`] makes of a thrown value: an
    Error prints as its name and message. *)
Definition template (e : value) : string :=
  match e with
  | VStr s => s
  | VError EmptyString => "Error"
  | VError m => "Error: " +:+ m
  | VNull => "null"
  | VUndefined => "undefined"
  | VBool true => "true"
  | VBool false => "false"
  | _ => "[object Object]"
  end.

End Js.
Import Js.

(** ** The engine interface *)

(** One constructor per call the sources make on the engine (the
    [sqlite3] API object, the statement objects it hands out, the
    module factory and the VFS). *)
Module Api.

Inductive Call : Type :=
  | SQLiteESMFactory
  | VFS_create (name : string)
  | vfs_register (vfs : value)
  | open_v2 (name : string) (vfs : string)
  | exec (db : value) (sql : string)
  | exec_rows (db : value) (sql : string)   (* exec with a per-row callback *)
  | prepare (db : value) (sql : string)
  | bind_text (stmt : value) (i : Z) (v : value)
  | stmt_step (stmt : value)                (* preparedStatement.step() *)
  | stmt_get (stmt : value)
  | lastInsertRowid (stmt : value)
  | stmt_finalize (stmt : value)            (* preparedStatement.finalize() *)
  | close (db : value)
  | statements (db : value) (sql : string)
  | next (iterator : value)
  | bind_collection (stmt : value) (args : list value)
  | column_count (stmt : value)
  | column_name (stmt : value) (i : Z)
  | column_type (stmt : value) (i : Z)
  | column_int (stmt : value) (i : Z)
  | column_float (stmt : value) (i : Z)
  | column_blob (stmt : value) (i : Z)
  | column_text (stmt : value) (i : Z)
  | iterator_return (iterator : value)      (* the exit of for await *)
  | step (stmt : value)                     (* sqlite3.step(stmt) *)
  | finalize (stmt : value).                (* sqlite3.finalize(stmt) *)

End Api.
Abbreviation Call := Api.Call.

(** The engine answers a call with a value or raises an [Error] with a
    message. *)
Inductive Reply : Type :=
  | Returns (v : value)
  | Raises (message : string).

(** ** Outcomes and the world *)

Inductive Outcome (A : Type) : Type :=
  | Done (a : A)                (* returned / promise fulfilled *)
  | Thrown (e : value)          (* threw / promise rejected *)
  | Pending                     (* the awaited promise never settles *)
  | OutOfFuel.                  (* the model's loop bound was reached *)
Arguments Done {A} a.
Arguments Thrown {A} e.
Arguments Pending {A}.
Arguments OutOfFuel {A}.

(** [this] of a [DbHelper]: [sqlite3] says whether [initializeDatabase]
    has assigned the API object. *)
Record DbHelper : Type := {
  databaseName : string;
  db : value;
  sqlite3 : bool
}.

Record World (E : Type) : Type := {
  engine : E;
  trace : list Call;              (* engine calls made so far, oldest first *)
  outbox : list value;            (* messages given to self.postMessage *)
  dbInstance : option DbHelper    (* the worker's module-level variable *)
}.
Arguments engine {E} _.
Arguments trace {E} _.
Arguments outbox {E} _.
Arguments dbInstance {E} _.

Section Monad.
Context {E : Type}.

Definition M (A : Type) : Type := World E -> Outcome A * World E.

Definition ret {A} (a : A) : M A := fun w => (Done a, w).

Definition throw {A} (e : value) : M A := fun w => (Thrown e, w).

Definition bind {A B} (m : M A) (k : A -> M B) : M B :=
  fun w =>
    match m w with
    | (Done a, w') => k a w'
    | (Thrown e, w') => (Thrown e, w')
    | (Pending, w') => (Pending, w')
    | (OutOfFuel, w') => (OutOfFuel, w')
    end.

(** [try { m } catch (error) { handler error }] *)
Definition try_catch {A} (m : M A) (handler : value -> M A) : M A :=
  fun w =>
    match m w with
    | (Thrown e, w') => handler e w'
    | r => r
    end.

(** [try { m } finally { cleanup }]: the cleanup runs after a return and
    after a throw; an exception of the cleanup replaces the pending one. *)
Definition try_finally {A} (m : M A) (cleanup : M unit) : M A :=
  fun w =>
    match m w with
    | (Done a, w') => bind cleanup (fun _ => ret a) w'
    | (Thrown e, w') => bind cleanup (fun _ => throw e) w'
    | r => r
    end.

(** [new Promise(async (resolve) => { body })] where [body] ends by
    calling [resolve] with its result: the promise is fulfilled with that
    result.  Nothing rejects it: when [body] throws before it reaches
    [resolve], the rejection belongs to the executor's own promise, which
    nobody holds, and the new promise stays pending for ever. *)
Definition new_Promise_async {A} (body : M A) : M A :=
  fun w =>
    match body w with
    | (Thrown _, w') => (Pending, w')
    | r => r
    end.

(** [self.postMessage(msg)] *)
Definition postMessage (msg : value) : M unit :=
  fun w => (Done tt, {| engine := engine w; trace := trace w;
                        outbox := outbox w ++ [msg];
                        dbInstance := dbInstance w |}).

Definition get_dbInstance : M (option DbHelper) :=
  fun w => (Done (dbInstance w), w).

Definition set_dbInstance (h : DbHelper) : M unit :=
  fun w => (Done tt, {| engine := engine w; trace := trace w;
                        outbox := outbox w; dbInstance := Some h |}).

(** [error.message]; reading a property of [null] or [undefined] is a
    TypeError. *)
Definition get_message (error : value) : M value :=
  match error with
  | VError m => ret (VStr m)
  | VObj fields => ret (get_field fields "message")
  | VNull => throw (VError "Cannot read properties of null (reading 'message')")
  | VUndefined =>
      throw (VError "Cannot read properties of undefined (reading 'message')")
  | _ => ret VUndefined
  end.

(** [try { locals = body } catch (error) { locals = handler error }],
    seen from the [finally] block that follows: the values of the local
    variables the two blocks assign, and the exception still pending when
    the handler itself threw (the locals then keep their initial
    values). *)
Definition try_catch_locals {L} (init : L) (body : M L) (handler : value -> M L)
  : M (L * option value) :=
  fun w =>
    match body w with
    | (Done l, w') => (Done (l, None), w')
    | (Thrown e, w') =>
        match handler e w' with
        | (Done l, w'') => (Done (l, None), w'')
        | (Thrown e', w'') => (Done (init, Some e'), w'')
        | (Pending, w'') => (Pending, w'')
        | (OutOfFuel, w'') => (OutOfFuel, w'')
        end
    | (Pending, w') => (Pending, w')
    | (OutOfFuel, w') => (OutOfFuel, w')
    end.

Definition out_of_fuel {A} : M A := fun w => (OutOfFuel, w).

(** A promise that is started and not awaited: its rejection is lost. *)
Definition not_awaited {A} (m : M A) : M unit :=
  fun w =>
    match m w with
    | (Done _, w') | (Thrown _, w') | (Pending, w') => (Done tt, w')
    | (OutOfFuel, w') => (OutOfFuel, w')
    end.

Variable respond : Call -> E -> Reply * E.

(** The world after the engine has answered call [c] and moved to
    state [e']. *)
Definition answered (c : Call) (e' : E) (w : World E) : World E :=
  {| engine := e'; trace := trace w ++ [c];
     outbox := outbox w; dbInstance := dbInstance w |}.

(** An engine call: logged, then answered by the engine. *)
Definition call (c : Call) : M value :=
  fun w =>
    match respond c (engine w) with
    | (Returns v, e') => (Done v, answered c e' w)
    | (Raises m, e') => (Thrown (VError m), answered c e' w)
    end.

(** A call through [this.sqlite3]: a TypeError while the field is still
    [undefined]. *)
Definition via_sqlite3 (this : DbHelper) (method : string) (c : Call) : M value :=
  if sqlite3 this then call c
  else throw (VError ("Cannot read properties of undefined (reading '"
                        +:+ method +:+ "')")).

End Monad.

Notation "'let!' x ':=' m 'in' k" := (bind m (fun x => k))
  (at level 10, x pattern, m at level 100, k at level 200, only parsing).

(** ** src/public/DBHelperWorker.js *)

Module Public.

(** One element of the [statements] argument: [{ query, values }]. *)
Record Statement : Type := { query : string; values : list value }.

(** [event.data] of the worker's [onmessage], with the fields the handler
    destructures.  [rollbackOnError] and [operationId] are passed on as they
    come; the other fields have the types their handlers use them at. *)
Record Message : Type := {
  action : string;
  dbName : string;
  sql : string;
  queries : list string;
  statements : list Statement;
  selectionArgs : list value;
  rollbackOnError : value;
  operationId : value
}.

(** A callback [(a, b) => { ... }] that assigns variables of its caller:
    a transformer of those variables. *)
Definition Callback {E} (L : Type) : Type := value -> value -> L -> @M E L.

Section DbHelper.
Context {E : Type} (respond : Call -> E -> Reply * E).

Local Abbreviation M := (@M E).
Local Abbreviation call := (call respond).
Local Abbreviation via_sqlite3 := (via_sqlite3 respond).

(** [callback(a, b)]; a missing callback argument is [undefined], and
    calling it is a TypeError. *)
Definition invoke {L} (callback : option (Callback L)) (a b : value) (l : L) : M L :=
  match callback with
  | Some f => f a b l
  | None => throw (VError "callback is not a function")
  end.

(** [v[i]] of array destructuring. *)
Definition item (v : value) (i : nat) : value :=
  match v with
  | VArr items => nth i items VUndefined
  | _ => VUndefined
  end.

(** [constructor(databaseName)] *)
Definition new_DbHelper (databaseName : string) : DbHelper :=
  {| databaseName := databaseName; db := VNull; sqlite3 := false |}.

(** [initializeDatabase()]: assigns [this.sqlite3], then [this.db]. *)
Definition initializeDatabase (this : DbHelper) : M DbHelper :=
  let! sqliteModule := call Api.SQLiteESMFactory in
  let this := {| databaseName := databaseName this; db := db this;
                 sqlite3 := true |} in
  let! vfs := call (Api.VFS_create "my_vfs") in
  let! _ := via_sqlite3 this "vfs_register" (Api.vfs_register vfs) in
  let! handle :=
    via_sqlite3 this "open_v2" (Api.open_v2 (databaseName this) "my_vfs") in
  ret {| databaseName := databaseName this; db := handle; sqlite3 := true |}.

Definition MAX_SQL_CACHE_SIZE : string := "100".

(** [setMaxSqlCacheSize()]: not [async]; the promise of [exec] is
    dropped. *)
Definition setMaxSqlCacheSize (this : DbHelper) : M unit :=
  if truthy (db this) then
    not_awaited (via_sqlite3 this "exec"
      (Api.exec (db this) ("PRAGMA cache_size = " +:+ MAX_SQL_CACHE_SIZE +:+ ";")))
  else ret tt.

(** [static async createDBConnection(databaseName)] *)
Definition createDBConnection (databaseName : string) : M DbHelper :=
  let dbInstance := new_DbHelper databaseName in
  let! dbInstance := initializeDatabase dbInstance in
  let! _ := setMaxSqlCacheSize dbInstance in
  ret dbInstance.

(** [executeRawQuery(sql, selectionArgs = [])]: the per-row callback
    pushes [{ row, columns }]; the engine's answer to [exec_rows] is the
    array of the [[row, columns]] pairs it called the callback with. *)
Definition executeRawQuery (this : DbHelper) (sql : string) : M value :=
  if negb (truthy (db this)) then throw (VError "Database not initialized")
  else
    try_catch
      (let! called := via_sqlite3 this "exec" (Api.exec_rows (db this) sql) in
       let results :=
         match called with
         | VArr pairs =>
             map (fun p => VObj [("row", item p 0); ("columns", item p 1)]) pairs
         | _ => []
         end in
       ret (VArr results))
      (fun error => throw (VError ("Query failed: " +:+ template error))).

(** The loop [for (let query of queries) await exec(db, query)]. *)
Fixpoint exec_each (this : DbHelper) (queries : list string) : M unit :=
  match queries with
  | [] => ret tt
  | query :: rest =>
      let! _ := via_sqlite3 this "exec" (Api.exec (db this) query) in
      exec_each this rest
  end.

(** [executeQueries(queries, rollbackOnError = true)] *)
Definition executeQueries (this : DbHelper) (queries : list string)
    (rollbackOnError : value) : M value :=
  let rollbackOnError := default_param rollbackOnError (VBool true) in
  if negb (truthy (db this)) then throw (VError "Database not initialized")
  else
    try_catch
      (let! _ := via_sqlite3 this "exec" (Api.exec (db this) "BEGIN TRANSACTION;") in
       let! _ := exec_each this queries in
       let! _ := via_sqlite3 this "exec" (Api.exec (db this) "COMMIT;") in
       ret VUndefined)
      (fun error =>
         if truthy rollbackOnError then
           let! _ := via_sqlite3 this "exec" (Api.exec (db this) "ROLLBACK;") in
           let! message := get_message error in
           throw (VError ("Transaction failed, rolled back: " +:+ template message))
         else
           (* console.warn(`Query failed: ${error.message}, continuing...`) *)
           let! _ := get_message error in
           ret VUndefined).

(** The loop [for (let i = 0; i < values.length; i++)
    preparedStatement.bind_text(i + 1, values[i])], from index [i]. *)
Fixpoint bind_each (preparedStatement : value) (i : Z) (values : list value)
  : M unit :=
  match values with
  | [] => ret tt
  | value :: rest =>
      let! _ := call (Api.bind_text preparedStatement (i + 1) value) in
      bind_each preparedStatement (i + 1) rest
  end.

(** [compileAndBindSQLiteStatement(sqlQuery, values)] *)
Definition compileAndBindSQLiteStatement (this : DbHelper) (sqlQuery : string)
    (values : list value) : M value :=
  let! preparedStatement :=
    via_sqlite3 this "prepare" (Api.prepare (db this) sqlQuery) in
  let! _ := bind_each preparedStatement 0 values in
  ret preparedStatement.

(** [executePreparedStatement(sqlQuery, values)]: the statement is
    compiled and bound before the [try]; [finally] finalizes it and then
    resolves with [[runError, lastID]]. *)
Definition executePreparedStatement (this : DbHelper) (sqlQuery : string)
    (values : list value) : M value :=
  new_Promise_async
    (let! preparedStatement :=
       compileAndBindSQLiteStatement this sqlQuery values in
     let! ((runError, lastID), _) :=
       try_catch_locals (VNull, VNull)
         (let! _ := call (Api.stmt_step preparedStatement) in
          let! id := call (Api.lastInsertRowid preparedStatement) in
          ret (VNull, id))
         (fun error =>
            let! message := get_message error in
            ret (message, VNull)) in
     let! _ := call (Api.stmt_finalize preparedStatement) in
     ret (VArr [runError; lastID])).

(** The loop of [executePreparedStatements] over [statements], with the
    ids pushed so far. *)
Fixpoint run_each (this : DbHelper) (statements : list Statement)
    (transactionIDs : list value) : M (list value) :=
  match statements with
  | [] => ret transactionIDs
  | statement :: rest =>
      let! settled :=
        executePreparedStatement this (query statement) (values statement) in
      let error := item settled 0 in
      let lastID := item settled 1 in
      if truthy error then throw error
      else run_each this rest (transactionIDs ++ [lastID])
  end.

(** [executePreparedStatements(statements, rollbackOnError = true)] *)
Definition executePreparedStatements (this : DbHelper)
    (statements : list Statement) (rollbackOnError : value) : M value :=
  let rollbackOnError := default_param rollbackOnError (VBool true) in
  try_catch
    (let! _ := via_sqlite3 this "exec" (Api.exec (db this) "BEGIN TRANSACTION;") in
     let! transactionIDs := run_each this statements [] in
     let! _ := via_sqlite3 this "exec" (Api.exec (db this) "COMMIT;") in
     ret (VArr [VNull; VArr transactionIDs]))
    (fun error =>
       let! _ :=
         if truthy rollbackOnError
         then via_sqlite3 this "exec" (Api.exec (db this) "ROLLBACK;")
         else ret VUndefined in
       ret (VArr [error; VNull])).

(** [executeSelectQuery(sql, callback)] *)
Definition executeSelectQuery {L} (this : DbHelper) (sql : string)
    (callback : option (Callback L)) (l : L) : M L :=
  try_catch
    (let! result := via_sqlite3 this "exec" (Api.exec (db this) sql) in
     invoke callback VNull result l)
    (fun err => invoke callback err VNull l).

(** The loop [while (preparedStatement.step()) result.push(preparedStatement.get())];
    [fuel] bounds the number of iterations. *)
Fixpoint get_each (fuel : nat) (preparedStatement : value) (result : list value)
  : M (list value) :=
  match fuel with
  | O => out_of_fuel
  | S fuel =>
      let! more := call (Api.stmt_step preparedStatement) in
      if truthy more then
        let! row := call (Api.stmt_get preparedStatement) in
        get_each fuel preparedStatement (result ++ [row])
      else ret result
  end.

(** [executeSelectPreparedStatements(sql, selectionArgs, callback)] *)
Definition executeSelectPreparedStatements {L} (fuel : nat) (this : DbHelper)
    (sql : string) (selectionArgs : list value)
    (callback : option (Callback L)) (l : L) : M L :=
  let! preparedStatement :=
    compileAndBindSQLiteStatement this sql selectionArgs in
  try_finally
    (try_catch
       (let! result := get_each fuel preparedStatement [] in
        invoke callback VNull (VArr result) l)
       (fun err => invoke callback err VNull l))
    (let! _ := call (Api.stmt_finalize preparedStatement) in ret tt).

(** [result.length]; a TypeError on [null] and [undefined]. *)
Definition get_length (result : value) : M value :=
  match result with
  | VArr items => ret (VNum (Z.of_nat (length items)))
  | VStr s => ret (VNum (Z.of_nat (String.length s)))
  | VBlob bytes => ret (VNum (Z.of_nat (length bytes)))
  | VObj fields => ret (get_field fields "length")
  | VNull => throw (VError "Cannot read properties of null (reading 'length')")
  | VUndefined =>
      throw (VError "Cannot read properties of undefined (reading 'length')")
  | _ => ret VUndefined
  end.

(** [n > 0] for a length: a number, or [undefined] (then false). *)
Definition greater_than_zero (n : value) : bool :=
  match n with
  | VNum n => 0 <? n
  | _ => false
  end.

(** [isTableFound(tableName, callback)] *)
Definition isTableFound {L} (this : DbHelper) (tableName : string)
    (callback : option (Callback L)) (l : L) : M L :=
  let query :=
    "SELECT DISTINCT tbl_name FROM sqlite_master WHERE tbl_name = '"
      +:+ tableName +:+ "'" in
  try_catch
    (let! result := via_sqlite3 this "exec" (Api.exec (db this) query) in
     let! n := get_length result in
     invoke callback VNull (VBool (greater_than_zero n)) l)
    (fun err => invoke callback err (VBool false) l).

(** [closeDatabase()]: closes the handle; no field is assigned. *)
Definition closeDatabase (this : DbHelper) : M value :=
  if truthy (db this) then
    let! _ := via_sqlite3 this "close" (Api.close (db this)) in
    ret VUndefined
  else ret VUndefined.

(** A method call [dbInstance.method(...)]: a TypeError while the
    variable is [undefined]. *)
Definition on_dbInstance {A} (method : string) (k : DbHelper -> M A) : M A :=
  let! instance := get_dbInstance in
  match instance with
  | Some this => k this
  | None =>
      throw (VError ("Cannot read properties of undefined (reading '"
                       +:+ method +:+ "')"))
  end.

(** The [switch (action)] of [self.onmessage]: the value of [result]
    after it. *)
Definition switch_action (fuel : nat) (data : Message) : M value :=
  if String.eqb (action data) "createDBConnection" then
    let! instance := createDBConnection (dbName data) in
    let! _ := set_dbInstance instance in
    ret (VObj [("success", VBool true);
               ("message", VStr ("Database " +:+ dbName data +:+ " created"))])
  else if String.eqb (action data) "executeRawQuery" then
    on_dbInstance "executeRawQuery" (fun this => executeRawQuery this (sql data))
  else if String.eqb (action data) "executeQueries" then
    let! _ := on_dbInstance "executeQueries" (fun this =>
                executeQueries this (queries data) (rollbackOnError data)) in
    ret (VObj [("success", VBool true);
               ("message", VStr "Queries executed successfully")])
  else if String.eqb (action data) "executePreparedStatements" then
    on_dbInstance "executePreparedStatements" (fun this =>
      executePreparedStatements this (statements data) (rollbackOnError data))
  else if String.eqb (action data) "executeSelectPreparedStatements" then
    let! _ := on_dbInstance "executeSelectPreparedStatements" (fun this =>
                executeSelectPreparedStatements fuel this (sql data)
                  (selectionArgs data) (None : option (Callback unit)) tt) in
    ret VUndefined
  else if String.eqb (action data) "isTableFound" then
    on_dbInstance "isTableFound" (fun this =>
      isTableFound this (dbName data)
        (Some (fun err isFound _ => ret (VObj [("success", isFound)])))
        VUndefined)
  else if String.eqb (action data) "closeDatabase" then
    let! _ := on_dbInstance "closeDatabase" closeDatabase in
    ret (VObj [("success", VBool true);
               ("message", VStr "Database closed successfully")])
  else
    ret (VObj [("error", VStr "Unknown action")]).

(** [self.onmessage = async (event) => { ... }] on [event.data]. *)
Definition onmessage (fuel : nat) (data : Message) : M unit :=
  try_catch
    (let! result := switch_action fuel data in
     postMessage (VObj [("operationId", operationId data); ("result", result)]))
    (fun error =>
       let! message := get_message error in
       postMessage (VObj [("operationId", operationId data); ("error", message)])).

End DbHelper.

End Public.

(** ** A small engine to run the code on

    One table with one NOT NULL text column.  The engine compiles
    [INSERT] statements only, counts their [?] parameters, refuses a
    binding outside that range and fails a step whose parameter is bound to
    [null]. *)

Module Toy.

Record Stmt : Type := {
  handle : Z;
  parameters : Z;
  null_bound : bool
}.

Record State : Type := {
  opened : bool;
  closed : bool;
  in_transaction : bool;
  next_handle : Z;
  live : list Stmt;              (* compiled and not yet finalized *)
  rowid : Z
}.

Definition init : State :=
  {| opened := false; closed := false; in_transaction := false;
     next_handle := 100; live := []; rowid := 0 |}.

Fixpoint count_parameters (sql : string) : Z :=
  match sql with
  | EmptyString => 0
  | String c rest =>
      (if Ascii.eqb c "?"%char then 1 else 0) + count_parameters rest
  end.

Fixpoint find_stmt (h : Z) (l : list Stmt) : option Stmt :=
  match l with
  | [] => None
  | s :: rest => if handle s =? h then Some s else find_stmt h rest
  end.

Definition drop_stmt (h : Z) (l : list Stmt) : list Stmt :=
  filter (fun s => negb (handle s =? h)) l.

Definition usable (db : value) (st : State) : bool :=
  match db with
  | VNum 1 => opened st && negb (closed st)
  | _ => false
  end.

Definition with_live (st : State) (l : list Stmt) : State :=
  {| opened := opened st; closed := closed st;
     in_transaction := in_transaction st; next_handle := next_handle st;
     live := l; rowid := rowid st |}.

Definition with_transaction (st : State) (b : bool) : State :=
  {| opened := opened st; closed := closed st; in_transaction := b;
     next_handle := next_handle st; live := live st; rowid := rowid st |}.

Definition misuse : string := "bad parameter or other API misuse".

Definition respond (c : Call) (st : State) : Reply * State :=
  match c with
  | Api.SQLiteESMFactory => (Returns (VObj []), st)
  | Api.VFS_create name => (Returns (VStr name), st)
  | Api.vfs_register _ => (Returns (VNum 0), st)
  | Api.open_v2 _ _ =>
      (Returns (VNum 1),
       {| opened := true; closed := false; in_transaction := false;
          next_handle := next_handle st; live := live st; rowid := rowid st |})
  | Api.close db =>
      if usable db st then
        (Returns (VNum 0),
         {| opened := opened st; closed := true;
            in_transaction := in_transaction st;
            next_handle := next_handle st; live := live st; rowid := rowid st |})
      else (Raises misuse, st)
  | Api.exec db sql | Api.exec_rows db sql =>
      if negb (usable db st) then (Raises misuse, st)
      else if String.eqb sql "BEGIN TRANSACTION;" then
        if in_transaction st
        then (Raises "cannot start a transaction within a transaction", st)
        else (Returns (VNum 0), with_transaction st true)
      else if String.eqb sql "COMMIT;" then
        if in_transaction st
        then (Returns (VNum 0), with_transaction st false)
        else (Raises "cannot commit - no transaction is active", st)
      else if String.eqb sql "ROLLBACK;" then
        if in_transaction st
        then (Returns (VNum 0), with_transaction st false)
        else (Raises "cannot rollback - no transaction is active", st)
      else if String.prefix "INSERT" sql || String.prefix "CREATE" sql
              || String.prefix "PRAGMA" sql || String.prefix "SELECT" sql
      then (Returns (VNum 0), st)
      else (Raises "syntax error", st)
  | Api.prepare db sql =>
      if negb (usable db st) then (Raises misuse, st)
      else if String.prefix "INSERT" sql then
        (Returns (VNum (next_handle st)),
         {| opened := opened st; closed := closed st;
            in_transaction := in_transaction st;
            next_handle := next_handle st + 1;
            live := live st ++ [{| handle := next_handle st;
                                   parameters := count_parameters sql;
                                   null_bound := false |}];
            rowid := rowid st |})
      else (Raises "syntax error", st)
  | Api.bind_text (VNum h) i v =>
      match find_stmt h (live st) with
      | Some s =>
          if (1 <=? i) && (i <=? parameters s) then
            (Returns (VNum 0),
             with_live st
               (map (fun s' =>
                       if handle s' =? h
                       then {| handle := h; parameters := parameters s';
                               null_bound :=
                                 null_bound s'
                                 || match v with VNull => true | _ => false end |}
                       else s') (live st)))
          else (Raises "column index out of range", st)
      | None => (Raises misuse, st)
      end
  | Api.stmt_step (VNum h) =>
      match find_stmt h (live st) with
      | Some s =>
          if null_bound s then (Raises "NOT NULL constraint failed: t.name", st)
          else
            (Returns (VBool false),
             {| opened := opened st; closed := closed st;
                in_transaction := in_transaction st;
                next_handle := next_handle st; live := live st;
                rowid := rowid st + 1 |})
      | None => (Raises misuse, st)
      end
  | Api.lastInsertRowid (VNum h) =>
      match find_stmt h (live st) with
      | Some _ => (Returns (VNum (rowid st)), st)
      | None => (Raises misuse, st)
      end
  | Api.stmt_finalize (VNum h) =>
      match find_stmt h (live st) with
      | Some _ => (Returns (VNum 0), with_live st (drop_stmt h (live st)))
      | None => (Raises misuse, st)
      end
  | _ => (Raises misuse, st)
  end.

Definition world (st : State) : World State :=
  {| engine := st; trace := []; outbox := []; dbInstance := None |}.

(** The world and the helper after [createDBConnection('sync')]. *)
Definition connected : DbHelper :=
  {| databaseName := "sync"; db := VNum 1; sqlite3 := true |}.

Definition connected_world : World State :=
  {| engine := {| opened := true; closed := false; in_transaction := false;
                  next_handle := 100; live := []; rowid := 0 |};
     trace := []; outbox := []; dbInstance := Some connected |}.

End Toy.

(** ** src/unnamed/part_000: the reader *)

(** The result codes and type tags of [sqlite-constants.js], a file of
    wa-sqlite that is not part of the sources: they are parameters. *)
Record Constants : Type := {
  SQLITE_ROW : Z;
  SQLITE_INTEGER : Z;
  SQLITE_FLOAT : Z;
  SQLITE_TEXT : Z;
  SQLITE_BLOB : Z
}.

Module Draft.

Section DbHelper.
Context {E : Type} (SQLite : Constants) (respond : Call -> E -> Reply * E).

Local Abbreviation M := (@M E).
Local Abbreviation call := (call respond).
Local Abbreviation via_sqlite3 := (via_sqlite3 respond).

(** [v === n] for a number [n]. *)
Definition strict_equal (v : value) (n : Z) : bool :=
  match v with
  | VNum m => m =? n
  | _ => false
  end.

(** The number of turns of [for (let i = 0; i < columnCount; i++)]. *)
Definition turns (columnCount : value) : nat :=
  match columnCount with
  | VNum n => Z.to_nat n
  | _ => O
  end.

(** [for (let i = 0; i < columnCount; i++)
      columnNames.push(this.sqlite3.column_name(stmt, i))], with [todo]
    turns to go from index [i]. *)
Fixpoint push_names (this : DbHelper) (stmt : value) (todo : nat) (i : Z)
    (columnNames : list value) : M (list value) :=
  match todo with
  | O => ret columnNames
  | S todo =>
      let! name := via_sqlite3 this "column_name" (Api.column_name stmt i) in
      push_names this stmt todo (i + 1) (columnNames ++ [name])
  end.

(** The [switch (columnType)] of one column. *)
Definition read_column (this : DbHelper) (stmt : value) (i : Z) : M value :=
  let! columnType := via_sqlite3 this "column_type" (Api.column_type stmt i) in
  if strict_equal columnType (SQLITE_INTEGER SQLite) then
    via_sqlite3 this "column_int" (Api.column_int stmt i)
  else if strict_equal columnType (SQLITE_FLOAT SQLite) then
    via_sqlite3 this "column_float" (Api.column_float stmt i)
  else if strict_equal columnType (SQLITE_BLOB SQLite) then
    via_sqlite3 this "column_blob" (Api.column_blob stmt i)
  else
    via_sqlite3 this "column_text" (Api.column_text stmt i).

(** The key [columnNames[i]] of a property write. *)
Definition key (columnNames : list value) (i : Z) : string :=
  template (nth (Z.to_nat i) columnNames VUndefined).

(** [for (let i = 0; i < columnCount; i++) row[columnNames[i]] = ...] *)
Fixpoint fill_row (this : DbHelper) (stmt : value) (columnNames : list value)
    (todo : nat) (i : Z) (row : list (string * value))
  : M (list (string * value)) :=
  match todo with
  | O => ret row
  | S todo =>
      let! v := read_column this stmt i in
      fill_row this stmt columnNames todo (i + 1)
        (assign_field row (key columnNames i) v)
  end.

(** [while (await this.sqlite3.step(stmt) === SQLite.SQLITE_ROW)];
    [fuel] bounds the number of steps. *)
Fixpoint step_rows (fuel : nat) (this : DbHelper) (stmt columnCount : value)
    (columnNames : list value) (records : list value) : M (list value) :=
  match fuel with
  | O => out_of_fuel
  | S fuel =>
      let! code := via_sqlite3 this "step" (Api.step stmt) in
      if strict_equal code (SQLITE_ROW SQLite) then
        let! row := fill_row this stmt columnNames (turns columnCount) 0 [] in
        step_rows fuel this stmt columnCount columnNames (records ++ [VObj row])
      else ret records
  end.

(** The body of the [for await] loop for one statement. *)
Definition read_statement (fuel : nat) (this : DbHelper) (stmt : value)
    (selectionArgs : option (list value)) (records : list value)
  : M (list value) :=
  let! columnCount := via_sqlite3 this "column_count" (Api.column_count stmt) in
  let! _ :=
    match selectionArgs with
    | Some (arg :: args) =>
        via_sqlite3 this "bind_collection"
          (Api.bind_collection stmt (arg :: args))
    | _ => ret VUndefined
    end in
  let! columnNames := push_names this stmt (turns columnCount) 0 [] in
  step_rows fuel this stmt columnCount columnNames records.

(** [for await (const stmt of iterator)]: asks for the next statement
    until the iterator is done; a throw of the body closes the iterator
    and goes on; [fuel] bounds the number of statements. *)
Fixpoint for_await (fuel steps : nat) (this : DbHelper) (iterator : value)
    (selectionArgs : option (list value)) (records : list value)
  : M (list value) :=
  match fuel with
  | O => out_of_fuel
  | S fuel =>
      let! result := call (Api.next iterator) in
      match result with
      | VObj fields =>
          if truthy (get_field fields "done") then ret records
          else
            let! records :=
              try_catch
                (read_statement steps this (get_field fields "value")
                   selectionArgs records)
                (fun error =>
                   let! _ := not_awaited (call (Api.iterator_return iterator)) in
                   throw error) in
            for_await fuel steps this iterator selectionArgs records
      | _ => throw (VError "Iterator result is not an object")
      end
  end.

(** [executeRawQuery(sql, selectionArgs)]; [None] is a missing
    argument. *)
Definition executeRawQuery (fuel : nat) (this : DbHelper) (sql : string)
    (selectionArgs : option (list value)) : M value :=
  try_catch
    (let! iterator := via_sqlite3 this "statements" (Api.statements (db this) sql) in
     let! records := for_await fuel fuel this iterator selectionArgs [] in
     ret (VArr records))
    (fun error =>
       throw (VError ("Database select query failed: " +:+ template error))).

(** [executeSelectPreparedStatements(sql, selectionArgs)] *)
Definition executeSelectPreparedStatements (fuel : nat) (this : DbHelper)
    (sql : string) (selectionArgs : option (list value)) : M value :=
  try_catch (executeRawQuery fuel this sql selectionArgs)
    (fun error => throw (VError "Database select query failed")).

End DbHelper.

End Draft.

(** ** An engine that plays back a result set

    What a text compiles to is given in advance: its statements, and for
    each the column names and the rows, a row being for each column the
    type tag and what each of the four accessors returns for it.  The
    engine knows its handles: it answers [statements] for the database it
    has open, [next] for the iterator it gave, and the calls on a statement
    for the statement it last handed out, and it refuses any other
    handle. *)

Module Script.

Record Cell : Type := {
  tag : Z;
  as_int : value;
  as_float : value;
  as_blob : value;
  as_text : value
}.

Record Prepared : Type := {
  names : list string;
  rows : list (list Cell)
}.

Record State : Type := {
  database : Z;                   (* the handle of the open database *)
  pending : list Prepared;        (* statements not yet handed out *)
  current : Z;                    (* the statement being read, -1 for none *)
  names_now : list string;        (* its columns *)
  row_now : list Cell;            (* the row under the cursor *)
  rows_left : list (list Cell)
}.

Definition start (db : Z) (script : list Prepared) : State :=
  {| database := db; pending := script; current := -1; names_now := [];
     row_now := []; rows_left := [] |}.

Definition misuse : string := "bad parameter or other API misuse".

Definition is_database (db : value) (st : State) : bool :=
  match db with
  | VNum d => d =? database st
  | _ => false
  end.

Definition is_iterator (iterator : value) : bool :=
  match iterator with
  | VStr s => String.eqb s "statements"
  | _ => false
  end.

Definition is_current (stmt : value) (st : State) : bool :=
  match stmt with
  | VNum h => h =? current st
  | _ => false
  end.

Section Respond.
Variable SQLite : Constants.

Definition no_cell : Cell :=
  {| tag := SQLITE_TEXT SQLite; as_int := VNum 0; as_float := VFloat 0;
     as_blob := VNull; as_text := VNull |}.

Definition cell (st : State) (i : Z) : Cell :=
  nth (Z.to_nat i) (row_now st) no_cell.

(** The answer to a call on the statement being read. *)
Definition read (c : Call) (st : State) : Reply * State :=
  match c with
  | Api.column_count _ =>
      (Returns (VNum (Z.of_nat (length (names_now st)))), st)
  | Api.column_name _ i =>
      (Returns (VStr (nth (Z.to_nat i) (names_now st) "")), st)
  | Api.bind_collection _ _ => (Returns (VNum 0), st)
  | Api.step _ =>
      match rows_left st with
      | [] => (Returns (VNum (SQLITE_ROW SQLite + 1)), st)
      | r :: rest =>
          (Returns (VNum (SQLITE_ROW SQLite)),
           {| database := database st; pending := pending st;
              current := current st; names_now := names_now st;
              row_now := r; rows_left := rest |})
      end
  | Api.column_type _ i => (Returns (VNum (tag (cell st i))), st)
  | Api.column_int _ i => (Returns (as_int (cell st i)), st)
  | Api.column_float _ i => (Returns (as_float (cell st i)), st)
  | Api.column_blob _ i => (Returns (as_blob (cell st i)), st)
  | Api.column_text _ i => (Returns (as_text (cell st i)), st)
  | _ => (Raises "not a read call", st)
  end.

Definition respond (c : Call) (st : State) : Reply * State :=
  match c with
  | Api.statements db _ =>
      if is_database db st then (Returns (VStr "statements"), st)
      else (Raises misuse, st)
  | Api.next iterator =>
      if is_iterator iterator then
        match pending st with
        | [] =>
            (Returns (VObj [("value", VUndefined); ("done", VBool true)]),
             {| database := database st; pending := []; current := -1;
                names_now := names_now st; row_now := row_now st;
                rows_left := rows_left st |})
        | p :: rest =>
            (Returns (VObj [("value", VNum (Z.of_nat (length rest)));
                            ("done", VBool false)]),
             {| database := database st; pending := rest;
                current := Z.of_nat (length rest); names_now := names p;
                row_now := []; rows_left := rows p |})
        end
      else (Raises misuse, st)
  | Api.iterator_return iterator =>
      if is_iterator iterator then (Returns VUndefined, st)
      else (Raises misuse, st)
  | Api.column_count stmt | Api.column_name stmt _
  | Api.bind_collection stmt _ | Api.step stmt
  | Api.column_type stmt _ | Api.column_int stmt _ | Api.column_float stmt _
  | Api.column_blob stmt _ | Api.column_text stmt _ =>
      if is_current stmt st then read c st else (Raises misuse, st)
  | _ => (Raises "not a read call", st)
  end.

(** The rows the select operation is to return, in the words of its
    description: the typed value of a column is chosen by its type tag
    (integer, floating point, blob; text otherwise), a Row maps each
    column name to the typed value of its column, and the rows of all
    statements follow each other in statement order, then row order.  As
    an object, a Row has one property per column name, the last column of
    a name giving its value, and none for a column named [__proto__]. *)
Definition typed_value (c : Cell) : value :=
  if tag c =? SQLITE_INTEGER SQLite then as_int c
  else if tag c =? SQLITE_FLOAT SQLite then as_float c
  else if tag c =? SQLITE_BLOB SQLite then as_blob c
  else as_text c.

Definition Row (names : list string) (cells : list Cell) : value :=
  VObj (fold_left
          (fun row nc => assign_field row (fst nc) (typed_value (snd nc)))
          (combine names cells) []).

Definition rows_of (script : list Prepared) : list value :=
  flat_map (fun p => map (Row (names p)) (rows p)) script.

(** Every row has one cell per column. *)
Definition well_formed (script : list Prepared) : Prop :=
  Forall (fun p => Forall (fun r => length r = length (names p)) (rows p)) script.

(** The steps the engine is asked for: one per row and a last one per
    statement. *)
Definition steps_needed (script : list Prepared) : nat :=
  list_max (map (fun p => S (length (rows p))) script).

End Respond.

End Script.

(** The constants as SQLite defines them. *)
Definition sqlite_constants : Constants :=
  {| SQLITE_ROW := 100; SQLITE_INTEGER := 1; SQLITE_FLOAT := 2;
     SQLITE_TEXT := 3; SQLITE_BLOB := 4 |}.

(** ** src/wasm-sql/DatabaseManager.js *)

Module Router.

(** The state of a promise made by [postToWorker]. *)
Inductive Settlement : Type :=
  | Unsettled
  | Resolved (result : value)
  | Rejected (error : value).

(** What happened, in order: a [pendingOperations.set] and a
    [worker.postMessage]. *)
Inductive Event : Type :=
  | Registered (operationId : string) (promise : nat)
  | Posted (message : value).

(** [this] of a [DatabaseManager].  A promise is named by its index in
    [promises]; the pair [{ resolve, reject }] stored in the table is the
    pair of settling functions of one promise, and is named by it.
    [worker] is the list of messages posted to the worker, [None] after
    [terminateWorker]. *)
Record DatabaseManager : Type := {
  worker : option (list value);
  pendingOperations : gmap string nat;
  promises : list Settlement;
  events : list Event
}.

(** [new DatabaseManager()] *)
Definition new_DatabaseManager : DatabaseManager :=
  {| worker := Some []; pendingOperations := ∅; promises := []; events := [] |}.

(** [resolve(v)] and [reject(e)] of promise [p]: the first call settles
    it, later calls do nothing. *)
Definition settle (p : nat) (s : Settlement) (promises : list Settlement)
  : list Settlement :=
  match promises !! p with
  | Some Unsettled => <[p := s]> promises
  | _ => promises
  end.

(** [this.worker.onmessage] on [event.data = { operationId, result, error }]. *)
Definition onmessage (data : list (string * value)) (this : DatabaseManager)
  : DatabaseManager :=
  let operationId := get_field data "operationId" in
  let result := get_field data "result" in
  let error := get_field data "error" in
  match operationId with
  | VStr id =>
      match pendingOperations this !! id with
      | Some p =>
          {| worker := worker this;
             pendingOperations := delete id (pendingOperations this);
             promises :=
               settle p (if truthy error then Rejected error else Resolved result)
                 (promises this);
             events := events this |}
      | None => this
      end
  | _ => this                       (* the keys of the table are strings *)
  end.

(** [generateOperationId()], from the text [Math.random().toString(36)]. *)
Definition generateOperationId (random36 : string) : string :=
  substring 2 9 random36.

(** [{ operationId, action, ...data }] *)
Definition request (operationId action : string) (data : list (string * value))
  : value :=
  VObj (fold_left (fun fields kv => set_field fields (fst kv) (snd kv)) data
          [("operationId", VStr operationId); ("action", VStr action)]).

(** The first statement of the executor of [postToWorker]. *)
Definition register (operationId : string) (p : nat) (this : DatabaseManager)
  : DatabaseManager :=
  {| worker := worker this;
     pendingOperations := <[operationId := p]> (pendingOperations this);
     promises := promises this;
     events := events this ++ [Registered operationId p] |}.

(** The second statement: a TypeError, which rejects the promise, when
    [this.worker] is [null]. *)
Definition transmit (message : value) (p : nat) (this : DatabaseManager)
  : DatabaseManager :=
  match worker this with
  | Some inbox =>
      {| worker := Some (inbox ++ [message]);
         pendingOperations := pendingOperations this;
         promises := promises this;
         events := events this ++ [Posted message] |}
  | None =>
      {| worker := None;
         pendingOperations := pendingOperations this;
         promises :=
           settle p
             (Rejected
                (VError "Cannot read properties of null (reading 'postMessage')"))
             (promises this);
         events := events this |}
  end.

(** [postToWorker(action, data = {})] with the random text drawn for the
    id: the manager afterwards and the promise returned. *)
Definition postToWorker (random36 : string) (action : string)
    (data : list (string * value)) (this : DatabaseManager)
  : DatabaseManager * nat :=
  let operationId := generateOperationId random36 in
  let p := length (promises this) in
  let this := {| worker := worker this;
                 pendingOperations := pendingOperations this;
                 promises := promises this ++ [Unsettled];
                 events := events this |} in
  let this := register operationId p this in
  let this := transmit (request operationId action data) p this in
  (this, p).

(** [terminateWorker()] *)
Definition terminateWorker (this : DatabaseManager) : DatabaseManager :=
  {| worker := None; pendingOperations := pendingOperations this;
     promises := promises this; events := events this |}.

(** The reply the worker posts for a request: [{ operationId, result }]. *)
Definition reply (operationId : string) (result : value) : list (string * value) :=
  [("operationId", VStr operationId); ("result", result)].

End Router.

(** ** src/unnamed/part_000: the rest of the worker *)

Module Part000.

Section DbHelper.
Context {E : Type} (SQLite : Constants) (SQLITE_OK : Z)
  (respond : Call -> E -> Reply * E).

Local Abbreviation M := (@M E).
Local Abbreviation call := (call respond).
Local Abbreviation via_sqlite3 := (via_sqlite3 respond).

(** [o.value]; reading a property of [null] or [undefined] is a
    TypeError. *)
Definition get_value (o : value) : M value :=
  match o with
  | VObj fields => ret (get_field fields "value")
  | VNull => throw (VError "Cannot read properties of null (reading 'value')")
  | VUndefined =>
      throw (VError "Cannot read properties of undefined (reading 'value')")
  | _ => ret VUndefined
  end.

(** [initializeDatabase()], the same text as in [src/public]. *)
Definition initializeDatabase (this : DbHelper) : M DbHelper :=
  let! sqliteModule := call Api.SQLiteESMFactory in
  let this := {| databaseName := databaseName this; db := db this;
                 sqlite3 := true |} in
  let! vfs := call (Api.VFS_create "my_vfs") in
  let! _ := via_sqlite3 this "vfs_register" (Api.vfs_register vfs) in
  let! handle :=
    via_sqlite3 this "open_v2" (Api.open_v2 (databaseName this) "my_vfs") in
  ret {| databaseName := databaseName this; db := handle; sqlite3 := true |}.

(** [async setMaxSqlCacheSize()]: here the [exec] is awaited. *)
Definition setMaxSqlCacheSize (this : DbHelper) : M unit :=
  if truthy (db this) then
    let! _ := via_sqlite3 this "exec"
                (Api.exec (db this)
                   ("PRAGMA cache_size = " +:+ Public.MAX_SQL_CACHE_SIZE +:+ ";")) in
    ret tt
  else ret tt.

(** [static async createDBConnection(databaseName)]: both steps are
    awaited. *)
Definition createDBConnection (databaseName : string) : M DbHelper :=
  let dbInstance := Public.new_DbHelper databaseName in
  let! dbInstance := initializeDatabase dbInstance in
  let! _ := setMaxSqlCacheSize dbInstance in
  ret dbInstance.

(** [executeQueries(queries, rollbackOnError = true)], the same text as
    in [src/public]. *)
Definition executeQueries (this : DbHelper) (queries : list string)
    (rollbackOnError : value) : M value :=
  let rollbackOnError := default_param rollbackOnError (VBool true) in
  if negb (truthy (db this)) then throw (VError "Database not initialized")
  else
    try_catch
      (let! _ := via_sqlite3 this "exec" (Api.exec (db this) "BEGIN TRANSACTION;") in
       let! _ := Public.exec_each respond this queries in
       let! _ := via_sqlite3 this "exec" (Api.exec (db this) "COMMIT;") in
       ret VUndefined)
      (fun error =>
         if truthy rollbackOnError then
           let! _ := via_sqlite3 this "exec" (Api.exec (db this) "ROLLBACK;") in
           let! message := get_message error in
           throw (VError ("Transaction failed, rolled back: " +:+ template message))
         else
           let! _ := get_message error in
           ret VUndefined).

(** [compileAndBindSQLiteStatement(sqlQuery, values)]: the first
    statement the iterator yields, with all values bound at once. *)
Definition compileAndBindSQLiteStatement (this : DbHelper) (sqlQuery : string)
    (values : list value) : M value :=
  let! preparedStatements :=
    via_sqlite3 this "statements" (Api.statements (db this) sqlQuery) in
  let! preparedStatementObj := call (Api.next preparedStatements) in
  let! stmt := get_value preparedStatementObj in
  let! result :=
    via_sqlite3 this "bind_collection" (Api.bind_collection stmt values) in
  get_value preparedStatementObj.

(** [executePreparedStatement(sqlQuery, values)]: [lastID] is what
    [sqlite3.step] returns. *)
Definition executePreparedStatement (this : DbHelper) (sqlQuery : string)
    (values : list value) : M value :=
  new_Promise_async
    (let! preparedStatement :=
       compileAndBindSQLiteStatement this sqlQuery values in
     let! ((runError, lastID), _) :=
       try_catch_locals (VNull, VNull)
         (let! id := via_sqlite3 this "step" (Api.step preparedStatement) in
          ret (VNull, id))
         (fun error =>
            let! message := get_message error in
            ret (message, VNull)) in
     let! _ := via_sqlite3 this "finalize" (Api.finalize preparedStatement) in
     ret (VArr [runError; lastID])).

(** The loop of [executePreparedStatements]. *)
Fixpoint run_each (this : DbHelper) (statements : list Public.Statement)
    (transactionIDs : list value) : M (list value) :=
  match statements with
  | [] => ret transactionIDs
  | statement :: rest =>
      let! settled :=
        executePreparedStatement this (Public.query statement)
          (Public.values statement) in
      let error := Public.item settled 0 in
      let lastID := Public.item settled 1 in
      if truthy error then throw error
      else run_each this rest (transactionIDs ++ [lastID])
  end.

(** [executePreparedStatements(statements, rollbackOnError = true)] *)
Definition executePreparedStatements (this : DbHelper)
    (statements : list Public.Statement) (rollbackOnError : value) : M value :=
  let rollbackOnError := default_param rollbackOnError (VBool true) in
  try_catch
    (let! _ := via_sqlite3 this "exec" (Api.exec (db this) "BEGIN TRANSACTION;") in
     let! transactionIDs := run_each this statements [] in
     let! _ := via_sqlite3 this "exec" (Api.exec (db this) "COMMIT;") in
     ret (VArr [VNull; VArr transactionIDs]))
    (fun error =>
       let! _ :=
         if truthy rollbackOnError
         then via_sqlite3 this "exec" (Api.exec (db this) "ROLLBACK;")
         else ret VUndefined in
       ret (VArr [error; VNull])).

(** [isTableFound(tableName, callback)]: found means that [exec]
    returned [SQLITE_OK]. *)
Definition isTableFound {L} (this : DbHelper) (tableName : string)
    (callback : option (Public.Callback L)) (l : L) : M L :=
  let query :=
    "SELECT DISTINCT tbl_name FROM sqlite_master WHERE tbl_name = '"
      +:+ tableName +:+ "'" in
  try_catch
    (let! result := via_sqlite3 this "exec" (Api.exec (db this) query) in
     Public.invoke callback VNull
       (VBool (Draft.strict_equal result SQLITE_OK)) l)
    (fun err => Public.invoke callback err (VBool false) l).

(** [closeDatabase()], the same text as in [src/public]. *)
Definition closeDatabase (this : DbHelper) : M value :=
  if truthy (db this) then
    let! _ := via_sqlite3 this "close" (Api.close (db this)) in
    ret VUndefined
  else ret VUndefined.

(** The [switch (action)] of [self.onmessage]. *)
Definition switch_action (fuel : nat) (data : Public.Message) : M value :=
  if String.eqb (Public.action data) "createDBConnection" then
    let! instance := createDBConnection (Public.dbName data) in
    let! _ := set_dbInstance instance in
    ret (VObj [("success", VBool true);
               ("message",
                VStr ("Database " +:+ Public.dbName data +:+ " created"))])
  else if String.eqb (Public.action data) "executeRawQuery" then
    Public.on_dbInstance "executeRawQuery" (fun this =>
      Draft.executeRawQuery SQLite respond fuel this (Public.sql data) None)
  else if String.eqb (Public.action data) "executeQueries" then
    let! _ := Public.on_dbInstance "executeQueries" (fun this =>
                executeQueries this (Public.queries data)
                  (Public.rollbackOnError data)) in
    ret (VObj [("success", VBool true);
               ("message", VStr "Queries executed successfully")])
  else if String.eqb (Public.action data) "executePreparedStatements" then
    Public.on_dbInstance "executePreparedStatements" (fun this =>
      executePreparedStatements this (Public.statements data)
        (Public.rollbackOnError data))
  else if String.eqb (Public.action data) "executeSelectPreparedStatements" then
    Public.on_dbInstance "executeSelectPreparedStatements" (fun this =>
      Draft.executeSelectPreparedStatements SQLite respond fuel this
        (Public.sql data) (Some (Public.selectionArgs data)))
  else if String.eqb (Public.action data) "isTableFound" then
    Public.on_dbInstance "isTableFound" (fun this =>
      isTableFound this (Public.dbName data)
        (Some (fun err isFound _ => ret (VObj [("success", isFound)])))
        VUndefined)
  else if String.eqb (Public.action data) "closeDatabase" then
    let! _ := Public.on_dbInstance "closeDatabase" closeDatabase in
    ret (VObj [("success", VBool true);
               ("message", VStr "Database closed successfully")])
  else
    ret (VObj [("error", VStr "Unknown action")]).

(** [self.onmessage] *)
Definition onmessage (fuel : nat) (data : Public.Message) : M unit :=
  try_catch
    (let! result := switch_action fuel data in
     postMessage (VObj [("operationId", Public.operationId data);
                        ("result", result)]))
    (fun error =>
       let! message := get_message error in
       postMessage (VObj [("operationId", Public.operationId data);
                          ("error", message)])).

End DbHelper.

End Part000.

(** ** src/wasm-sql/DatabaseManager.js: the wrapper methods *)

Module Manager.

(** Each wrapper is one [postToWorker]; [random36] is the random text
    drawn for its id. *)
Definition createDBConnection (random36 dbName : string) :=
  Router.postToWorker random36 "createDBConnection" [("dbName", VStr dbName)].

Definition executeRawQuery (random36 sql : string) (selectionArgs : value) :=
  Router.postToWorker random36 "executeRawQuery"
    [("sql", VStr sql); ("selectionArgs", selectionArgs)].

Definition executeQueries (random36 : string) (queries rollbackOnError : value) :=
  Router.postToWorker random36 "executeQueries"
    [("queries", queries);
     ("rollbackOnError", default_param rollbackOnError (VBool true))].

Definition executePreparedStatements (random36 : string)
    (statements rollbackOnError : value) :=
  Router.postToWorker random36 "executePreparedStatements"
    [("statements", statements);
     ("rollbackOnError", default_param rollbackOnError (VBool true))].

Definition executeSelectPreparedStatements (random36 sql : string)
    (selectionArgs : value) :=
  Router.postToWorker random36 "executeSelectPreparedStatements"
    [("sql", VStr sql); ("selectionArgs", selectionArgs)].

Definition isTableFound (random36 tableName : string) :=
  Router.postToWorker random36 "isTableFound" [("dbName", VStr tableName)].

Definition closeDatabase (random36 : string) :=
  Router.postToWorker random36 "closeDatabase" [].

(** The first statement of [exportDatabase()]: the request.  What it
    does with the reply is work on the page and is not modelled. *)
Definition exportDatabase_request (random36 : string) :=
  Router.postToWorker random36 "exportDatabase" [].

End Manager.

(** A manager is [sound] when every waiter in [pendingOperations] names
    an unsettled promise and no two ids share a waiter. *)
Definition sound (this : Router.DatabaseManager) : Prop :=
  forall id p,
    Router.pendingOperations this !! id = Some p ->
    Router.promises this !! p = Some Router.Unsettled
    /\ forall id', Router.pendingOperations this !! id' = Some p -> id' = id.

(** What can happen to a manager with a live worker: a request is sent,
    or a message arrives from the worker. *)
Inductive Step : Type :=
  | Send (random36 action : string) (data : list (string * value))
  | Receive (data : list (string * value)).

Definition step (this : Router.DatabaseManager) (s : Step) : Router.DatabaseManager :=
  match s with
  | Send random36 action data =>
      fst (Router.postToWorker random36 action data this)
  | Receive data => Router.onmessage data this
  end.

(** ** src/wasm-sql/DatabaseManager.js: the stream source of the export *)

Module DatabaseSource.

(** The calls on the VFS, and what the VFS answers: the result code, and
    what it stored through the call's out-parameter (the 64-bit size for
    [jFileSize], the bytes for [jRead]). *)
Inductive VfsCall : Type :=
  | jOpen (path : string) (fileId flags : Z)
  | jLock (fileId lock : Z)
  | jFileSize (fileId : Z)
  | jRead (fileId length iOffset : Z)
  | jClose (fileId : Z)
  | jUnlock (fileId lock : Z).

Record VfsReply : Type := {
  code : Z;
  size : Z;
  bytes : list Z
}.

(** The constants of [VFS.js], a file of wa-sqlite that is not part of
    the sources. *)
Record VfsConstants : Type := {
  SQLITE_OK : Z;
  SQLITE_OPEN_MAIN_DB : Z;
  SQLITE_OPEN_READONLY : Z;
  SQLITE_LOCK_SHARED : Z;
  SQLITE_LOCK_NONE : Z
}.

(** What the source tells the stream's controller. *)
Inductive Event : Type :=
  | Enqueue (chunk : list Z)
  | Close
  | Error (e : value).

(** The functions pushed on [#onDone]. *)
Inductive Cleanup : Type :=
  | CloseFile                    (* () => vfs.jClose(fileId) *)
  | Unlock.                      (* () => vfs.jUnlock(fileId, SQLITE_LOCK_NONE) *)

Inductive Settled : Type :=
  | NotYet
  | Fulfilled
  | Rejected (e : value).

(** The private fields, the promise behind [isDone], the VFS and the
    controller, with the VFS calls made so far. *)
Record Source (V : Type) : Type := {
  path : string;
  fileId : Z;
  iOffset : Z;
  bytesRemaining : Z;
  onDone : list Cleanup;
  isDone : Settled;
  vfs : V;
  calls : list VfsCall;
  controller : list Event
}.
Arguments path {V} _.
Arguments fileId {V} _.
Arguments iOffset {V} _.
Arguments bytesRemaining {V} _.
Arguments onDone {V} _.
Arguments isDone {V} _.
Arguments vfs {V} _.
Arguments calls {V} _.
Arguments controller {V} _.

(** [Number(n)] for a BigInt [0 <= n < 2^64]: exact up to [2^53], the
    nearest double (ties to even) above. *)
Definition Number (n : Z) : Z :=
  if n <? 2 ^ 53 then n
  else
    let e := Z.log2 n - 52 in
    let q := n / 2 ^ e in
    let r := n mod 2 ^ e in
    let half := 2 ^ (e - 1) in
    let q := if r <? half then q
             else if half <? r then q + 1
             else if Z.even q then q else q + 1 in
    q * 2 ^ e.

(** A [Uint8Array] of [n] bytes after the VFS has stored [stored] from
    its start. *)
Definition filled (n : Z) (stored : list Z) : list Z :=
  firstn (Z.to_nat n) (stored ++ repeat 0 (Z.to_nat n)).

Section Source.
Context {V : Type} (K : VfsConstants) (answer : VfsCall -> V -> VfsReply * V).

(** [new DatabaseSource(vfs, path)], with the random file id drawn. *)
Definition new_DatabaseSource (v : V) (path : string) (fileId : Z) : Source V :=
  {| path := path; fileId := fileId; iOffset := 0; bytesRemaining := 0;
     onDone := []; isDone := NotYet; vfs := v; calls := [];
     controller := [] |}.

(** A VFS call: logged, then answered. *)
Definition ask (c : VfsCall) (this : Source V) : VfsReply * Source V :=
  let (r, v) := answer c (vfs this) in
  (r, {| path := path this; fileId := fileId this; iOffset := iOffset this;
         bytesRemaining := bytesRemaining this; onDone := onDone this;
         isDone := isDone this; vfs := v; calls := calls this ++ [c];
         controller := controller this |}).

(** [check(code)]: the Error it throws, if any. *)
Definition check (code : Z) : option value :=
  if code =? SQLITE_OK K then None
  else Some (VError ("Error code: " +:+ pretty code)).

(** [this.#onDone.push(f)] *)
Definition push (f : Cleanup) (this : Source V) : Source V :=
  {| path := path this; fileId := fileId this; iOffset := iOffset this;
     bytesRemaining := bytesRemaining this; onDone := onDone this ++ [f];
     isDone := isDone this; vfs := vfs this; calls := calls this;
     controller := controller this |}.

(** [controller.enqueue], [controller.close] and [controller.error] *)
Definition tell (ev : Event) (this : Source V) : Source V :=
  {| path := path this; fileId := fileId this; iOffset := iOffset this;
     bytesRemaining := bytesRemaining this; onDone := onDone this;
     isDone := isDone this; vfs := vfs this; calls := calls this;
     controller := controller this ++ [ev] |}.

(** The [finally] of [isDone]: [while (onDone.length) await onDone.pop()()],
    on the list of functions from the last pushed to the first. *)
Fixpoint run_onDone (last_first : list Cleanup) (this : Source V) : Source V :=
  match last_first with
  | [] => this
  | f :: rest =>
      let c := match f with
               | CloseFile => jClose (fileId this)
               | Unlock => jUnlock (fileId this) (SQLITE_LOCK_NONE K)
               end in
      run_onDone rest (snd (ask c this))
  end.

(** [this.#resolve()] and [this.#reject(e)]: the first one settles
    [isDone], which runs the [finally]; a later one does nothing. *)
Definition settle (s : Settled) (this : Source V) : Source V :=
  match isDone this with
  | NotYet =>
      run_onDone (rev (onDone this))
        {| path := path this; fileId := fileId this; iOffset := iOffset this;
           bytesRemaining := bytesRemaining this; onDone := [];
           isDone := s; vfs := vfs this; calls := calls this;
           controller := controller this |}
  | _ => this
  end.

(** The [catch] block of [start] and [pull]. *)
Definition fail (e : value) (this : Source V) : Source V :=
  settle (Rejected e) (tell (Error e) this).

(** [start(controller)] *)
Definition start (this : Source V) : Source V :=
  let flags := Z.lor (SQLITE_OPEN_MAIN_DB K) (SQLITE_OPEN_READONLY K) in
  let (opened, this) := ask (jOpen (path this) (fileId this) flags) this in
  match check (code opened) with
  | Some e => fail e this
  | None =>
      let this := push CloseFile this in
      let (locked, this) := ask (jLock (fileId this) (SQLITE_LOCK_SHARED K)) this in
      match check (code locked) with
      | Some e => fail e this
      | None =>
          let this := push Unlock this in
          let (sized, this) := ask (jFileSize (fileId this)) this in
          match check (code sized) with
          | Some e => fail e this
          | None =>
              {| path := path this; fileId := fileId this;
                 iOffset := iOffset this;
                 bytesRemaining := Number (size sized mod 2 ^ 64);
                 onDone := onDone this; isDone := isDone this;
                 vfs := vfs this; calls := calls this;
                 controller := controller this |}
          end
      end
  end.

(** [pull(controller)] *)
Definition pull (this : Source V) : Source V :=
  let byteLength := Z.min (bytesRemaining this) 65536 in
  if byteLength <? 0 then
    fail (VError ("Invalid typed array length: " +:+ pretty byteLength)) this
  else
    let (read, this) := ask (jRead (fileId this) byteLength (iOffset this)) this in
    match check (code read) with
    | Some e => fail e this
    | None =>
        let this := tell (Enqueue (filled byteLength (bytes read))) this in
        let this :=
          {| path := path this; fileId := fileId this;
             iOffset := iOffset this + byteLength;
             bytesRemaining := bytesRemaining this - byteLength;
             onDone := onDone this; isDone := isDone this;
             vfs := vfs this; calls := calls this;
             controller := controller this |} in
        if bytesRemaining this =? 0
        then settle Fulfilled (tell Close this)
        else this
    end.

(** [cancel(reason)] *)
Definition cancel (reason : string) (this : Source V) : Source V :=
  settle (Rejected (VError reason)) this.

(** The stream has been closed or put in error. *)
Definition ended (this : Source V) : bool :=
  existsb (fun ev => match ev with Enqueue _ => false | _ => true end)
    (controller this).

(** A reader that takes the stream to its end: [pull] is called as long
    as the stream is open; [fuel] bounds the number of chunks. *)
Fixpoint pull_all (fuel : nat) (this : Source V) : Source V :=
  match fuel with
  | O => this
  | S fuel => if ended this then this else pull_all fuel (pull this)
  end.

Definition read_all (fuel : nat) (this : Source V) : Source V :=
  pull_all fuel (start this).

(** The chunks given to the controller, in order. *)
Definition chunks (this : Source V) : list (list Z) :=
  flat_map (fun ev => match ev with Enqueue c => [c] | _ => [] end)
    (controller this).

End Source.

(** A VFS over one file held in memory: every call succeeds, except a
    read that runs past the end of the file. *)
Definition file_constants : VfsConstants :=
  {| SQLITE_OK := 0; SQLITE_OPEN_MAIN_DB := 256; SQLITE_OPEN_READONLY := 1;
     SQLITE_LOCK_SHARED := 1; SQLITE_LOCK_NONE := 0 |}.

Definition file_vfs (c : VfsCall) (content : list Z) : VfsReply * list Z :=
  match c with
  | jFileSize _ =>
      ({| code := 0; size := Z.of_nat (length content); bytes := [] |}, content)
  | jRead _ n offset =>
      if (0 <=? offset) && (offset + n <=? Z.of_nat (length content)) then
        ({| code := 0; size := 0;
            bytes := firstn (Z.to_nat n) (skipn (Z.to_nat offset) content) |},
         content)
      else ({| code := 522; size := 0; bytes := [] |}, content)
  | _ => ({| code := 0; size := 0; bytes := [] |}, content)
  end.

End DatabaseSource.

(** ** An engine that plays back answers

    The answers are given in advance, one per call, whatever the call:
    the engine for the paths on which a particular call fails. *)

Module Replay.

Definition respond (c : Call) (answers : list Reply) : Reply * list Reply :=
  match answers with
  | r :: rest => (r, rest)
  | [] => (Raises "no answer left", [])
  end.

Definition world (answers : list Reply) (helper : option DbHelper)
  : World (list Reply) :=
  {| engine := answers; trace := []; outbox := []; dbInstance := helper |}.

(** The helper of a connection whose handle is 1. *)
Definition helper : DbHelper :=
  {| databaseName := "sync"; db := VNum 1; sqlite3 := true |}.

(** What [next] returns for the statement [stmt]. *)
Definition yielded (stmt : value) : Reply :=
  Returns (VObj [("value", stmt); ("done", VBool false)]).

End Replay.

(** * Vocabulary of the properties *)

(** [emits P m]: running [m] only appends calls to the trace, and all of
    them satisfy [P]. *)
Definition emits {E A} (P : Call -> Prop) (m : @M E A) : Prop :=
  forall w, exists cs, trace (snd (m w)) = trace w ++ cs /\ Forall P cs.

(** The call is [exec(db, sql)] for the given text, whatever the handle. *)
Definition issues (sql : string) (c : Call) : bool :=
  match c with
  | Api.exec _ s => String.eqb s sql
  | _ => false
  end.

(** How many times the text was given to [exec] in a list of calls. *)
Definition issued (sql : string) (cs : list Call) : nat :=
  length (List.filter (issues sql) cs).

(** The calls of the statement pipeline of [src/public]. *)
Definition pipeline_call (c : Call) : Prop :=
  match c with
  | Api.prepare _ _ | Api.bind_text _ _ _ | Api.stmt_step _
  | Api.lastInsertRowid _ | Api.stmt_finalize _ => True
  | _ => False
  end.

(** [all_succeed respond this statements w ids w']: run one after the
    other from world [w], the pipeline reports for each statement a pair
    whose error slot passes for no error and whose id is the matching
    element of [ids]; [w'] is the world after the last one. *)
Inductive all_succeed {E} (respond : Call -> E -> Reply * E) (this : DbHelper)
  : list Public.Statement -> World E -> list value -> World E -> Prop :=
  | all_succeed_nil w : all_succeed respond this [] w [] w
  | all_succeed_cons statement rest w error lastID w1 ids w2 :
      Public.executePreparedStatement respond this
        (Public.query statement) (Public.values statement) w
        = (Done (VArr [error; lastID]), w1) ->
      truthy error = false ->
      all_succeed respond this rest w1 ids w2 ->
      all_succeed respond this (statement :: rest) w (lastID :: ids) w2.

(** [all_accepted respond this queries w w']: from world [w] the engine
    returns from [exec] for each text in turn, and [w'] is the world
    after. *)
Inductive all_accepted {E} (respond : Call -> E -> Reply * E) (this : DbHelper)
  : list string -> World E -> World E -> Prop :=
  | all_accepted_nil w : all_accepted respond this [] w w
  | all_accepted_cons query rest w v e1 w2 :
      respond (Api.exec (db this) query) (engine w) = (Returns v, e1) ->
      all_accepted respond this rest (answered (Api.exec (db this) query) e1 w) w2 ->
      all_accepted respond this (query :: rest) w w2.

(** A command that carries only its tag and its operation id. *)
Definition bare (action : string) (operationId : value) : Public.Message :=
  {| Public.action := action; Public.dbName := ""; Public.sql := "";
     Public.queries := []; Public.statements := [];
     Public.selectionArgs := []; Public.rollbackOnError := VUndefined;
     Public.operationId := operationId |}.

(** A prepared batch as a command. *)
Definition batch (statements : list Public.Statement) (operationId : value)
  : Public.Message :=
  {| Public.action := "executePreparedStatements"; Public.dbName := "";
     Public.sql := ""; Public.queries := []; Public.statements := statements;
     Public.selectionArgs := []; Public.rollbackOnError := VUndefined;
     Public.operationId := operationId |}.

Definition insert_name (name : value) : Public.Statement :=
  {| Public.query := "INSERT INTO test_table (name) VALUES (?);";
     Public.values := [name] |}.

(** The argument lists given to [bind_collection] in a list of calls, in
    order. *)
Definition bound_args (cs : list Call) : list (list value) :=
  flat_map (fun c => match c with
                     | Api.bind_collection _ args => [args]
                     | _ => []
                     end) cs.

(** [runs m w a st bs]: from world [w], [m] returns [a], leaves the engine
    in state [st] and has bound the argument lists [bs]. *)
Definition runs {E A} (m : @M E A) (w : World E) (a : A) (st : E)
    (bs : list (list value)) : Prop :=
  exists w', m w = (Done a, w') /\ engine w' = st
             /\ bound_args (trace w') = bound_args (trace w) ++ bs.

(** The argument lists the reader is to bind for a text of [n]
    statements: the arguments once per statement when some are given. *)
Definition bindings (selectionArgs : option (list value)) (n : nat)
  : list (list value) :=
  match selectionArgs with
  | Some (arg :: args) => repeat (arg :: args) n
  | _ => []
  end.

(** Any call at all. *)
Definition any_call (c : Call) : Prop := True.

(** The property write the reader makes for column [j] of row [r]. *)
Definition assign (SQLite : Constants) (names : list string)
    (r : list Script.Cell) (row : list (string * value)) (j : nat)
  : list (string * value) :=
  assign_field row (Draft.key (map VStr names) (Z.of_nat j))
    (Script.typed_value SQLite (nth j r (Script.no_cell SQLite))).

(** A result set of two statements, with a column of each type tag. *)
Definition integer_cell (n : Z) : Script.Cell :=
  {| Script.tag := 1; Script.as_int := VNum n; Script.as_float := VFloat 0;
     Script.as_blob := VBlob []; Script.as_text := VStr "int" |}.

Definition text_cell (s : string) : Script.Cell :=
  {| Script.tag := 3; Script.as_int := VNum 0; Script.as_float := VFloat 0;
     Script.as_blob := VBlob []; Script.as_text := VStr s |}.

Definition float_cell (bits : Z) : Script.Cell :=
  {| Script.tag := 2; Script.as_int := VNum 0; Script.as_float := VFloat bits;
     Script.as_blob := VBlob []; Script.as_text := VStr "float" |}.

Definition blob_cell (bytes : list Z) : Script.Cell :=
  {| Script.tag := 4; Script.as_int := VNum 0; Script.as_float := VFloat 0;
     Script.as_blob := VBlob bytes; Script.as_text := VStr "blob" |}.

Definition null_cell : Script.Cell :=
  {| Script.tag := 5; Script.as_int := VNum 0; Script.as_float := VFloat 0;
     Script.as_blob := VBlob []; Script.as_text := VNull |}.

(** A result set with a column named [__proto__]. *)
Definition proto_select : list Script.Prepared :=
  [ {| Script.names := ["id"; "__proto__"; "id"];
       Script.rows := [[integer_cell 1; integer_cell 2; integer_cell 3]] |} ].

Definition two_selects : list Script.Prepared :=
  [ {| Script.names := ["id"; "name"];
       Script.rows := [[integer_cell 1; text_cell "Alice"];
                       [integer_cell 2; text_cell "Bob"]] |};
    {| Script.names := ["ratio"; "photo"; "note"];
       Script.rows := [[float_cell 4609434218613702656; blob_cell [255; 216];
                        null_cell]] |} ].

(** [stepped respond stmt e runError lastID cs e']: what the [try] and
    [catch] of the pipeline of [src/public] leave in [runError] and
    [lastID] when the engine is in state [e], the calls [cs] they make and
    the state [e'] after them. *)
Inductive stepped {E} (respond : Call -> E -> Reply * E) (stmt : value)
  : E -> value -> value -> list Call -> E -> Prop :=
  | stepped_ok e v e1 id e2 :
      respond (Api.stmt_step stmt) e = (Returns v, e1) ->
      respond (Api.lastInsertRowid stmt) e1 = (Returns id, e2) ->
      stepped respond stmt e VNull id
        [Api.stmt_step stmt; Api.lastInsertRowid stmt] e2
  | stepped_step_raises e m e1 :
      respond (Api.stmt_step stmt) e = (Raises m, e1) ->
      stepped respond stmt e (VStr m) VNull [Api.stmt_step stmt] e1
  | stepped_rowid_raises e v e1 m e2 :
      respond (Api.stmt_step stmt) e = (Returns v, e1) ->
      respond (Api.lastInsertRowid stmt) e1 = (Raises m, e2) ->
      stepped respond stmt e (VStr m) VNull
        [Api.stmt_step stmt; Api.lastInsertRowid stmt] e2.

(** [keeps m]: running [m] posts no message and leaves the worker's
    [dbInstance] alone. *)
Definition keeps {E A} (m : @M E A) : Prop :=
  forall w, outbox (snd (m w)) = outbox w
            /\ dbInstance (snd (m w)) = dbInstance w.

(** [errs m]: [m] returns, throws an Error, or runs out of fuel; it never
    stays pending and never throws anything but an Error. *)
Definition errs {E A} (m : @M E A) : Prop :=
  forall w, match fst (m w) with
            | Done _ | OutOfFuel | Thrown (VError _) => True
            | _ => False
            end.

(** The tags [self.onmessage] has a case for, and those among them that
    call a method of [dbInstance]. *)
Definition known_action (a : string) : bool :=
  existsb (String.eqb a)
    ["createDBConnection"; "executeRawQuery"; "executeQueries";
     "executePreparedStatements"; "executeSelectPreparedStatements";
     "isTableFound"; "closeDatabase"].

Definition needs_dbInstance (a : string) : bool :=
  existsb (String.eqb a)
    ["executeRawQuery"; "executeQueries"; "executePreparedStatements";
     "executeSelectPreparedStatements"; "isTableFound"; "closeDatabase"].

(** The two envelopes of a reply. *)
Definition result_envelope (operationId result : value) : value :=
  VObj [("operationId", operationId); ("result", result)].

Definition error_envelope (operationId : value) (message : string) : value :=
  VObj [("operationId", operationId); ("error", VStr message)].

(** The text [isTableFound] gives to [exec]. *)
Definition table_query (tableName : string) : string :=
  "SELECT DISTINCT tbl_name FROM sqlite_master WHERE tbl_name = '"
    +:+ tableName +:+ "'".

(** Any call but [exec]. *)
Definition not_exec (c : Call) : Prop :=
  match c with
  | Api.exec _ _ => False
  | _ => True
  end.

(** [all_reported pipeline statements w ids w']: as [all_succeed], for
    any pipeline: run one after the other from world [w], the pipeline
    reports for each statement a pair with a falsy error slot and the
    matching element of [ids]. *)
Inductive all_reported {E} (pipeline : Public.Statement -> @M E value)
  : list Public.Statement -> World E -> list value -> World E -> Prop :=
  | all_reported_nil w : all_reported pipeline [] w [] w
  | all_reported_cons statement rest w error lastID w1 ids w2 :
      pipeline statement w = (Done (VArr [error; lastID]), w1) ->
      truthy error = false ->
      all_reported pipeline rest w1 ids w2 ->
      all_reported pipeline (statement :: rest) w (lastID :: ids) w2.

(** The pipeline of [src/unnamed/part_000] on one statement. *)
Definition part000_pipeline {E} (respond : Call -> E -> Reply * E)
    (this : DbHelper) (statement : Public.Statement) : @M E value :=
  Part000.executePreparedStatement respond this
    (Public.query statement) (Public.values statement).

(** What the pipeline of [src/unnamed/part_000] resolves with after a
    step that the engine answered with [r]. *)
Definition step_report (r : Reply) : value :=
  match r with
  | Returns code => VArr [VNull; code]
  | Raises m => VArr [VStr m; VNull]
  end.

(** The VFS call made by a function of [#onDone]. *)
Definition release (K : DatabaseSource.VfsConstants) (fileId : Z)
    (f : DatabaseSource.Cleanup) : DatabaseSource.VfsCall :=
  match f with
  | DatabaseSource.CloseFile => DatabaseSource.jClose fileId
  | DatabaseSource.Unlock =>
      DatabaseSource.jUnlock fileId (DatabaseSource.SQLITE_LOCK_NONE K)
  end.

Definition is_jRead (fileId : Z) (c : DatabaseSource.VfsCall) : Prop :=
  exists n offset, c = DatabaseSource.jRead fileId n offset.

(** The source of the file [content] between two reads: open, with
    [offset] bytes given so far. *)
Definition reading (content : list Z) (name : string) (id : Z) (offset : Z)
    (made : list DatabaseSource.VfsCall) (given : list DatabaseSource.Event)
  : DatabaseSource.Source (list Z) :=
  {| DatabaseSource.path := name;
     DatabaseSource.fileId := id;
     DatabaseSource.iOffset := offset;
     DatabaseSource.bytesRemaining := Z.of_nat (length content) - offset;
     DatabaseSource.onDone := [DatabaseSource.CloseFile; DatabaseSource.Unlock];
     DatabaseSource.isDone := DatabaseSource.NotYet;
     DatabaseSource.vfs := content;
     DatabaseSource.calls := made;
     DatabaseSource.controller := given |}.

(** A message posted by the worker arrives at the manager as
    [event.data]. *)
Definition deliver (message : value) (this : Router.DatabaseManager)
  : Router.DatabaseManager :=
  match message with
  | VObj data => Router.onmessage data this
  | _ => Router.onmessage [] this
  end.

(** The two texts of the worker, and a method of the one or the other. *)
Inductive Worker : Type :=
  | public_worker                 (* src/public/DBHelperWorker.js *)
  | part_000.                     (* src/unnamed/part_000 *)

Definition pipeline {E} (which : Worker) (respond : Call -> E -> Reply * E)
    (this : DbHelper) (statement : Public.Statement) : @M E value :=
  match which with
  | public_worker =>
      Public.executePreparedStatement respond this
        (Public.query statement) (Public.values statement)
  | part_000 => part000_pipeline respond this statement
  end.

Definition executePreparedStatements_of {E} (which : Worker)
    (respond : Call -> E -> Reply * E) (this : DbHelper)
    (statements : list Public.Statement) (rollbackOnError : value)
  : @M E value :=
  match which with
  | public_worker =>
      Public.executePreparedStatements respond this statements rollbackOnError
  | part_000 =>
      Part000.executePreparedStatements respond this statements rollbackOnError
  end.

Definition executeQueries_of {E} (which : Worker)
    (respond : Call -> E -> Reply * E) (this : DbHelper)
    (queries : list string) (rollbackOnError : value) : @M E value :=
  match which with
  | public_worker => Public.executeQueries respond this queries rollbackOnError
  | part_000 => Part000.executeQueries respond this queries rollbackOnError
  end.

(** What the [catch] block of [executePreparedStatements] makes of the
    caught [error] in world [w], where the engine would answer ROLLBACK
    with [r] and go to state [e].  Asked to roll back, it issues ROLLBACK:
    accepted, the call returns the pair [[error, null]]; refused, the
    Error of ROLLBACK leaves the [catch] block and the call throws it.
    Not asked, it returns the pair and issues nothing. *)
Definition caught {E} (this : DbHelper) (rollbackOnError : value) (r : Reply)
    (e : E) (error : value) (w : World E) : Outcome value * World E :=
  if truthy (default_param rollbackOnError (VBool true)) then
    (match r with
     | Returns _ => Done (VArr [error; VNull])
     | Raises m => Thrown (VError m)
     end,
     answered (Api.exec (db this) "ROLLBACK;") e w)
  else (Done (VArr [error; VNull]), w).

(** * Properties *)

(** ** The calls an operation adds to the trace *)

Section Emits.
Context {E : Type} (respond : Call -> E -> Reply * E).

Local Abbreviation M := (@M E).

Lemma emits_ret {A} P (a : A) : emits P (@ret E A a).
Proof. intros w. exists []. simpl. rewrite app_nil_r. auto. Qed.

Lemma emits_throw {A} P e : emits P (@throw E A e).
Proof. intros w. exists []. simpl. rewrite app_nil_r. auto. Qed.

Lemma emits_out_of_fuel {A} P : emits P (@out_of_fuel E A).
Proof. intros w. exists []. simpl. rewrite app_nil_r. auto. Qed.

Lemma emits_bind {A B} P (m : M A) (k : A -> M B) :
  emits P m -> (forall a, emits P (k a)) -> emits P (bind m k).
Proof.
  intros Hm Hk w. unfold bind. destruct (Hm w) as (cs & Ht & Hcs).
  destruct (m w) as [[a | e | | ] w1]; simpl in *; eauto.
  destruct (Hk a w1) as (cs' & Ht' & Hcs').
  exists (cs ++ cs'). rewrite Ht', Ht, app_assoc. split; auto.
  apply Forall_app; auto.
Qed.

Lemma emits_try_catch {A} P (m : M A) (h : value -> M A) :
  emits P m -> (forall e, emits P (h e)) -> emits P (try_catch m h).
Proof.
  intros Hm Hh w. unfold try_catch. destruct (Hm w) as (cs & Ht & Hcs).
  destruct (m w) as [[a | e | | ] w1]; simpl in *; eauto.
  destruct (Hh e w1) as (cs' & Ht' & Hcs').
  exists (cs ++ cs'). rewrite Ht', Ht, app_assoc. split; auto.
  apply Forall_app; auto.
Qed.

Lemma emits_try_finally {A} P (m : M A) (c : M unit) :
  emits P m -> emits P c -> emits P (try_finally m c).
Proof.
  intros Hm Hc w. unfold try_finally. destruct (Hm w) as (cs & Ht & Hcs).
  destruct (m w) as [[a | e | | ] w1]; simpl in *; eauto.
  - destruct (emits_bind P c (fun _ => ret a) Hc (fun _ => emits_ret P a) w1)
      as (cs' & Ht' & Hcs').
    exists (cs ++ cs'). rewrite Ht', Ht, app_assoc. split; auto.
    apply Forall_app; auto.
  - destruct (emits_bind P c (fun _ => @throw E A e) Hc
                (fun _ => emits_throw P e) w1)
      as (cs' & Ht' & Hcs').
    exists (cs ++ cs'). rewrite Ht', Ht, app_assoc. split; auto.
    apply Forall_app; auto.
Qed.

Lemma emits_try_catch_locals {L} P (init : L) (m : M L) (h : value -> M L) :
  emits P m -> (forall e, emits P (h e)) -> emits P (try_catch_locals init m h).
Proof.
  intros Hm Hh w. unfold try_catch_locals. destruct (Hm w) as (cs & Ht & Hcs).
  destruct (m w) as [[a | e | | ] w1]; simpl in *; eauto.
  destruct (Hh e w1) as (cs' & Ht' & Hcs').
  destruct (h e w1) as [[a | e' | | ] w2]; simpl in *;
    exists (cs ++ cs'); rewrite Ht', Ht, app_assoc; split; auto;
    apply Forall_app; auto.
Qed.

Lemma emits_new_Promise_async {A} P (m : M A) :
  emits P m -> emits P (new_Promise_async m).
Proof.
  intros Hm w. unfold new_Promise_async. destruct (Hm w) as (cs & Ht & Hcs).
  destruct (m w) as [[a | e | | ] w1]; simpl in *; eauto.
Qed.

Lemma emits_not_awaited {A} P (m : M A) : emits P m -> emits P (not_awaited m).
Proof.
  intros Hm w. unfold not_awaited. destruct (Hm w) as (cs & Ht & Hcs).
  destruct (m w) as [[a | e | | ] w1]; simpl in *; eauto.
Qed.

Lemma emits_get_message P e : emits P (@get_message E e).
Proof.
  destruct e; simpl; first [apply emits_ret | apply emits_throw].
Qed.

Lemma emits_call (P : Call -> Prop) c : P c -> emits P (call respond c).
Proof.
  intros Hc w. unfold call. destruct (respond c (engine w)) as [[v | m] e'];
    exists [c]; simpl; auto.
Qed.

Lemma emits_via_sqlite3 (P : Call -> Prop) this method c :
  P c -> emits P (via_sqlite3 respond this method c).
Proof.
  intros Hc. unfold via_sqlite3. destruct (sqlite3 this).
  - apply emits_call; auto.
  - apply emits_throw.
Qed.

Lemma emits_weaken {A} (P Q : Call -> Prop) (m : M A) :
  (forall c, P c -> Q c) -> emits P m -> emits Q m.
Proof.
  intros HPQ Hm w. destruct (Hm w) as (cs & Ht & Hcs).
  exists cs. split; auto. eapply Forall_impl; eauto.
Qed.

End Emits.

Create HintDb emits.

#[local] Hint Resolve emits_ret emits_throw emits_out_of_fuel emits_bind
  emits_try_catch emits_try_finally emits_try_catch_locals
  emits_new_Promise_async emits_not_awaited emits_get_message emits_call
  emits_via_sqlite3 : emits.

(** ** The transaction executors of src/public/DBHelperWorker.js *)

Section PublicFacts.
Context {E : Type} (respond : Call -> E -> Reply * E).

Local Abbreviation M := (@M E).

Lemma trace_answered (c : Call) (e1 : E) (w : World E) :
  trace (answered c e1 w) = trace w ++ [c].
Proof. reflexivity. Qed.

Lemma via_sqlite3_Done this method c w v w1 :
  via_sqlite3 respond this method c w = (Done v, w1) ->
  sqlite3 this = true /\
  exists e1, respond c (engine w) = (Returns v, e1) /\ w1 = answered c e1 w.
Proof.
  unfold via_sqlite3, call. destruct (sqlite3 this); [|discriminate].
  destruct (respond c (engine w)) as [[v' | m] e1]; intros H; inversion H.
  eauto.
Qed.

Lemma via_sqlite3_Returns this method c w v e1 :
  sqlite3 this = true ->
  respond c (engine w) = (Returns v, e1) ->
  via_sqlite3 respond this method c w = (Done v, answered c e1 w).
Proof. intros Hs Hr. unfold via_sqlite3, call. now rewrite Hs, Hr. Qed.

Lemma via_sqlite3_Raises this method c w m e1 :
  sqlite3 this = true ->
  respond c (engine w) = (Raises m, e1) ->
  via_sqlite3 respond this method c w = (Thrown (VError m), answered c e1 w).
Proof. intros Hs Hr. unfold via_sqlite3, call. now rewrite Hs, Hr. Qed.

Lemma issued_app sql cs cs' : issued sql (cs ++ cs') = (issued sql cs + issued sql cs')%nat.
Proof. unfold issued. now rewrite List.filter_app, length_app. Qed.

Lemma issued_pipeline sql cs : Forall pipeline_call cs -> issued sql cs = O.
Proof.
  induction 1 as [|c cs Hc _ IH]; [reflexivity|].
  unfold issued in *. simpl. destruct c; simpl in *; try contradiction; exact IH.
Qed.

Lemma emits_bind_each P preparedStatement values :
  (forall s i v, P (Api.bind_text s i v)) ->
  forall i, emits P (Public.bind_each respond preparedStatement i values).
Proof.
  intros HP. induction values as [|v rest IH]; intros i; simpl.
  - apply emits_ret.
  - apply emits_bind; [apply emits_call; apply HP | intros _; apply IH].
Qed.

Lemma emits_executePreparedStatement this sqlQuery values :
  emits pipeline_call (Public.executePreparedStatement respond this sqlQuery values).
Proof.
  unfold Public.executePreparedStatement, Public.compileAndBindSQLiteStatement.
  apply emits_new_Promise_async.
  apply emits_bind.
  - apply emits_bind; [apply emits_via_sqlite3; exact I|].
    intros s. apply emits_bind; [|intros; apply emits_ret].
    apply emits_bind_each. intros; exact I.
  - intros s. apply emits_bind.
    + apply emits_try_catch_locals.
      * apply emits_bind; [apply emits_call; exact I|]. intros _.
        apply emits_bind; [apply emits_call; exact I|]. intros; apply emits_ret.
      * intros e. apply emits_bind; [apply emits_get_message|].
        intros; apply emits_ret.
    + intros [[runError lastID] pending].
      apply emits_bind; [apply emits_call; exact I|]. intros; apply emits_ret.
Qed.

Lemma all_succeed_trace this statements w ids w' :
  all_succeed respond this statements w ids w' ->
  length ids = length statements /\
  exists cs, trace w' = trace w ++ cs /\ Forall pipeline_call cs.
Proof.
  induction 1 as [w | statement rest w error lastID w1 ids w2 Hrun Hok _ [IHlen IH]].
  - split; [reflexivity|]. exists []. now rewrite app_nil_r.
  - split; [simpl; now rewrite IHlen|].
    destruct (emits_executePreparedStatement this (Public.query statement)
                (Public.values statement) w) as (cs & Ht & Hcs).
    rewrite Hrun in Ht. simpl in Ht.
    destruct IH as (cs' & Ht' & Hcs').
    exists (cs ++ cs'). rewrite Ht', Ht, app_assoc. split; auto.
    apply Forall_app; auto.
Qed.

Lemma run_each_all_succeed this statements w ids w' :
  all_succeed respond this statements w ids w' ->
  forall rest transactionIDs,
    Public.run_each respond this (statements ++ rest) transactionIDs w
    = Public.run_each respond this rest (transactionIDs ++ ids) w'.
Proof.
  induction 1 as [w | statement more w error lastID w1 ids w2 Hrun Hok _ IH];
    intros rest transactionIDs.
  - now rewrite app_nil_r.
  - simpl. unfold bind at 1. rewrite Hrun. simpl. rewrite Hok.
    rewrite IH. now rewrite <- app_assoc.
Qed.

Lemma catch_block this rollbackOnError error (w : World E) r e4 :
  sqlite3 this = true ->
  respond (Api.exec (db this) "ROLLBACK;") (engine w) = (r, e4) ->
  bind (if truthy (default_param rollbackOnError (VBool true))
        then via_sqlite3 respond this "exec" (Api.exec (db this) "ROLLBACK;")
        else ret VUndefined)
    (fun _ => ret (VArr [error; VNull])) w
  = caught this rollbackOnError r e4 error w.
Proof.
  intros Hs Hr. unfold caught.
  destruct (truthy (default_param rollbackOnError (VBool true)));
    [|reflexivity].
  unfold bind. destruct r as [v | m].
  - now rewrite (via_sqlite3_Returns _ _ _ _ _ _ Hs Hr).
  - now rewrite (via_sqlite3_Raises _ _ _ _ _ _ Hs Hr).
Qed.

Lemma trace_caught this rollbackOnError r (e4 : E) error w :
  trace (snd (caught this rollbackOnError r e4 error w))
  = trace w ++
      (if truthy (default_param rollbackOnError (VBool true))
       then [Api.exec (db this) "ROLLBACK;"] else []).
Proof.
  unfold caught. destruct (truthy _); simpl; [reflexivity | now rewrite app_nil_r].
Qed.

(** The batch of [src/public] when every statement succeeds, whatever
    the engine answers to COMMIT. *)
Lemma public_commit_outcome
    this statements rollbackOnError w v0 w1 ids w2 r e3 r' e4 :
  via_sqlite3 respond this "exec" (Api.exec (db this) "BEGIN TRANSACTION;") w
    = (Done v0, w1) ->
  all_succeed respond this statements w1 ids w2 ->
  respond (Api.exec (db this) "COMMIT;") (engine w2) = (r, e3) ->
  respond (Api.exec (db this) "ROLLBACK;") e3 = (r', e4) ->
  Public.executePreparedStatements respond this statements rollbackOnError w
    = match r with
      | Returns _ =>
          (Done (VArr [VNull; VArr ids]),
           answered (Api.exec (db this) "COMMIT;") e3 w2)
      | Raises m =>
          caught this rollbackOnError r' e4 (VError m)
            (answered (Api.exec (db this) "COMMIT;") e3 w2)
      end
  /\ length ids = length statements
  /\ exists cs, trace (answered (Api.exec (db this) "COMMIT;") e3 w2)
                = trace w ++ cs
                /\ issued "COMMIT;" cs = 1%nat /\ issued "ROLLBACK;" cs = 0%nat.
Proof.
  intros Hbegin Hall Hcommit Hrollback.
  destruct (all_succeed_trace _ _ _ _ _ Hall) as (Hlen & cs & Ht & Hcs).
  pose proof (proj1 (via_sqlite3_Done _ _ _ _ _ _ Hbegin)) as Hs.
  split; [|split; [exact Hlen|]].
  - unfold Public.executePreparedStatements, try_catch.
    unfold bind at 1. rewrite Hbegin.
    unfold bind at 1.
    pose proof (run_each_all_succeed _ _ _ _ _ Hall [] []) as Hrun.
    rewrite app_nil_r in Hrun. rewrite Hrun. simpl Public.run_each.
    unfold ret at 1. unfold bind at 1.
    destruct r as [v | m].
    + now rewrite (via_sqlite3_Returns _ _ _ _ _ _ Hs Hcommit).
    + rewrite (via_sqlite3_Raises _ _ _ _ _ _ Hs Hcommit).
      exact (catch_block this rollbackOnError (VError m)
               (answered (Api.exec (db this) "COMMIT;") e3 w2) r' e4 Hs Hrollback).
  - apply via_sqlite3_Done in Hbegin as (_ & e1 & _ & ->).
    exists ([Api.exec (db this) "BEGIN TRANSACTION;"] ++ cs
              ++ [Api.exec (db this) "COMMIT;"]).
    rewrite trace_answered, Ht, trace_answered.
    split; [now rewrite <- !app_assoc|].
    rewrite !issued_app, !(issued_pipeline _ cs Hcs). split; reflexivity.
Qed.

(** The batch of [src/public] when the pipeline reports an error. *)
Lemma public_failure_outcome
    this before statement after rollbackOnError w v0 w1 ids w2 error lastID w3
    r e4 :
  via_sqlite3 respond this "exec" (Api.exec (db this) "BEGIN TRANSACTION;") w
    = (Done v0, w1) ->
  all_succeed respond this before w1 ids w2 ->
  Public.executePreparedStatement respond this
    (Public.query statement) (Public.values statement) w2
    = (Done (VArr [error; lastID]), w3) ->
  truthy error = true ->
  respond (Api.exec (db this) "ROLLBACK;") (engine w3) = (r, e4) ->
  Public.executePreparedStatements respond this
    (before ++ statement :: after) rollbackOnError w
  = caught this rollbackOnError r e4 error w3
  /\ exists cs, trace w3 = trace w ++ cs /\ issued "ROLLBACK;" cs = 0%nat
                /\ issued "COMMIT;" cs = 0%nat.
Proof.
  intros Hbegin Hall Hrun Herr Hrollback.
  pose proof (proj1 (via_sqlite3_Done _ _ _ _ _ _ Hbegin)) as Hs.
  split.
  - unfold Public.executePreparedStatements, try_catch.
    unfold bind at 1. rewrite Hbegin.
    unfold bind at 1. rewrite (run_each_all_succeed _ _ _ _ _ Hall).
    simpl Public.run_each. unfold bind at 1. rewrite Hrun. simpl. rewrite Herr.
    unfold throw at 1.
    exact (catch_block this rollbackOnError error w3 r e4 Hs Hrollback).
  - destruct (all_succeed_trace _ _ _ _ _ Hall) as (_ & cs & Ht & Hcs).
    destruct (emits_executePreparedStatement this (Public.query statement)
                (Public.values statement) w2) as (cs' & Ht' & Hcs').
    rewrite Hrun in Ht'. simpl in Ht'.
    apply via_sqlite3_Done in Hbegin as (_ & e1 & _ & ->).
    exists ([Api.exec (db this) "BEGIN TRANSACTION;"] ++ cs ++ cs').
    rewrite Ht', Ht. simpl trace.
    split; [now rewrite <- !app_assoc|].
    rewrite !issued_app, !(issued_pipeline _ cs Hcs), !(issued_pipeline _ cs' Hcs').
    split; reflexivity.
Qed.

End PublicFacts.

Section PublicGuards.
Context {E : Type} (respond : Call -> E -> Reply * E).

Local Abbreviation M := (@M E).

Lemma exec_each_all_accepted this before w1 w2 :
  sqlite3 this = true ->
  all_accepted respond this before w1 w2 ->
  trace w2 = trace w1 ++ map (Api.exec (db this)) before /\
  forall rest,
    Public.exec_each respond this (before ++ rest) w1
    = Public.exec_each respond this rest w2.
Proof.
  intros Hs. induction 1 as [w | query more w v e1 w2 Hr _ [IHt IH]].
  - split; [now rewrite app_nil_r | reflexivity].
  - split.
    + rewrite IHt. simpl. now rewrite <- app_assoc.
    + intros rest. simpl. unfold bind at 1.
      rewrite (via_sqlite3_Returns _ _ _ _ _ _ _ Hs Hr). apply IH.
Qed.

(** C5.  In both texts of the worker: when a query of the sequence
    fails in [executeQueries] (the handle is open, BEGIN and the queries
    before it were accepted), no later query is executed and COMMIT is not
    issued.  With [rollbackOnError], ROLLBACK is issued, whatever the
    engine answers to it: accepted, the call throws an Error whose message
    is the failure's message after the words that tell of the rollback;
    refused, the call throws the Error of ROLLBACK itself.  Without
    [rollbackOnError] nothing more is issued, so the transaction stays
    open, and the call returns. *)
Theorem executeQueries_failure
    which this before query after rollbackOnError w v0 w1 w2 m e3 r e4 :
  truthy (db this) = true ->
  via_sqlite3 respond this "exec" (Api.exec (db this) "BEGIN TRANSACTION;") w
    = (Done v0, w1) ->
  all_accepted respond this before w1 w2 ->
  respond (Api.exec (db this) query) (engine w2) = (Raises m, e3) ->
  respond (Api.exec (db this) "ROLLBACK;") e3 = (r, e4) ->
  exists w4,
    executeQueries_of which respond this (before ++ query :: after)
      rollbackOnError w
    = (if truthy (default_param rollbackOnError (VBool true))
       then Thrown (VError match r with
                           | Returns _ => "Transaction failed, rolled back: " +:+ m
                           | Raises m' => m'
                           end)
       else Done VUndefined, w4)
    /\ trace w4
       = trace w ++ [Api.exec (db this) "BEGIN TRANSACTION;"]
           ++ map (Api.exec (db this)) before
           ++ [Api.exec (db this) query]
           ++ (if truthy (default_param rollbackOnError (VBool true))
               then [Api.exec (db this) "ROLLBACK;"] else []).
Proof.
  intros Hdb Hbegin Hall Hfail Hrollback.
  replace (executeQueries_of which respond this)
    with (Public.executeQueries respond this) by (destruct which; reflexivity).
  destruct (via_sqlite3_Done _ _ _ _ _ _ _ Hbegin) as (Hs & e1 & _ & Hw1).
  destruct (exec_each_all_accepted _ _ _ _ Hs Hall) as (Ht & Hrun).
  unfold Public.executeQueries. rewrite Hdb. cbn [negb]. cbv beta iota.
  unfold try_catch. unfold bind at 1. rewrite Hbegin.
  unfold bind at 1. rewrite Hrun. simpl Public.exec_each.
  unfold bind at 1. rewrite (via_sqlite3_Raises _ _ _ _ _ _ _ Hs Hfail).
  assert (Htrace :
    trace (answered (Api.exec (db this) query) e3 w2)
    = trace w ++ [Api.exec (db this) "BEGIN TRANSACTION;"]
        ++ map (Api.exec (db this)) before ++ [Api.exec (db this) query]).
  { rewrite trace_answered, Ht, Hw1, trace_answered.
    now rewrite <- !app_assoc. }
  destruct (truthy (default_param rollbackOnError (VBool true))).
  - eexists. cbv beta iota. unfold bind at 1.
    destruct r as [v | m'].
    + rewrite (via_sqlite3_Returns respond this "exec" _
                 (answered (Api.exec (db this) query) e3 w2) _ _ Hs Hrollback).
      simpl. split; [reflexivity|].
      rewrite trace_answered, Htrace. now rewrite <- !app_assoc.
    + rewrite (via_sqlite3_Raises respond this "exec" _
                 (answered (Api.exec (db this) query) e3 w2) _ _ Hs Hrollback).
      split; [reflexivity|].
      rewrite trace_answered, Htrace. now rewrite <- !app_assoc.
  - eexists. simpl. split; [reflexivity|].
    rewrite Htrace. reflexivity.
Qed.

(** The guard of [executeQueries]: without a handle, the not-connected
    error and no engine call. *)
Lemma executeQueries_guard this queries rollbackOnError w :
  truthy (db this) = false ->
  Public.executeQueries respond this queries rollbackOnError w
  = (Thrown (VError "Database not initialized"), w).
Proof. intros Hdb. unfold Public.executeQueries. now rewrite Hdb. Qed.

(** The same guard in [executeRawQuery]. *)
Lemma executeRawQuery_guard this sql w :
  truthy (db this) = false ->
  Public.executeRawQuery respond this sql w
  = (Thrown (VError "Database not initialized"), w).
Proof. intros Hdb. unfold Public.executeRawQuery. now rewrite Hdb. Qed.

Lemma emits_any_executePreparedStatement this sqlQuery values :
  emits any_call (Public.executePreparedStatement respond this sqlQuery values).
Proof.
  eapply emits_weaken; [|apply emits_executePreparedStatement]. now intros.
Qed.

Lemma emits_any_run_each this statements :
  forall transactionIDs,
    emits any_call (Public.run_each respond this statements transactionIDs).
Proof.
  induction statements as [|statement rest IH]; intros ids; simpl.
  - apply emits_ret.
  - apply emits_bind; [apply emits_any_executePreparedStatement|].
    intros settled. destruct (truthy _); [apply emits_throw | apply IH].
Qed.

(** An operation that begins with an engine call inside its [try]
    block makes that call first, whatever happens next. *)
Lemma starts_with {B} this method c (k : value -> M B) (h : value -> M B) w :
  sqlite3 this = true ->
  (forall v, emits any_call (k v)) ->
  (forall e, emits any_call (h e)) ->
  exists cs,
    trace (snd (try_catch (bind (via_sqlite3 respond this method c) k) h w))
    = trace w ++ c :: cs.
Proof.
  intros Hs Hk Hh. unfold try_catch, bind, via_sqlite3, call. rewrite Hs.
  destruct (respond c (engine w)) as [[v | m] e1].
  - destruct (Hk v (answered c e1 w)) as (cs & Ht & _).
    destruct (k v (answered c e1 w)) as [[a | e | | ] w2]; simpl in Ht.
    + exists cs. simpl. rewrite Ht, ?trace_answered. now rewrite <- app_assoc.
    + destruct (Hh e w2) as (cs' & Ht' & _).
      exists (cs ++ cs'). rewrite Ht', Ht, ?trace_answered.
      now rewrite <- !app_assoc.
    + exists cs. simpl. rewrite Ht, ?trace_answered. now rewrite <- app_assoc.
    + exists cs. simpl. rewrite Ht, ?trace_answered. now rewrite <- app_assoc.
  - destruct (Hh (VError m) (answered c e1 w)) as (cs' & Ht' & _).
    exists cs'. rewrite Ht', ?trace_answered. now rewrite <- app_assoc.
Qed.

(** [executePreparedStatements] makes no such test.  On a helper whose
    [db] is [null], with the API object attached, its first act is the
    engine call [exec(null, 'BEGIN TRANSACTION;')]; on a helper fresh
    from the constructor, called without rollback, it returns the pair
    [[TypeError, null]]. *)
Lemma executePreparedStatements_has_no_guard name statements rollbackOnError w :
  (exists cs,
     trace (snd (Public.executePreparedStatements respond
                   {| databaseName := name; db := VNull; sqlite3 := true |}
                   statements rollbackOnError w))
     = trace w ++ Api.exec VNull "BEGIN TRANSACTION;" :: cs)
  /\ Public.executePreparedStatements respond (Public.new_DbHelper name)
       statements (VBool false) w
     = (Done (VArr [VError "Cannot read properties of undefined (reading 'exec')";
                    VNull]), w).
Proof.
  split; [|reflexivity].
  unfold Public.executePreparedStatements.
  apply (starts_with {| databaseName := name; db := VNull; sqlite3 := true |}
           "exec" (Api.exec VNull "BEGIN TRANSACTION;")); [reflexivity| |].
  - intros _. apply emits_bind; [apply emits_any_run_each|].
    intros ids. apply emits_bind; [apply emits_via_sqlite3; exact I|].
    intros; apply emits_ret.
  - intros error. apply emits_bind; [|intros; apply emits_ret].
    destruct (truthy _); [apply emits_via_sqlite3; exact I | apply emits_ret].
Qed.

End PublicGuards.

Section PublicClose.
Context {E : Type} (respond : Call -> E -> Reply * E).

Lemma onmessage_closeDatabase fuel operationId this w :
  dbInstance w = Some this ->
  truthy (db this) = true ->
  sqlite3 this = true ->
  trace (snd (Public.onmessage respond fuel (bare "closeDatabase" operationId) w))
  = trace w ++ [Api.close (db this)]
  /\ dbInstance (snd (Public.onmessage respond fuel
                        (bare "closeDatabase" operationId) w)) = Some this
  /\ forall v e1,
       respond (Api.close (db this)) (engine w) = (Returns v, e1) ->
       fst (Public.onmessage respond fuel (bare "closeDatabase" operationId) w)
       = Done tt.
Proof.
  intros Hinst Hdb Hs.
  unfold Public.onmessage, Public.switch_action, bare. cbn [Public.action].
  cbn [String.eqb Ascii.eqb Bool.eqb].
  unfold try_catch, bind, Public.on_dbInstance, bind, get_dbInstance,
    Public.closeDatabase.
  rewrite Hinst, Hdb. unfold bind, via_sqlite3, call. rewrite Hs.
  destruct (respond (Api.close (db this)) (engine w)) as [[v | m] e1]; simpl;
    repeat split; auto; intros; discriminate.
Qed.

(** C10.  After a [closeDatabase] command that the engine accepted, the
    worker still holds the same helper with the same, non-null [db]:
    nothing was assigned.  A second [closeDatabase] command calls the
    engine's [close] on that handle again, and a later [executeQueries]
    passes its handle check and reaches the engine with that handle. *)
Theorem closeDatabase_leaves_handle
    fuel this w v e1 (first second : value) queries rollbackOnError sql :
  dbInstance w = Some this ->
  truthy (db this) = true ->
  sqlite3 this = true ->
  respond (Api.close (db this)) (engine w) = (Returns v, e1) ->
  exists w1,
    Public.onmessage respond fuel (bare "closeDatabase" first) w = (Done tt, w1)
    /\ dbInstance w1 = Some this /\ db this <> VNull
    /\ trace w1 = trace w ++ [Api.close (db this)]
    /\ trace (snd (Public.onmessage respond fuel
                     (bare "closeDatabase" second) w1))
       = trace w1 ++ [Api.close (db this)]
    /\ (exists cs,
          trace (snd (Public.executeQueries respond this queries
                        rollbackOnError w1))
          = trace w1 ++ Api.exec (db this) "BEGIN TRANSACTION;" :: cs)
    /\ (exists cs,
          trace (snd (Public.executeRawQuery respond this sql w1))
          = trace w1 ++ Api.exec_rows (db this) sql :: cs).
Proof.
  intros Hinst Hdb Hs Hclose.
  destruct (onmessage_closeDatabase fuel first this w Hinst Hdb Hs)
    as (Ht & Hi & Hdone).
  specialize (Hdone v e1 Hclose).
  destruct (Public.onmessage respond fuel (bare "closeDatabase" first) w)
    as [o w1]. simpl in *. subst o.
  exists w1. split; [reflexivity|]. split; [exact Hi|].
  split; [intros Hnull; rewrite Hnull in Hdb; discriminate|].
  split; [exact Ht|]. split; [|split].
  - apply (onmessage_closeDatabase fuel second this w1 Hi Hdb Hs).
  - unfold Public.executeQueries. rewrite Hdb. cbn [negb]. cbv beta iota.
    apply starts_with; [exact Hs| |].
    + intros _. apply emits_bind.
      * clear. induction queries as [|q rest IH]; simpl.
        -- apply emits_ret.
        -- apply emits_bind; [apply emits_via_sqlite3; exact I|].
           intros _. exact IH.
      * intros _. apply emits_bind; [apply emits_via_sqlite3; exact I|].
        intros; apply emits_ret.
    + intros e. destruct (truthy (default_param rollbackOnError (VBool true))).
      * apply emits_bind; [apply emits_via_sqlite3; exact I|]. intros _.
        apply emits_bind; [apply emits_get_message|]. intros; apply emits_throw.
      * apply emits_bind; [apply emits_get_message|]. intros; apply emits_ret.
  - unfold Public.executeRawQuery. rewrite Hdb. cbn [negb]. cbv beta iota.
    apply starts_with; [exact Hs| |].
    + intros called. apply emits_ret.
    + intros e. apply emits_throw.
Qed.

(** The pipeline never throws and never rejects: what it does not
    return stays pending. *)
Lemma executePreparedStatement_never_throws this sqlQuery values w e :
  fst (Public.executePreparedStatement respond this sqlQuery values w)
  <> Thrown e.
Proof.
  unfold Public.executePreparedStatement, new_Promise_async.
  destruct (bind _ _ w) as [[a | e' | | ] w1]; simpl; discriminate.
Qed.

(** A statement the engine refuses to compile: the pipeline returns
    nothing, after the one call. *)
Lemma executePreparedStatement_compile_failure this sqlQuery values w m e1 :
  sqlite3 this = true ->
  respond (Api.prepare (db this) sqlQuery) (engine w) = (Raises m, e1) ->
  Public.executePreparedStatement respond this sqlQuery values w
  = (Pending, answered (Api.prepare (db this) sqlQuery) e1 w).
Proof.
  intros Hs Hr.
  unfold Public.executePreparedStatement, new_Promise_async,
    Public.compileAndBindSQLiteStatement.
  unfold bind at 1. unfold bind at 1.
  now rewrite (via_sqlite3_Raises _ _ _ _ _ _ _ Hs Hr).
Qed.

End PublicClose.

(** C4.  On the small engine, after a connection: a text that does not
    compile leaves [executePreparedStatement] pending for ever, with no
    pair returned; and when the second of two values does not bind, the
    call is pending as well and the compiled statement is still live,
    no [finalize] having been called. *)
Theorem executePreparedStatement_loses_compile_and_bind_failures :
  fst (Public.executePreparedStatement Toy.respond Toy.connected "SELEC 1" []
         Toy.connected_world) = Pending
  /\ (let r := Public.executePreparedStatement Toy.respond Toy.connected
                 "INSERT INTO test_table (name) VALUES (?);"
                 [VStr "Alice"; VStr "Bob"] Toy.connected_world in
      fst r = Pending
      /\ trace (snd r)
         = [Api.prepare (VNum 1) "INSERT INTO test_table (name) VALUES (?);";
            Api.bind_text (VNum 100) 1 (VStr "Alice");
            Api.bind_text (VNum 100) 2 (VStr "Bob")]
      /\ map Toy.handle (Toy.live (engine (snd r))) = [100]).
Proof. vm_compute. repeat split; reflexivity. Qed.

(** C6.  On the small engine, after a connection: the command
    [executePreparedStatements] with a text that does not compile gets no
    reply at all; the handler never settles and nothing is posted. *)
Theorem onmessage_without_reply :
  let r := Public.onmessage Toy.respond 10
             (batch [{| Public.query := "SELEC 1"; Public.values := [] |}]
                (VStr "k3x9q2m1a"))
             Toy.connected_world in
  fst r = Pending /\ outbox (snd r) = [].
Proof. vm_compute. split; reflexivity. Qed.

(** *** The close command on the small engine *)

Lemma closeDatabase_leaves_handle_witness :
  exists w1,
    Public.onmessage Toy.respond 10 (bare "closeDatabase" (VStr "c1"))
      Toy.connected_world = (Done tt, w1)
    /\ dbInstance w1 = Some Toy.connected /\ db Toy.connected <> VNull
    /\ trace w1 = trace Toy.connected_world ++ [Api.close (db Toy.connected)]
    /\ trace (snd (Public.onmessage Toy.respond 10
                     (bare "closeDatabase" (VStr "c2")) w1))
       = trace w1 ++ [Api.close (db Toy.connected)]
    /\ (exists cs,
          trace (snd (Public.executeQueries Toy.respond Toy.connected
                        ["SELECT 1;"] VUndefined w1))
          = trace w1 ++ Api.exec (db Toy.connected) "BEGIN TRANSACTION;" :: cs)
    /\ (exists cs,
          trace (snd (Public.executeRawQuery Toy.respond Toy.connected
                        "SELECT 1;" w1))
          = trace w1 ++ Api.exec_rows (db Toy.connected) "SELECT 1;" :: cs).
Proof.
  eapply (closeDatabase_leaves_handle Toy.respond 10 Toy.connected
            Toy.connected_world); cbv; reflexivity.
Defined.

(** ** The router of src/wasm-sql/DatabaseManager.js *)

Section RouterFacts.
Import Router.

Lemma settle_other p q s (promises : list Settlement) :
  q <> p -> settle p s promises !! q = promises !! q.
Proof.
  intros Hne. unfold settle.
  destruct (promises !! p) as [[| |]|]; auto.
  now apply list_lookup_insert_ne.
Qed.

Lemma settle_fresh s (promises : list Settlement) :
  settle (length promises) s (promises ++ [Unsettled]) !! length promises
  = Some s.
Proof.
  unfold settle. rewrite list_lookup_middle by reflexivity.
  apply list_lookup_insert_eq. rewrite length_app. simpl. lia.
Qed.

(** A reply settles the promise stored under its id and no other. *)
Lemma onmessage_settles_registered data this id p q :
  get_field data "operationId" = VStr id ->
  pendingOperations this !! id = Some p ->
  q <> p ->
  promises (onmessage data this) !! q = promises this !! q.
Proof.
  intros Hid Hp Hne. unfold onmessage. rewrite Hid, Hp. simpl.
  now apply settle_other.
Qed.

(** A reply whose id is not in the table changes nothing. *)
Lemma onmessage_unknown data this id :
  get_field data "operationId" = VStr id ->
  pendingOperations this !! id = None ->
  onmessage data this = this.
Proof. intros Hid Hp. unfold onmessage. now rewrite Hid, Hp. Qed.

(** C7.  [postToWorker] puts the waiter in [pendingOperations] and
    then posts the request: the registration is the first event it adds
    and the post, if the worker is there, the second; the manager in
    which the request is transmitted already maps the id to the waiter;
    and a reply with that id, arriving any time after the call, finds the
    waiter and settles it. *)
Theorem postToWorker_registers_before_posting random36 action data this :
  let id := generateOperationId random36 in
  let p := length (promises this) in
  let message := request id action data in
  snd (postToWorker random36 action data this) = p
  /\ events (fst (postToWorker random36 action data this))
     = events this ++ Registered id p ::
         match worker this with Some _ => [Posted message] | None => [] end
  /\ (exists registered,
        pendingOperations registered !! id = Some p
        /\ worker registered = worker this
        /\ fst (postToWorker random36 action data this)
           = transmit message p registered)
  /\ pendingOperations (fst (postToWorker random36 action data this)) !! id
     = Some p
  /\ (forall inbox result,
        worker this = Some inbox ->
        worker (fst (postToWorker random36 action data this))
        = Some (inbox ++ [message])
        /\ promises (onmessage (reply id result)
                       (fst (postToWorker random36 action data this))) !! p
           = Some (Resolved result)).
Proof.
  intros id p message. unfold postToWorker. fold id p message. simpl.
  split; [reflexivity|]. split.
  - unfold transmit, register. simpl.
    destruct (worker this); simpl; [|reflexivity].
    now rewrite <- app_assoc.
  - split.
    + eexists. split; [|split; [|reflexivity]].
      * simpl. apply lookup_insert_eq.
      * reflexivity.
    + split.
      * unfold transmit, register. simpl.
        destruct (worker this); simpl; apply lookup_insert_eq.
      * intros inbox result Hw. unfold transmit, register. simpl.
        rewrite Hw. simpl. split; [reflexivity|].
        unfold onmessage, reply. simpl. rewrite lookup_insert_eq. simpl.
        apply settle_fresh.
Qed.

(** C1.  Two random draws that differ only after their eleventh
    character give the same operation id.  The second registration
    replaces the first waiter in the table, so one entry is pending for
    two requests; the reply to the first request settles the second
    waiter, and the reply to the second request finds no entry: the first
    waiter is never settled. *)
Theorem operation_ids_collide :
  let first := postToWorker "0.4fzyo82mvyr" "executeRawQuery"
                 [("sql", VStr "SELECT 1")] new_DatabaseManager in
  let second := postToWorker "0.4fzyo82mvzz" "executeRawQuery"
                  [("sql", VStr "SELECT 2")] (fst first) in
  let replied := onmessage (reply "4fzyo82mv" (VStr "rows of SELECT 1"))
                   (fst second) in
  let replied_again := onmessage (reply "4fzyo82mv" (VStr "rows of SELECT 2"))
                         replied in
  generateOperationId "0.4fzyo82mvyr" = "4fzyo82mv"
  /\ generateOperationId "0.4fzyo82mvzz" = "4fzyo82mv"
  /\ snd first = 0%nat /\ snd second = 1%nat
  /\ pendingOperations (fst first) !! "4fzyo82mv" = Some 0%nat
  /\ pendingOperations (fst second) !! "4fzyo82mv" = Some 1%nat
  /\ size (pendingOperations (fst second)) = 1%nat
  /\ promises replied = [Unsettled; Resolved (VStr "rows of SELECT 1")]
  /\ promises replied_again = [Unsettled; Resolved (VStr "rows of SELECT 1")]
  /\ size (pendingOperations replied_again) = 0%nat.
Proof. vm_compute. repeat split; reflexivity. Qed.

End RouterFacts.

(** ** The reader of src/unnamed/part_000 *)

Section Runs.
Context {E : Type} (respond : Call -> E -> Reply * E).

Local Abbreviation M := (@M E).

Lemma runs_ret {A} (a : A) (w : World E) : runs (ret a) w a (engine w) [].
Proof. exists w. simpl. now rewrite app_nil_r. Qed.

Lemma runs_ret_at {A} (a : A) (w : World E) st :
  engine w = st -> runs (ret a) w a st [].
Proof. intros <-. apply runs_ret. Qed.

Lemma runs_bind {A B} (m : M A) (k : A -> M B) w a st1 bs1 b st2 bs2 :
  runs m w a st1 bs1 ->
  (forall w1, engine w1 = st1 -> runs (k a) w1 b st2 bs2) ->
  runs (bind m k) w b st2 (bs1 ++ bs2).
Proof.
  intros (w1 & Hm & He & Hb) Hk. destruct (Hk w1 He) as (w2 & Hk2 & He2 & Hb2).
  exists w2. unfold bind. rewrite Hm. split; [exact Hk2|]. split; [exact He2|].
  now rewrite Hb2, Hb, app_assoc.
Qed.

Lemma runs_via_sqlite3 this method c (w : World E) v st :
  sqlite3 this = true ->
  respond c (engine w) = (Returns v, st) ->
  runs (via_sqlite3 respond this method c) w v st (bound_args [c]).
Proof.
  intros Hs Hr. exists (answered c st w).
  rewrite (via_sqlite3_Returns _ _ _ _ _ _ _ Hs Hr).
  split; [reflexivity|]. split; [reflexivity|].
  rewrite trace_answered. unfold bound_args. now rewrite flat_map_app.
Qed.

Lemma runs_call c (w : World E) v st :
  respond c (engine w) = (Returns v, st) ->
  runs (call respond c) w v st (bound_args [c]).
Proof.
  intros Hr. exists (answered c st w). unfold call. rewrite Hr.
  split; [reflexivity|]. split; [reflexivity|].
  rewrite trace_answered. unfold bound_args. now rewrite flat_map_app.
Qed.

Lemma runs_try_catch {A} (m : M A) h (w : World E) a st bs :
  runs m w a st bs -> runs (try_catch m h) w a st bs.
Proof.
  intros (w1 & Hm & He & Hb). exists w1. unfold try_catch. now rewrite Hm.
Qed.

Lemma runs_eq {A} (m : M A) (w : World E) a a' st st' bs bs' :
  runs m w a st bs -> a = a' -> st = st' -> bs = bs' -> runs m w a' st' bs'.
Proof. now intros H -> -> ->. Qed.

End Runs.

Section DraftFacts.
Variable SQLite : Constants.
Variable this : DbHelper.
Variable handle : Z.
Hypothesis attached : sqlite3 this = true.
Hypothesis opened : db this = VNum handle.

Local Abbreviation respond := (Script.respond SQLite).
Local Abbreviation via := (runs_via_sqlite3 respond this).

Ltac answered_by He Hcur :=
  rewrite He; cbn [Script.respond]; rewrite Hcur; reflexivity.

Local Abbreviation assign := (assign SQLite).

Lemma names_by_index (names done : list string) :
  map (fun j => VStr (nth j (done ++ names) ""))
    (seq (length done) (length names))
  = map VStr names.
Proof.
  revert done. induction names as [|name rest IH]; intros done; [reflexivity|].
  simpl. rewrite nth_middle. f_equal.
  specialize (IH (done ++ [name])).
  rewrite length_app, <- app_assoc in IH. simpl in IH.
  now rewrite Nat.add_1_r in IH.
Qed.

Lemma assign_by_index (names : list string) (r : list Script.Cell) :
  forall done_names done_cells row,
    length done_names = length done_cells ->
    length names = length r ->
    fold_left (assign (done_names ++ names) (done_cells ++ r))
      (seq (length done_names) (length names)) row
    = fold_left (fun row nc => assign_field row (fst nc)
                                 (Script.typed_value SQLite (snd nc)))
        (combine names r) row.
Proof.
  revert r. induction names as [|name rest IH]; intros r dn dc row Hd Hl.
  - reflexivity.
  - destruct r as [|c r]; [discriminate|]. simpl.
    specialize (IH r (dn ++ [name]) (dc ++ [c])
                  (assign (dn ++ name :: rest) (dc ++ c :: r) row (length dn))).
    rewrite !length_app, <- !app_assoc in IH. simpl in IH.
    rewrite Nat.add_1_r in IH. rewrite IH by (simpl in Hl; lia).
    f_equal. unfold assign, Draft.key.
    rewrite Nat2Z.id, map_app. simpl map.
    replace (length dn) with (length (map VStr dn)) at 1 by apply length_map.
    rewrite nth_middle. rewrite Hd, nth_middle. reflexivity.
Qed.

Lemma push_names_runs stmt (st : Script.State) :
  Script.is_current stmt st = true ->
  forall todo n columnNames (w : World Script.State),
    engine w = st ->
    runs (Draft.push_names respond this stmt todo (Z.of_nat n) columnNames) w
      (columnNames
         ++ map (fun j => VStr (nth j (Script.names_now st) "")) (seq n todo))
      st [].
Proof.
  intros Hcur.
  induction todo as [|todo IH]; intros n columnNames w He; simpl.
  - rewrite app_nil_r. subst st. apply runs_ret.
  - eapply runs_eq.
    + eapply runs_bind.
      * apply via; [exact attached|]. answered_by He Hcur.
      * intros w1 He1. replace (Z.of_nat n + 1) with (Z.of_nat (S n)) by lia.
        apply IH. exact He1.
    + rewrite Nat2Z.id, <- app_assoc. reflexivity.
    + reflexivity.
    + reflexivity.
Qed.

Lemma read_column_runs stmt (st : Script.State) n (w : World Script.State) :
  Script.is_current stmt st = true ->
  engine w = st ->
  runs (Draft.read_column SQLite respond this stmt (Z.of_nat n)) w
    (Script.typed_value SQLite (nth n (Script.row_now st) (Script.no_cell SQLite)))
    st [].
Proof.
  intros Hcur He. unfold Draft.read_column.
  eapply runs_eq.
  - eapply runs_bind.
    + apply via; [exact attached|]. answered_by He Hcur.
    + intros w1 He1. unfold Draft.strict_equal, Script.cell.
      rewrite Nat2Z.id.
      instantiate (1 := []). instantiate (1 := st).
      instantiate (1 := Script.typed_value SQLite
                          (nth n (Script.row_now st) (Script.no_cell SQLite))).
      unfold Script.typed_value.
      destruct (_ =? SQLITE_INTEGER SQLite);
        [|destruct (_ =? SQLITE_FLOAT SQLite);
          [|destruct (_ =? SQLITE_BLOB SQLite)]];
        (eapply runs_eq;
         [apply via; [exact attached | answered_by He1 Hcur]
         | unfold Script.cell; now rewrite Nat2Z.id | reflexivity | reflexivity]).
  - reflexivity.
  - reflexivity.
  - reflexivity.
Qed.

Lemma fill_row_runs stmt names (st : Script.State) :
  Script.is_current stmt st = true ->
  forall todo n row (w : World Script.State),
    engine w = st ->
    runs (Draft.fill_row SQLite respond this stmt (map VStr names) todo
            (Z.of_nat n) row) w
      (fold_left (assign names (Script.row_now st)) (seq n todo) row) st [].
Proof.
  intros Hcur.
  induction todo as [|todo IH]; intros n row w He; simpl.
  - subst st. apply runs_ret.
  - eapply runs_eq.
    + eapply runs_bind.
      * apply read_column_runs; [exact Hcur | exact He].
      * intros w1 He1. replace (Z.of_nat n + 1) with (Z.of_nat (S n)) by lia.
        apply IH. exact He1.
    + reflexivity.
    + reflexivity.
    + reflexivity.
Qed.

Lemma fill_row_Row stmt names (st : Script.State) (w : World Script.State) :
  Script.is_current stmt st = true ->
  engine w = st ->
  length (Script.row_now st) = length names ->
  runs (Draft.fill_row SQLite respond this stmt (map VStr names)
          (length names) 0 []) w
    (match Script.Row SQLite names (Script.row_now st) with
     | VObj row => row
     | _ => []
     end) st [].
Proof.
  intros Hcur He Hl. eapply runs_eq.
  - apply (fill_row_runs stmt names st Hcur (length names) O [] w He).
  - apply (assign_by_index names (Script.row_now st) [] [] []);
      [reflexivity | now rewrite Hl].
  - reflexivity.
  - reflexivity.
Qed.

Lemma step_rows_runs stmt names :
  forall rows fuel (st : Script.State),
    Script.is_current stmt st = true ->
    Script.rows_left st = rows ->
    Script.names_now st = names ->
    Forall (fun r => length r = length names) rows ->
    (length rows < fuel)%nat ->
    exists st',
      Script.pending st' = Script.pending st
      /\ forall records (w : World Script.State),
           engine w = st ->
           runs (Draft.step_rows SQLite respond fuel this stmt
                   (VNum (Z.of_nat (length names))) (map VStr names) records) w
             (records ++ map (Script.Row SQLite names) rows) st' [].
Proof.
  induction rows as [|r rows IH]; intros fuel st Hcur Hrows Hnames Hwf Hfuel;
    (destruct fuel as [|fuel]; [simpl in Hfuel; lia|]).
  - exists st. split; [reflexivity|]. intros records w He. simpl.
    eapply runs_eq.
    + eapply runs_bind.
      * apply via; [exact attached|]. rewrite He. cbn [Script.respond].
        rewrite Hcur. simpl. rewrite Hrows. reflexivity.
      * intros w1 He1. unfold Draft.strict_equal.
        replace (SQLITE_ROW SQLite + 1 =? SQLITE_ROW SQLite) with false
          by (symmetry; apply Z.eqb_neq; lia).
        apply runs_ret_at. exact He1.
    + now rewrite app_nil_r.
    + reflexivity.
    + reflexivity.
  - inversion Hwf as [|r' rows' Hr Hwf']; subst r' rows'.
    set (st1 := {| Script.database := Script.database st;
                   Script.pending := Script.pending st;
                   Script.current := Script.current st;
                   Script.names_now := Script.names_now st;
                   Script.row_now := r; Script.rows_left := rows |}).
    destruct (IH fuel st1 Hcur eq_refl Hnames Hwf' ltac:(simpl in Hfuel; lia))
      as (st' & Hp' & Hrest).
    exists st'. split; [exact Hp'|]. intros records w He.
    cbn [Draft.step_rows].
    eapply runs_eq.
    + eapply runs_bind.
      * apply via; [exact attached|]. rewrite He. cbn [Script.respond].
        rewrite Hcur. simpl. rewrite Hrows. reflexivity.
      * intros w1 He1. unfold Draft.strict_equal. rewrite Z.eqb_refl.
        unfold Draft.turns. rewrite Nat2Z.id.
        eapply runs_bind.
        -- apply (fill_row_Row stmt names st1 w1 Hcur He1 Hr).
        -- intros w2 He2. apply Hrest. exact He2.
    + unfold Script.Row. simpl. now rewrite <- app_assoc.
    + reflexivity.
    + reflexivity.
Qed.

Lemma read_statement_runs stmt selectionArgs fuel (st : Script.State) :
  Script.is_current stmt st = true ->
  Forall (fun r => length r = length (Script.names_now st)) (Script.rows_left st) ->
  (length (Script.rows_left st) < fuel)%nat ->
  exists st',
    Script.pending st' = Script.pending st
    /\ forall records (w : World Script.State),
         engine w = st ->
         runs (Draft.read_statement SQLite respond fuel this stmt
                 selectionArgs records) w
           (records ++ map (Script.Row SQLite (Script.names_now st))
                         (Script.rows_left st))
           st' (bindings selectionArgs 1).
Proof.
  intros Hcur Hwf Hfuel.
  destruct (step_rows_runs stmt (Script.names_now st) (Script.rows_left st)
              fuel st Hcur eq_refl eq_refl Hwf Hfuel) as (st' & Hp' & Hrows).
  exists st'. split; [exact Hp'|]. intros records w He.
  unfold Draft.read_statement.
  destruct selectionArgs as [[|arg args]|];
    (eapply runs_eq;
     [ eapply runs_bind;
       [ apply via; [exact attached | answered_by He Hcur]
       | intros w1 He1; eapply runs_bind;
         [ first [ apply runs_ret_at; exact He1
                 | apply via; [exact attached | answered_by He1 Hcur] ]
         | intros w2 He2; unfold Draft.turns; rewrite Nat2Z.id;
           eapply runs_bind;
           [ apply (push_names_runs stmt st Hcur
                      (length (Script.names_now st)) O [] w2 He2)
           | intros w3 He3;
             pose proof (names_by_index (Script.names_now st) []) as Hn;
             simpl in Hn; simpl app; rewrite Hn;
             apply Hrows; exact He3 ] ] ]
     | reflexivity | reflexivity | simpl; rewrite ?app_nil_r; reflexivity ]).
Qed.

Lemma bindings_S selectionArgs n :
  bindings selectionArgs (S n) = bindings selectionArgs 1 ++ bindings selectionArgs n.
Proof. destruct selectionArgs as [[|arg args]|]; reflexivity. Qed.

Lemma for_await_runs selectionArgs steps :
  forall script fuel (st : Script.State),
    Script.pending st = script ->
    Script.well_formed script ->
    (length script < fuel)%nat ->
    (Script.steps_needed script <= steps)%nat ->
    exists st',
      Script.pending st' = []
      /\ forall records (w : World Script.State),
           engine w = st ->
           runs (Draft.for_await SQLite respond fuel steps this
                   (VStr "statements") selectionArgs records) w
             (records ++ Script.rows_of SQLite script) st'
             (bindings selectionArgs (length script)).
Proof.
  induction script as [|p rest IH]; intros fuel st Hpending Hwf Hfuel Hsteps;
    (destruct fuel as [|fuel]; [simpl in Hfuel; lia|]).
  - exists {| Script.database := Script.database st; Script.pending := [];
              Script.current := -1; Script.names_now := Script.names_now st;
              Script.row_now := Script.row_now st;
              Script.rows_left := Script.rows_left st |}.
    split; [reflexivity|]. intros records w He.
    cbn [Draft.for_await].
    eapply runs_eq.
    + eapply runs_bind.
      * apply runs_call. rewrite He. simpl. rewrite Hpending. reflexivity.
      * intros w1 He1. simpl. apply runs_ret_at. exact He1.
    + now rewrite app_nil_r.
    + reflexivity.
    + destruct selectionArgs as [[|arg args]|]; reflexivity.
  - inversion Hwf as [|p' rest' Hp Hrest]; subst p' rest'.
    unfold Script.steps_needed in Hsteps. simpl in Hsteps.
    set (st1 := {| Script.database := Script.database st;
                   Script.pending := rest;
                   Script.current := Z.of_nat (length rest);
                   Script.names_now := Script.names p;
                   Script.row_now := []; Script.rows_left := Script.rows p |}).
    destruct (read_statement_runs (VNum (Z.of_nat (length rest))) selectionArgs
                steps st1 (Z.eqb_refl _) Hp ltac:(simpl; lia))
      as (st2 & Hp2 & Hread).
    destruct (IH fuel st2 Hp2 Hrest ltac:(simpl in Hfuel; lia)
                ltac:(unfold Script.steps_needed; lia)) as (st' & Hp' & Hloop).
    exists st'. split; [exact Hp'|]. intros records w He.
    cbn [Draft.for_await].
    eapply runs_eq.
    + eapply runs_bind.
      * apply runs_call. rewrite He. simpl. rewrite Hpending. reflexivity.
      * intros w1 He1. simpl.
        eapply runs_bind.
        -- apply runs_try_catch. apply Hread. exact He1.
        -- intros w2 He2. apply Hloop. exact He2.
    + simpl. now rewrite <- app_assoc.
    + reflexivity.
    + simpl. rewrite (bindings_S selectionArgs (length rest)). reflexivity.
Qed.


End DraftFacts.


(** The last column of a name gives the value, and the column named
    [__proto__] is not in the Row. *)
Example executeRawQuery_proto_column :
  fst (Draft.executeRawQuery sqlite_constants (Script.respond sqlite_constants) 3
         Toy.connected "SELECT a AS id, b AS __proto__, c AS id FROM t;" None
         {| engine := Script.start 1 proto_select; trace := []; outbox := [];
            dbInstance := Some Toy.connected |})
  = Done (VArr [VObj [("id", VNum 3)]]).
Proof. vm_compute. reflexivity. Qed.

(** A helper that holds another handle than the one the engine has
    open gets no rows. *)
Example executeRawQuery_other_handle :
  fst (Draft.executeRawQuery sqlite_constants (Script.respond sqlite_constants) 3
         Toy.connected "SELECT id, name FROM t;" None
         {| engine := Script.start 2 two_selects; trace := []; outbox := [];
            dbInstance := Some Toy.connected |})
  = Thrown (VError "Database select query failed: Error: bad parameter or other API misuse").
Proof. vm_compute. reflexivity. Qed.

Lemma postToWorker_registers_before_posting_witness :
  Router.worker Router.new_DatabaseManager = Some []
  /\ Router.promises
       (Router.onmessage (Router.reply "4fzyo82mv" (VNum 7))
          (fst (Router.postToWorker "0.4fzyo82mvyr" "closeDatabase" []
                  Router.new_DatabaseManager))) !! 0%nat
     = Some (Router.Resolved (VNum 7)).
Proof.
  split; [reflexivity|].
  destruct (postToWorker_registers_before_posting "0.4fzyo82mvyr"
              "closeDatabase" [] Router.new_DatabaseManager)
    as (_ & _ & _ & _ & Hreply).
  destruct (Hreply [] (VNum 7) eq_refl) as [_ Hsettled]. exact Hsettled.
Defined.

(** ** The dispatcher of src/public/DBHelperWorker.js *)

Section DispatcherFacts.
Context {E : Type} (respond : Call -> E -> Reply * E).

(** What [onmessage] makes of the outcome of its [switch]: a returned
    result is posted as [{ operationId, result }], a thrown Error as
    [{ operationId, error: message }], each as one message; a handler that
    never settles gets nothing posted. *)
Lemma onmessage_envelope fuel data (w : World E) :
  match Public.switch_action respond fuel data w with
  | (Done result, w1) =>
      Public.onmessage respond fuel data w
      = postMessage (VObj [("operationId", Public.operationId data);
                           ("result", result)]) w1
  | (Thrown (VError m), w1) =>
      Public.onmessage respond fuel data w
      = postMessage (VObj [("operationId", Public.operationId data);
                           ("error", VStr m)]) w1
  | (Pending, w1) => Public.onmessage respond fuel data w = (Pending, w1)
  | _ => True
  end.
Proof.
  destruct (Public.switch_action respond fuel data w) as [[result | e | | ] w1]
    eqn:Hswitch; try exact I; try destruct e; try exact I;
    unfold Public.onmessage, try_catch, bind; rewrite Hswitch; reflexivity.
Qed.

End DispatcherFacts.

(** ** The scenario of the README on the small engine *)

Example connect_replies :
  let r := Public.onmessage Toy.respond 10
             {| Public.action := "createDBConnection"; Public.dbName := "sync";
                Public.sql := ""; Public.queries := []; Public.statements := [];
                Public.selectionArgs := []; Public.rollbackOnError := VUndefined;
                Public.operationId := VStr "a1" |} (Toy.world Toy.init) in
  fst r = Done tt /\ dbInstance (snd r) = Some Toy.connected
  /\ outbox (snd r)
     = [VObj [("operationId", VStr "a1");
              ("result", VObj [("success", VBool true);
                               ("message", VStr "Database sync created")])]].
Proof. vm_compute. repeat split; reflexivity. Qed.

Example insert_two_names :
  fst (Public.executePreparedStatements Toy.respond Toy.connected
         [insert_name (VStr "Alice"); insert_name (VStr "Bob")] VUndefined
         Toy.connected_world)
  = Done (VArr [VNull; VArr [VNum 1; VNum 2]]).
Proof. vm_compute. reflexivity. Qed.

(** The dispatcher calls [executeSelectPreparedStatements] of
    [src/public] without its callback: the reply is the TypeError. *)
Example select_without_callback :
  outbox (snd (Public.onmessage Toy.respond 10
                 {| Public.action := "executeSelectPreparedStatements";
                    Public.dbName := "";
                    Public.sql := "INSERT INTO test_table (name) VALUES (?);";
                    Public.queries := []; Public.statements := [];
                    Public.selectionArgs := [VStr "Alice"];
                    Public.rollbackOnError := VUndefined;
                    Public.operationId := VStr "s1" |} Toy.connected_world))
  = [VObj [("operationId", VStr "s1");
           ("error", VStr "callback is not a function")]].
Proof. vm_compute. reflexivity. Qed.

(** ** More on the transaction executors of src/public/DBHelperWorker.js *)

Section PublicMore.
Context {E : Type} (respond : Call -> E -> Reply * E).

Local Abbreviation M := (@M E).

(** X1.  [executeQueries] on the path without failure: BEGIN, the queries in
    order, COMMIT, and nothing else; the call returns [undefined]. *)
Theorem executeQueries_commits this queries rollbackOnError w v0 w1 w2 v3 e3 :
  truthy (db this) = true ->
  via_sqlite3 respond this "exec" (Api.exec (db this) "BEGIN TRANSACTION;") w
    = (Done v0, w1) ->
  all_accepted respond this queries w1 w2 ->
  respond (Api.exec (db this) "COMMIT;") (engine w2) = (Returns v3, e3) ->
  Public.executeQueries respond this queries rollbackOnError w
  = (Done VUndefined, answered (Api.exec (db this) "COMMIT;") e3 w2)
  /\ trace (answered (Api.exec (db this) "COMMIT;") e3 w2)
     = trace w ++ [Api.exec (db this) "BEGIN TRANSACTION;"]
         ++ map (Api.exec (db this)) queries
         ++ [Api.exec (db this) "COMMIT;"].
Proof.
  intros Hdb Hbegin Hall Hcommit.
  destruct (via_sqlite3_Done _ _ _ _ _ _ _ Hbegin) as (Hs & e1 & _ & Hw1).
  destruct (exec_each_all_accepted _ _ _ _ _ Hs Hall) as (Ht & Hrun).
  split.
  - unfold Public.executeQueries. rewrite Hdb. cbn [negb]. cbv beta iota.
    unfold try_catch. unfold bind at 1. rewrite Hbegin.
    unfold bind at 1. specialize (Hrun []). rewrite app_nil_r in Hrun.
    rewrite Hrun. simpl Public.exec_each. unfold ret at 1.
    unfold bind at 1.
    rewrite (via_sqlite3_Returns respond this "exec" _ w2 _ _ Hs Hcommit).
    reflexivity.
  - rewrite trace_answered, Ht, Hw1, trace_answered.
    now rewrite <- !app_assoc.
Qed.

(** X2.  What the pipeline of [src/public] does with a compiled and bound
    statement, whatever the step does: it asks for the statement to be
    finalized.  When the engine does so, the pair reports the step; when
    the engine refuses, the pipeline never settles. *)
Theorem executePreparedStatement_finalizes
    this sqlQuery values w stmt w1 runError lastID cs e2 r e3 :
  Public.compileAndBindSQLiteStatement respond this sqlQuery values w
    = (Done stmt, w1) ->
  stepped respond stmt (engine w1) runError lastID cs e2 ->
  respond (Api.stmt_finalize stmt) e2 = (r, e3) ->
  exists w3,
    Public.executePreparedStatement respond this sqlQuery values w
    = (match r with
       | Returns _ => Done (VArr [runError; lastID])
       | Raises _ => Pending
       end, w3)
    /\ engine w3 = e3
    /\ trace w3 = trace w1 ++ cs ++ [Api.stmt_finalize stmt].
Proof.
  intros Hcompile Hstep Hfinal.
  unfold Public.executePreparedStatement, new_Promise_async.
  unfold bind at 1. rewrite Hcompile.
  unfold bind at 1. unfold try_catch_locals, bind, call.
  inversion Hstep as [e v1 e1 id e2' Hs Hl | e m e1 Hs | e v1 e1 m e2' Hs Hl];
    subst; rewrite Hs; simpl; try rewrite Hl; simpl; rewrite Hfinal;
    destruct r; eexists; (split; [reflexivity|]); (split; [reflexivity|]);
    simpl; rewrite <- ?app_assoc; reflexivity.
Qed.

(** X3.  A batch whose COMMIT the engine refuses, every statement
    having succeeded: the ids are dropped and the [catch] block gets the
    Error of COMMIT.  Asked to roll back, the call issues ROLLBACK and
    returns the pair [[Error, null]] when the engine accepts it; when the
    engine refuses it, the call throws the Error of ROLLBACK.  Not asked,
    it returns the pair and issues nothing more. *)
Theorem executePreparedStatements_commit_failure
    this statements rollbackOnError w v0 w1 ids w2 m e3 r e4 :
  via_sqlite3 respond this "exec" (Api.exec (db this) "BEGIN TRANSACTION;") w
    = (Done v0, w1) ->
  all_succeed respond this statements w1 ids w2 ->
  respond (Api.exec (db this) "COMMIT;") (engine w2) = (Raises m, e3) ->
  respond (Api.exec (db this) "ROLLBACK;") e3 = (r, e4) ->
  Public.executePreparedStatements respond this statements rollbackOnError w
  = (if truthy (default_param rollbackOnError (VBool true))
     then match r with
          | Returns _ => Done (VArr [VError m; VNull])
          | Raises m' => Thrown (VError m')
          end
     else Done (VArr [VError m; VNull]),
     if truthy (default_param rollbackOnError (VBool true))
     then answered (Api.exec (db this) "ROLLBACK;") e4
            (answered (Api.exec (db this) "COMMIT;") e3 w2)
     else answered (Api.exec (db this) "COMMIT;") e3 w2).
Proof.
  intros Hbegin Hall Hcommit Hrollback.
  destruct (public_commit_outcome respond this statements rollbackOnError
              w v0 w1 ids w2 (Raises m) e3 r e4 Hbegin Hall Hcommit Hrollback)
    as (Hrun & _).
  rewrite Hrun. unfold caught.
  destruct (truthy (default_param rollbackOnError (VBool true))); reflexivity.
Qed.

(** X4.  A batch whose BEGIN the engine refuses: no statement is
    compiled and the [catch] block gets the Error of BEGIN.  Asked to roll
    back, the call issues ROLLBACK all the same and returns the pair
    [[Error, null]] when the engine accepts it; when the engine refuses
    it, the call throws the Error of ROLLBACK.  Not asked, it returns the
    pair and issues nothing more. *)
Theorem executePreparedStatements_begin_failure
    this statements rollbackOnError w m e1 r e2 :
  sqlite3 this = true ->
  respond (Api.exec (db this) "BEGIN TRANSACTION;") (engine w) = (Raises m, e1) ->
  respond (Api.exec (db this) "ROLLBACK;") e1 = (r, e2) ->
  Public.executePreparedStatements respond this statements rollbackOnError w
  = (if truthy (default_param rollbackOnError (VBool true))
     then match r with
          | Returns _ => Done (VArr [VError m; VNull])
          | Raises m' => Thrown (VError m')
          end
     else Done (VArr [VError m; VNull]),
     if truthy (default_param rollbackOnError (VBool true))
     then answered (Api.exec (db this) "ROLLBACK;") e2
            (answered (Api.exec (db this) "BEGIN TRANSACTION;") e1 w)
     else answered (Api.exec (db this) "BEGIN TRANSACTION;") e1 w).
Proof.
  intros Hs Hbegin Hrollback.
  unfold Public.executePreparedStatements, try_catch.
  unfold bind at 1.
  rewrite (via_sqlite3_Raises respond this "exec" _ w _ _ Hs Hbegin).
  etransitivity.
  - exact (catch_block respond this rollbackOnError (VError m)
             (answered (Api.exec (db this) "BEGIN TRANSACTION;") e1 w)
             r e2 Hs Hrollback).
  - unfold caught.
    destruct (truthy (default_param rollbackOnError (VBool true))); reflexivity.
Qed.

End PublicMore.

(** ** More on the dispatcher of src/public/DBHelperWorker.js *)

Section Keeps.
Context {E : Type} (respond : Call -> E -> Reply * E).

Local Abbreviation M := (@M E).

Lemma keeps_ret {A} (a : A) : keeps (@ret E A a).
Proof. intros w. split; reflexivity. Qed.

Lemma keeps_throw {A} e : keeps (@throw E A e).
Proof. intros w. split; reflexivity. Qed.

Lemma keeps_out_of_fuel {A} : keeps (@out_of_fuel E A).
Proof. intros w. split; reflexivity. Qed.

Lemma keeps_bind {A B} (m : M A) (k : A -> M B) :
  keeps m -> (forall a, keeps (k a)) -> keeps (bind m k).
Proof.
  intros Hm Hk w. unfold bind. destruct (Hm w) as [Ho Hd].
  destruct (m w) as [[a | e | | ] w1]; simpl in *; auto.
  destruct (Hk a w1) as [Ho' Hd']. now rewrite Ho', Hd'.
Qed.

Lemma keeps_try_catch {A} (m : M A) (h : value -> M A) :
  keeps m -> (forall e, keeps (h e)) -> keeps (try_catch m h).
Proof.
  intros Hm Hh w. unfold try_catch. destruct (Hm w) as [Ho Hd].
  destruct (m w) as [[a | e | | ] w1]; simpl in *; auto.
  destruct (Hh e w1) as [Ho' Hd']. now rewrite Ho', Hd'.
Qed.

Lemma keeps_try_finally {A} (m : M A) (c : M unit) :
  keeps m -> keeps c -> keeps (try_finally m c).
Proof.
  intros Hm Hc w. unfold try_finally. destruct (Hm w) as [Ho Hd].
  destruct (m w) as [[a | e | | ] w1]; simpl in *; auto.
  - destruct (keeps_bind c (fun _ => @ret E A a) Hc (fun _ => keeps_ret a) w1)
      as [Ho' Hd']. now rewrite Ho', Hd'.
  - destruct (keeps_bind c (fun _ => @throw E A e) Hc (fun _ => keeps_throw e) w1)
      as [Ho' Hd']. now rewrite Ho', Hd'.
Qed.

Lemma keeps_try_catch_locals {L} (init : L) (m : M L) (h : value -> M L) :
  keeps m -> (forall e, keeps (h e)) -> keeps (try_catch_locals init m h).
Proof.
  intros Hm Hh w. unfold try_catch_locals. destruct (Hm w) as [Ho Hd].
  destruct (m w) as [[a | e | | ] w1]; simpl in *; auto.
  destruct (Hh e w1) as [Ho' Hd'].
  destruct (h e w1) as [[a | e' | | ] w2]; simpl in *; now rewrite Ho', Hd'.
Qed.

Lemma keeps_new_Promise_async {A} (m : M A) :
  keeps m -> keeps (new_Promise_async m).
Proof.
  intros Hm w. unfold new_Promise_async. destruct (Hm w) as [Ho Hd].
  destruct (m w) as [[a | e | | ] w1]; simpl in *; auto.
Qed.

Lemma keeps_not_awaited {A} (m : M A) : keeps m -> keeps (not_awaited m).
Proof.
  intros Hm w. unfold not_awaited. destruct (Hm w) as [Ho Hd].
  destruct (m w) as [[a | e | | ] w1]; simpl in *; auto.
Qed.

Lemma keeps_get_message e : keeps (@get_message E e).
Proof. destruct e; simpl; first [apply keeps_ret | apply keeps_throw]. Qed.

Lemma keeps_call c : keeps (call respond c).
Proof.
  intros w. unfold call.
  destruct (respond c (engine w)) as [[v | m] e']; split; reflexivity.
Qed.

Lemma keeps_via_sqlite3 this method c : keeps (via_sqlite3 respond this method c).
Proof.
  unfold via_sqlite3. destruct (sqlite3 this);
    [apply keeps_call | apply keeps_throw].
Qed.

Lemma errs_ret {A} (a : A) : errs (@ret E A a).
Proof. intros w. exact I. Qed.

Lemma errs_throw {A} m : errs (@throw E A (VError m)).
Proof. intros w. exact I. Qed.

Lemma errs_out_of_fuel {A} : errs (@out_of_fuel E A).
Proof. intros w. exact I. Qed.

Lemma errs_bind {A B} (m : M A) (k : A -> M B) :
  errs m -> (forall a, errs (k a)) -> errs (bind m k).
Proof.
  intros Hm Hk w. unfold bind. specialize (Hm w).
  destruct (m w) as [[a | e | | ] w1]; simpl in *; auto. apply Hk.
Qed.

Lemma errs_try_catch {A} (m : M A) (h : value -> M A) :
  errs m -> (forall msg, errs (h (VError msg))) -> errs (try_catch m h).
Proof.
  intros Hm Hh w. unfold try_catch. specialize (Hm w).
  destruct (m w) as [[a | e | | ] w1]; simpl in *; auto.
  destruct e; try contradiction. apply Hh.
Qed.

Lemma errs_try_finally {A} (m : M A) (c : M unit) :
  errs m -> errs c -> errs (try_finally m c).
Proof.
  intros Hm Hc w. unfold try_finally. specialize (Hm w).
  destruct (m w) as [[a | e | | ] w1]; simpl in *; auto.
  - apply (errs_bind c (fun _ => ret a) Hc (fun _ => errs_ret a)).
  - destruct e; try contradiction.
    apply (errs_bind c (fun _ => throw (VError message)) Hc
             (fun _ => errs_throw message)).
Qed.

Lemma errs_call c : errs (call respond c).
Proof.
  intros w. unfold call.
  destruct (respond c (engine w)) as [[v | m] e']; exact I.
Qed.

Lemma errs_via_sqlite3 this method c : errs (via_sqlite3 respond this method c).
Proof.
  unfold via_sqlite3. destruct (sqlite3 this);
    [apply errs_call | apply errs_throw].
Qed.

Lemma errs_get_message m : errs (@get_message E (VError m)).
Proof. apply errs_ret. Qed.

End Keeps.

Create HintDb keeps.

#[local] Hint Resolve keeps_ret keeps_throw keeps_out_of_fuel keeps_bind
  keeps_try_catch keeps_try_finally keeps_try_catch_locals
  keeps_new_Promise_async keeps_not_awaited keeps_get_message keeps_call
  keeps_via_sqlite3 : keeps.

Section DispatcherMore.
Context {E : Type} (respond : Call -> E -> Reply * E).

Local Abbreviation M := (@M E).

Lemma keeps_bind_each stmt values :
  forall i, keeps (Public.bind_each respond stmt i values).
Proof.
  induction values as [|v rest IH]; intros i; simpl; auto with keeps.
Qed.

Lemma keeps_compileAndBind this sqlQuery values :
  keeps (Public.compileAndBindSQLiteStatement respond this sqlQuery values).
Proof.
  unfold Public.compileAndBindSQLiteStatement.
  apply keeps_bind; [apply keeps_via_sqlite3|]. intros stmt.
  apply keeps_bind; [apply keeps_bind_each | intros; apply keeps_ret].
Qed.

Lemma errs_bind_each stmt values :
  forall i, errs (Public.bind_each respond stmt i values).
Proof.
  induction values as [|v rest IH]; intros i; simpl.
  - apply errs_ret.
  - apply errs_bind; [apply errs_call | intros; apply IH].
Qed.

Lemma errs_compileAndBind this sqlQuery values :
  errs (Public.compileAndBindSQLiteStatement respond this sqlQuery values).
Proof.
  unfold Public.compileAndBindSQLiteStatement.
  apply errs_bind; [apply errs_via_sqlite3|]. intros stmt.
  apply errs_bind; [apply errs_bind_each | intros; apply errs_ret].
Qed.

Lemma keeps_get_each stmt :
  forall fuel rows, keeps (Public.get_each respond fuel stmt rows).
Proof.
  induction fuel as [|fuel IH]; intros rows; simpl; [apply keeps_out_of_fuel|].
  apply keeps_bind; [apply keeps_call|]. intros more.
  destruct (truthy more); [|apply keeps_ret].
  apply keeps_bind; [apply keeps_call | intros; apply IH].
Qed.

Lemma errs_get_each stmt :
  forall fuel rows, errs (Public.get_each respond fuel stmt rows).
Proof.
  induction fuel as [|fuel IH]; intros rows; simpl; [apply errs_out_of_fuel|].
  apply errs_bind; [apply errs_call|]. intros more.
  destruct (truthy more); [|apply errs_ret].
  apply errs_bind; [apply errs_call | intros; apply IH].
Qed.

(** X5.  A command that arrives before any connection: the tags that need
    the helper get one error reply, the TypeError of the call on the
    undefined [dbInstance]; any other tag but [createDBConnection] gets the
    unknown-action result.  The engine is not called. *)
Theorem commands_before_connect fuel data (w : World E) :
  dbInstance w = None ->
  Public.action data <> "createDBConnection" ->
  Public.onmessage respond fuel data w
  = postMessage
      (if needs_dbInstance (Public.action data)
       then error_envelope (Public.operationId data)
              ("Cannot read properties of undefined (reading '"
                 +:+ Public.action data +:+ "')")
       else result_envelope (Public.operationId data)
              (VObj [("error", VStr "Unknown action")])) w.
Proof.
  intros Hinst Hnot.
  unfold Public.onmessage, Public.switch_action, needs_dbInstance, existsb.
  destruct (String.eqb_spec (Public.action data) "createDBConnection") as [|_];
    [contradiction|].
  repeat
    match goal with
    | |- context [String.eqb (Public.action data) ?tag] =>
        destruct (String.eqb_spec (Public.action data) tag) as [Htag | _];
        [ rewrite Htag;
          unfold try_catch, bind, Public.on_dbInstance, bind, get_dbInstance;
          rewrite Hinst; reflexivity | ]
    end.
  reflexivity.
Qed.

(** X6.  A command whose tag has no case, in any state of the worker: one
    reply, a result (not an error) that holds [{ error: 'Unknown action' }];
    nothing else happens. *)
Theorem unknown_action_reply fuel data (w : World E) :
  known_action (Public.action data) = false ->
  Public.onmessage respond fuel data w
  = postMessage (result_envelope (Public.operationId data)
                   (VObj [("error", VStr "Unknown action")])) w.
Proof.
  unfold known_action, existsb. intros Hunknown.
  repeat (apply orb_false_elim in Hunknown as [? Hunknown]).
  unfold Public.onmessage, Public.switch_action.
  repeat match goal with H : String.eqb _ _ = false |- _ => rewrite H; clear H end.
  reflexivity.
Qed.

Lemma isTableFound_result this tableName (w : World E) :
  exists found w1,
    Public.isTableFound respond this tableName
      (Some (fun err isFound _ => ret (VObj [("success", isFound)]))) VUndefined w
    = (Done (VObj [("success", VBool found)]), w1)
    /\ outbox w1 = outbox w /\ dbInstance w1 = dbInstance w
    /\ (forall m e1,
          respond (Api.exec (db this) (table_query tableName)) (engine w)
          = (Raises m, e1) -> found = false)
    /\ (forall n e1,
          respond (Api.exec (db this) (table_query tableName)) (engine w)
          = (Returns (VNum n), e1) -> found = false).
Proof.
  unfold Public.isTableFound, try_catch, bind, via_sqlite3, call,
    Public.invoke, table_query.
  destruct (sqlite3 this).
  - destruct (respond _ (engine w)) as [[v | m] e1] eqn:Hr.
    + destruct v; simpl;
        (eexists; eexists; split; [reflexivity|];
         split; [reflexivity|]; split; [reflexivity|];
         split; intros; congruence).
    + simpl. exists false. eexists. split; [reflexivity|].
      repeat split; intros; reflexivity.
  - simpl. exists false. eexists. split; [reflexivity|].
    repeat split; intros; reflexivity.
Qed.

(** X7.  The reply to [isTableFound] on a worker that holds a helper is
    always the result [{ success: found }], never an error: when the engine
    raises, and when [exec] returns a number, [found] is false. *)
Theorem isTableFound_reply fuel data this (w : World E) :
  dbInstance w = Some this ->
  Public.action data = "isTableFound" ->
  exists found w1,
    Public.onmessage respond fuel data w = (Done tt, w1)
    /\ outbox w1
       = outbox w ++ [result_envelope (Public.operationId data)
                        (VObj [("success", VBool found)])]
    /\ (forall m e1,
          respond (Api.exec (db this) (table_query (Public.dbName data)))
            (engine w) = (Raises m, e1) -> found = false)
    /\ (forall n e1,
          respond (Api.exec (db this) (table_query (Public.dbName data)))
            (engine w) = (Returns (VNum n), e1) -> found = false).
Proof.
  intros Hinst Htag.
  destruct (isTableFound_result this (Public.dbName data) w)
    as (found & w1 & Hrun & Ho & _ & Hraise & Hnum).
  exists found. eexists.
  unfold Public.onmessage, Public.switch_action. rewrite Htag.
  cbn [String.eqb Ascii.eqb Bool.eqb].
  unfold try_catch. unfold bind at 1. unfold Public.on_dbInstance.
  unfold bind at 1. unfold get_dbInstance. rewrite Hinst, Hrun.
  split; [reflexivity|]. simpl. rewrite Ho. repeat split; assumption.
Qed.

Lemma select_outcome fuel this sql args (w : World E) :
  let r := Public.executeSelectPreparedStatements respond fuel this sql args
             (None : option (Public.Callback unit)) tt w in
  (fst r = OutOfFuel \/ exists m, fst r = Thrown (VError m))
  /\ outbox (snd r) = outbox w /\ dbInstance (snd r) = dbInstance w.
Proof.
  assert (Hkeeps : keeps (Public.executeSelectPreparedStatements respond fuel
                            this sql args (None : option (Public.Callback unit)) tt)).
  { unfold Public.executeSelectPreparedStatements.
    apply keeps_bind; [apply keeps_compileAndBind|]. intros stmt.
    apply keeps_try_finally.
    - apply keeps_try_catch.
      + apply keeps_bind; [apply keeps_get_each | intros; apply keeps_throw].
      + intros; apply keeps_throw.
    - apply keeps_bind; [apply keeps_call | intros; apply keeps_ret]. }
  intros r. split; [|apply Hkeeps].
  subst r.
  unfold Public.executeSelectPreparedStatements, try_finally, try_catch, bind,
    Public.invoke.
  pose proof (errs_compileAndBind this sql args w) as Hc.
  destruct (Public.compileAndBindSQLiteStatement respond this sql args w)
    as [[stmt | e | | ] w1]; simpl in Hc; try contradiction.
  - pose proof (errs_get_each stmt fuel [] w1) as Hg.
    destruct (Public.get_each respond fuel stmt [] w1)
      as [[rows | e | | ] w2]; simpl in Hg; try contradiction.
    + simpl. unfold call.
      destruct (respond (Api.stmt_finalize stmt) (engine w2)) as [[v | m] e3];
        simpl; right; eexists; reflexivity.
    + destruct e; try contradiction. simpl. unfold call.
      destruct (respond (Api.stmt_finalize stmt) (engine w2)) as [[v | m] e3];
        simpl; right; eexists; reflexivity.
    + left. reflexivity.
  - destruct e; try contradiction. right. eexists. reflexivity.
  - left. reflexivity.
Qed.

Lemma onmessage_select fuel data this (w : World E) :
  dbInstance w = Some this ->
  Public.action data = "executeSelectPreparedStatements" ->
  Public.onmessage respond fuel data w
  = match Public.executeSelectPreparedStatements respond fuel this
            (Public.sql data) (Public.selectionArgs data)
            (None : option (Public.Callback unit)) tt w with
    | (Done _, w1) =>
        postMessage (result_envelope (Public.operationId data) VUndefined) w1
    | (Thrown e, w1) =>
        bind (get_message e)
          (fun message =>
             postMessage (VObj [("operationId", Public.operationId data);
                                ("error", message)])) w1
    | (Pending, w1) => (Pending, w1)
    | (OutOfFuel, w1) => (OutOfFuel, w1)
    end.
Proof.
  intros Hinst Htag.
  unfold Public.onmessage, Public.switch_action. rewrite Htag.
  cbn [String.eqb Ascii.eqb Bool.eqb].
  unfold try_catch, Public.on_dbInstance, get_dbInstance, bind.
  rewrite Hinst.
  destruct (Public.executeSelectPreparedStatements respond fuel this
              (Public.sql data) (Public.selectionArgs data) None tt w)
    as [[[] | e | | ] w1]; reflexivity.
Qed.

(** X8.  The command [executeSelectPreparedStatements] never gets rows back:
    the dispatcher calls the method without its callback, so whatever the
    engine does the reply is an error (or the model runs out of fuel). *)
Theorem select_command_always_fails fuel data this (w : World E) :
  dbInstance w = Some this ->
  Public.action data = "executeSelectPreparedStatements" ->
  fst (Public.onmessage respond fuel data w) = OutOfFuel
  \/ (fst (Public.onmessage respond fuel data w) = Done tt
      /\ exists m,
           outbox (snd (Public.onmessage respond fuel data w))
           = outbox w ++ [error_envelope (Public.operationId data) m]).
Proof.
  intros Hinst Htag. rewrite (onmessage_select fuel data this w Hinst Htag).
  destruct (select_outcome fuel this (Public.sql data)
              (Public.selectionArgs data) w) as ([Hfuel | [m Hm]] & Ho & _);
    destruct (Public.executeSelectPreparedStatements respond fuel this
                (Public.sql data) (Public.selectionArgs data) None tt w)
      as [o w1]; simpl in *; subst o.
  - left. reflexivity.
  - right. split; [reflexivity|]. exists m. simpl. now rewrite Ho.
Qed.

(** X9.  A connection: the four bootstrap calls being answered, the worker
    holds a new helper with the handle of [open_v2] and replies success,
    whether or not it already held a helper (whose handle is not closed)
    and whatever becomes of the PRAGMA, which is issued only for a truthy
    handle. *)
Theorem createDBConnection_reply
    fuel data (w : World E) sqliteModule e1 vfs e2 v3 e3 handle e4 :
  Public.action data = "createDBConnection" ->
  respond Api.SQLiteESMFactory (engine w) = (Returns sqliteModule, e1) ->
  respond (Api.VFS_create "my_vfs") e1 = (Returns vfs, e2) ->
  respond (Api.vfs_register vfs) e2 = (Returns v3, e3) ->
  respond (Api.open_v2 (Public.dbName data) "my_vfs") e3 = (Returns handle, e4) ->
  exists w1,
    Public.onmessage respond fuel data w = (Done tt, w1)
    /\ dbInstance w1 = Some {| databaseName := Public.dbName data;
                               db := handle; sqlite3 := true |}
    /\ outbox w1
       = outbox w ++ [result_envelope (Public.operationId data)
                        (VObj [("success", VBool true);
                               ("message",
                                VStr ("Database " +:+ Public.dbName data
                                        +:+ " created"))])]
    /\ trace w1
       = trace w ++ [Api.SQLiteESMFactory; Api.VFS_create "my_vfs";
                     Api.vfs_register vfs;
                     Api.open_v2 (Public.dbName data) "my_vfs"]
           ++ (if truthy handle
               then [Api.exec handle "PRAGMA cache_size = 100;"] else []).
Proof.
  intros Htag H1 H2 H3 H4.
  unfold Public.onmessage, Public.switch_action. rewrite Htag.
  cbn [String.eqb Ascii.eqb Bool.eqb].
  unfold try_catch, Public.createDBConnection, Public.initializeDatabase,
    Public.setMaxSqlCacheSize, Public.new_DbHelper, bind, via_sqlite3, call.
  cbn [sqlite3 databaseName db]. rewrite H1. cbn [engine answered].
  rewrite H2. cbn [engine answered]. rewrite H3. cbn [engine answered].
  rewrite H4. cbn [engine answered ret db sqlite3].
  destruct (truthy handle).
  - unfold not_awaited, call. cbn [engine].
    match goal with
    | |- context [respond ?c (engine ?w0)] =>
        destruct (respond c (engine w0)) as [[v | m] e5]
    end; eexists;
      (split; [reflexivity|]); cbn; repeat split;
      rewrite <- ?app_assoc; reflexivity.
  - eexists. split; [reflexivity|]. cbn. repeat split.
    rewrite <- ?app_assoc. reflexivity.
Qed.

Lemma keeps_createDBConnection name :
  keeps (Public.createDBConnection respond name).
Proof.
  unfold Public.createDBConnection, Public.initializeDatabase,
    Public.setMaxSqlCacheSize.
  apply keeps_bind.
  - apply keeps_bind; [apply keeps_call|]. intros _.
    apply keeps_bind; [apply keeps_call|]. intros vfs.
    apply keeps_bind; [apply keeps_via_sqlite3|]. intros _.
    apply keeps_bind; [apply keeps_via_sqlite3 | intros; apply keeps_ret].
  - intros helper. apply keeps_bind; [|intros; apply keeps_ret].
    destruct (truthy (db helper)); [|apply keeps_ret].
    apply keeps_not_awaited. apply keeps_via_sqlite3.
Qed.

(** X10.  A connection that fails is answered by one error reply and leaves
    the worker with the helper it had. *)
Theorem createDBConnection_failure fuel data (w : World E) m w1 :
  Public.action data = "createDBConnection" ->
  Public.createDBConnection respond (Public.dbName data) w
    = (Thrown (VError m), w1) ->
  Public.onmessage respond fuel data w
    = postMessage (error_envelope (Public.operationId data) m) w1
  /\ dbInstance w1 = dbInstance w /\ outbox w1 = outbox w.
Proof.
  intros Htag Hrun.
  destruct (keeps_createDBConnection (Public.dbName data) w) as [Ho Hd].
  rewrite Hrun in Ho, Hd. simpl in Ho, Hd.
  split; [|split; assumption].
  unfold Public.onmessage, Public.switch_action. rewrite Htag.
  cbn [String.eqb Ascii.eqb Bool.eqb].
  unfold try_catch. unfold bind at 1. unfold bind at 1. rewrite Hrun.
  reflexivity.
Qed.

End DispatcherMore.

(** ** The rest of the worker of src/unnamed/part_000 *)

Section Part000Facts.
Context {E : Type} (SQLite : Constants) (SQLITE_OK : Z)
  (respond : Call -> E -> Reply * E).

Local Abbreviation M := (@M E).

(** X11.  The pipeline of [part_000] asks the iterator for one statement only,
    binds all values in one call, steps once and finalizes; the second slot
    of the pair is what [step] returned, or the first slot its message. *)
Theorem part000_pipeline_reports_step
    this sqlQuery values (w : World E) iterator e1 fields e2 v3 e3 r4 e4 v5 e5 :
  sqlite3 this = true ->
  respond (Api.statements (db this) sqlQuery) (engine w) = (Returns iterator, e1) ->
  respond (Api.next iterator) e1 = (Returns (VObj fields), e2) ->
  respond (Api.bind_collection (get_field fields "value") values) e2
    = (Returns v3, e3) ->
  respond (Api.step (get_field fields "value")) e3 = (r4, e4) ->
  respond (Api.finalize (get_field fields "value")) e4 = (Returns v5, e5) ->
  exists w5,
    Part000.executePreparedStatement respond this sqlQuery values w
    = (Done (step_report r4), w5)
    /\ engine w5 = e5
    /\ trace w5
       = trace w ++ [Api.statements (db this) sqlQuery; Api.next iterator;
                     Api.bind_collection (get_field fields "value") values;
                     Api.step (get_field fields "value");
                     Api.finalize (get_field fields "value")].
Proof.
  intros Hs H1 H2 H3 H4 H5.
  unfold Part000.executePreparedStatement,
    Part000.compileAndBindSQLiteStatement, new_Promise_async,
    try_catch_locals, Part000.get_value, bind, via_sqlite3, call.
  rewrite Hs, H1. cbn [engine answered]. rewrite H2. cbn [engine answered ret].
  rewrite H3. cbn [engine answered ret]. rewrite H4.
  destruct r4 as [code | m]; cbn [engine answered ret get_message];
    rewrite H5; eexists; (split; [reflexivity|]); (split; [reflexivity|]);
    cbn; rewrite <- ?app_assoc; reflexivity.
Qed.

(** X12.  The pipeline of [part_000] has the gap of the one of [src/public]:
    when the iterator raises on [next], and when [bind_collection] raises,
    the promise never settles; in the second case the statement was
    compiled and is not finalized. *)
Theorem part000_pipeline_pending
    this sqlQuery values (w : World E) iterator e1 :
  sqlite3 this = true ->
  respond (Api.statements (db this) sqlQuery) (engine w) = (Returns iterator, e1) ->
  (forall m e2,
     respond (Api.next iterator) e1 = (Raises m, e2) ->
     Part000.executePreparedStatement respond this sqlQuery values w
     = (Pending,
        answered (Api.next iterator) e2
          (answered (Api.statements (db this) sqlQuery) e1 w)))
  /\ (forall fields e2 m e3,
        respond (Api.next iterator) e1 = (Returns (VObj fields), e2) ->
        respond (Api.bind_collection (get_field fields "value") values) e2
          = (Raises m, e3) ->
        Part000.executePreparedStatement respond this sqlQuery values w
        = (Pending,
           answered (Api.bind_collection (get_field fields "value") values) e3
             (answered (Api.next iterator) e2
                (answered (Api.statements (db this) sqlQuery) e1 w)))).
Proof.
  intros Hs H1. split.
  - intros m e2 H2.
    unfold Part000.executePreparedStatement,
      Part000.compileAndBindSQLiteStatement, new_Promise_async,
      bind, via_sqlite3, call.
    rewrite Hs, H1. cbn [engine answered]. rewrite H2. reflexivity.
  - intros fields e2 m e3 H2 H3.
    unfold Part000.executePreparedStatement,
      Part000.compileAndBindSQLiteStatement, new_Promise_async,
      Part000.get_value, bind, via_sqlite3, call.
    rewrite Hs, H1. cbn [engine answered]. rewrite H2. cbn [engine answered ret].
    rewrite H3. reflexivity.
Qed.

Lemma emits_part000_pipeline this statement :
  emits not_exec (part000_pipeline respond this statement).
Proof.
  unfold part000_pipeline, Part000.executePreparedStatement,
    Part000.compileAndBindSQLiteStatement.
  apply emits_new_Promise_async. apply emits_bind.
  - apply emits_bind; [apply emits_via_sqlite3; exact I|]. intros it.
    apply emits_bind; [apply emits_call; exact I|]. intros obj.
    apply emits_bind.
    + destruct obj; simpl; first [apply emits_ret | apply emits_throw].
    + intros stmt. apply emits_bind; [apply emits_via_sqlite3; exact I|].
      intros _. destruct obj; simpl; first [apply emits_ret | apply emits_throw].
  - intros stmt. apply emits_bind.
    + apply emits_try_catch_locals.
      * apply emits_bind; [apply emits_via_sqlite3; exact I|].
        intros; apply emits_ret.
      * intros e. apply emits_bind; [apply emits_get_message|].
        intros; apply emits_ret.
    + intros [[runError lastID] pending].
      apply emits_bind; [apply emits_via_sqlite3; exact I|].
      intros; apply emits_ret.
Qed.

Lemma issued_not_exec sql cs : Forall not_exec cs -> issued sql cs = O.
Proof.
  induction 1 as [|c cs Hc _ IH]; [reflexivity|].
  unfold issued in *. simpl. destruct c; simpl in *; try contradiction; exact IH.
Qed.

Lemma all_reported_trace this statements w ids w' :
  all_reported (part000_pipeline respond this) statements w ids w' ->
  length ids = length statements /\
  exists cs, trace w' = trace w ++ cs /\ Forall not_exec cs.
Proof.
  induction 1 as [w | statement rest w error lastID w1 ids w2 Hrun Hok _ [IHlen IH]].
  - split; [reflexivity|]. exists []. now rewrite app_nil_r.
  - split; [simpl; now rewrite IHlen|].
    destruct (emits_part000_pipeline this statement w) as (cs & Ht & Hcs).
    rewrite Hrun in Ht. simpl in Ht.
    destruct IH as (cs' & Ht' & Hcs').
    exists (cs ++ cs'). rewrite Ht', Ht, app_assoc. split; auto.
    apply Forall_app; auto.
Qed.

Lemma part000_run_each_reported this statements w ids w' :
  all_reported (part000_pipeline respond this) statements w ids w' ->
  forall rest transactionIDs,
    Part000.run_each respond this (statements ++ rest) transactionIDs w
    = Part000.run_each respond this rest (transactionIDs ++ ids) w'.
Proof.
  induction 1 as [w | statement more w error lastID w1 ids w2 Hrun Hok _ IH];
    intros rest transactionIDs.
  - now rewrite app_nil_r.
  - simpl. unfold bind at 1. unfold part000_pipeline in Hrun. rewrite Hrun.
    simpl. rewrite Hok. rewrite IH. now rewrite <- app_assoc.
Qed.

(** X13.  The batch of [part_000] on the path without failure: as in
    [src/public], [[null, ids]] with the reports of the pipeline in input
    order, COMMIT issued once and ROLLBACK never. *)
Theorem part000_batch_commits
    this statements rollbackOnError w v0 w1 ids w2 v3 w3 :
  via_sqlite3 respond this "exec" (Api.exec (db this) "BEGIN TRANSACTION;") w
    = (Done v0, w1) ->
  all_reported (part000_pipeline respond this) statements w1 ids w2 ->
  via_sqlite3 respond this "exec" (Api.exec (db this) "COMMIT;") w2
    = (Done v3, w3) ->
  Part000.executePreparedStatements respond this statements rollbackOnError w
    = (Done (VArr [VNull; VArr ids]), w3)
  /\ length ids = length statements
  /\ exists cs, trace w3 = trace w ++ cs
                /\ issued "COMMIT;" cs = 1%nat /\ issued "ROLLBACK;" cs = 0%nat.
Proof.
  intros Hbegin Hall Hcommit.
  destruct (all_reported_trace _ _ _ _ _ Hall) as (Hlen & cs & Ht & Hcs).
  split; [|split; [exact Hlen|]].
  - unfold Part000.executePreparedStatements, try_catch.
    unfold bind at 1. rewrite Hbegin.
    unfold bind at 1.
    pose proof (part000_run_each_reported _ _ _ _ _ Hall [] []) as Hrun.
    rewrite app_nil_r in Hrun. rewrite Hrun. simpl.
    unfold bind at 1. rewrite Hcommit. reflexivity.
  - apply via_sqlite3_Done in Hbegin as (_ & e1 & _ & ->).
    apply via_sqlite3_Done in Hcommit as (_ & e3 & _ & ->).
    exists ([Api.exec (db this) "BEGIN TRANSACTION;"] ++ cs
              ++ [Api.exec (db this) "COMMIT;"]).
    rewrite trace_answered, Ht, trace_answered.
    split; [now rewrite <- !app_assoc|].
    rewrite !issued_app, !(issued_not_exec _ cs Hcs). split; reflexivity.
Qed.

(** The batch of [part_000] when every statement succeeds, whatever the
    engine answers to COMMIT. *)
Lemma part000_commit_outcome
    this statements rollbackOnError w v0 w1 ids w2 r e3 r' e4 :
  via_sqlite3 respond this "exec" (Api.exec (db this) "BEGIN TRANSACTION;") w
    = (Done v0, w1) ->
  all_reported (part000_pipeline respond this) statements w1 ids w2 ->
  respond (Api.exec (db this) "COMMIT;") (engine w2) = (r, e3) ->
  respond (Api.exec (db this) "ROLLBACK;") e3 = (r', e4) ->
  Part000.executePreparedStatements respond this statements rollbackOnError w
    = match r with
      | Returns _ =>
          (Done (VArr [VNull; VArr ids]),
           answered (Api.exec (db this) "COMMIT;") e3 w2)
      | Raises m =>
          caught this rollbackOnError r' e4 (VError m)
            (answered (Api.exec (db this) "COMMIT;") e3 w2)
      end
  /\ length ids = length statements
  /\ exists cs, trace (answered (Api.exec (db this) "COMMIT;") e3 w2)
                = trace w ++ cs
                /\ issued "COMMIT;" cs = 1%nat /\ issued "ROLLBACK;" cs = 0%nat.
Proof.
  intros Hbegin Hall Hcommit Hrollback.
  destruct (all_reported_trace _ _ _ _ _ Hall) as (Hlen & cs & Ht & Hcs).
  pose proof (proj1 (via_sqlite3_Done _ _ _ _ _ _ _ Hbegin)) as Hs.
  split; [|split; [exact Hlen|]].
  - unfold Part000.executePreparedStatements, try_catch.
    unfold bind at 1. rewrite Hbegin.
    unfold bind at 1.
    pose proof (part000_run_each_reported _ _ _ _ _ Hall [] []) as Hrun.
    rewrite app_nil_r in Hrun. rewrite Hrun. simpl Part000.run_each.
    unfold ret at 1. unfold bind at 1.
    destruct r as [v | m].
    + now rewrite (via_sqlite3_Returns respond this "exec" _ w2 _ _ Hs Hcommit).
    + rewrite (via_sqlite3_Raises respond this "exec" _ w2 _ _ Hs Hcommit).
      exact (catch_block respond this rollbackOnError (VError m)
               (answered (Api.exec (db this) "COMMIT;") e3 w2) r' e4 Hs Hrollback).
  - apply via_sqlite3_Done in Hbegin as (_ & e1 & _ & ->).
    exists ([Api.exec (db this) "BEGIN TRANSACTION;"] ++ cs
              ++ [Api.exec (db this) "COMMIT;"]).
    rewrite trace_answered, Ht, trace_answered.
    split; [now rewrite <- !app_assoc|].
    rewrite !issued_app, !(issued_not_exec _ cs Hcs). split; reflexivity.
Qed.

(** The batch of [part_000] when the pipeline reports an error. *)
Lemma part000_failure_outcome
    this before statement after rollbackOnError w v0 w1 ids w2 error lastID w3
    r e4 :
  via_sqlite3 respond this "exec" (Api.exec (db this) "BEGIN TRANSACTION;") w
    = (Done v0, w1) ->
  all_reported (part000_pipeline respond this) before w1 ids w2 ->
  part000_pipeline respond this statement w2
    = (Done (VArr [error; lastID]), w3) ->
  truthy error = true ->
  respond (Api.exec (db this) "ROLLBACK;") (engine w3) = (r, e4) ->
  Part000.executePreparedStatements respond this
    (before ++ statement :: after) rollbackOnError w
  = caught this rollbackOnError r e4 error w3
  /\ exists cs, trace w3 = trace w ++ cs /\ issued "ROLLBACK;" cs = 0%nat
                /\ issued "COMMIT;" cs = 0%nat.
Proof.
  intros Hbegin Hall Hrun Herr Hrollback.
  pose proof (proj1 (via_sqlite3_Done _ _ _ _ _ _ _ Hbegin)) as Hs.
  split.
  - unfold Part000.executePreparedStatements, try_catch.
    unfold bind at 1. rewrite Hbegin. unfold bind at 1.
    rewrite (part000_run_each_reported _ _ _ _ _ Hall).
    simpl Part000.run_each. unfold bind at 1.
    unfold part000_pipeline in Hrun. rewrite Hrun. simpl. rewrite Herr.
    unfold throw at 1.
    exact (catch_block respond this rollbackOnError error w3 r e4 Hs Hrollback).
  - destruct (all_reported_trace _ _ _ _ _ Hall) as (_ & cs & Ht & Hcs).
    destruct (emits_part000_pipeline this statement w2) as (cs' & Ht' & Hcs').
    rewrite Hrun in Ht'. simpl in Ht'.
    apply via_sqlite3_Done in Hbegin as (_ & e1 & _ & ->).
    exists ([Api.exec (db this) "BEGIN TRANSACTION;"] ++ cs ++ cs').
    rewrite Ht', Ht, trace_answered.
    split; [now rewrite <- !app_assoc|].
    rewrite !issued_app, !(issued_not_exec _ cs Hcs), !(issued_not_exec _ cs' Hcs').
    split; reflexivity.
Qed.

(** X14.  The batch of [part_000] fails fast: after the first statement
    whose report has a truthy error slot nothing is compiled any more.
    Asked to roll back, the call issues ROLLBACK and returns
    [[error, null]] when the engine accepts it; when the engine refuses
    it, the call throws the Error of ROLLBACK.  Not asked, it returns the
    pair and issues nothing more. *)
Theorem part000_batch_fails_fast
    this before statement after rollbackOnError w v0 w1 ids w2 error lastID w3
    r e4 :
  via_sqlite3 respond this "exec" (Api.exec (db this) "BEGIN TRANSACTION;") w
    = (Done v0, w1) ->
  all_reported (part000_pipeline respond this) before w1 ids w2 ->
  part000_pipeline respond this statement w2
    = (Done (VArr [error; lastID]), w3) ->
  truthy error = true ->
  respond (Api.exec (db this) "ROLLBACK;") (engine w3) = (r, e4) ->
  Part000.executePreparedStatements respond this
    (before ++ statement :: after) rollbackOnError w
  = (if truthy (default_param rollbackOnError (VBool true))
     then match r with
          | Returns _ => Done (VArr [error; VNull])
          | Raises m' => Thrown (VError m')
          end
     else Done (VArr [error; VNull]),
     if truthy (default_param rollbackOnError (VBool true))
     then answered (Api.exec (db this) "ROLLBACK;") e4 w3
     else w3).
Proof.
  intros Hbegin Hall Hrun Herr Hrollback.
  destruct (part000_failure_outcome this before statement after rollbackOnError
              w v0 w1 ids w2 error lastID w3 r e4 Hbegin Hall Hrun Herr Hrollback)
    as (Hbatch & _).
  rewrite Hbatch. unfold caught.
  destruct (truthy (default_param rollbackOnError (VBool true))); reflexivity.
Qed.

(** X15.  In [part_000] a table is found when [exec] returned [SQLITE_OK],
    whatever the query selected; an engine failure is reported as not
    found.  The reply is always a result. *)
Theorem part000_isTableFound_reply fuel data this (w : World E) r e1 :
  dbInstance w = Some this ->
  sqlite3 this = true ->
  Public.action data = "isTableFound" ->
  respond (Api.exec (db this) (table_query (Public.dbName data))) (engine w)
    = (r, e1) ->
  Part000.onmessage SQLite SQLITE_OK respond fuel data w
  = postMessage
      (result_envelope (Public.operationId data)
         (VObj [("success",
                 VBool match r with
                       | Returns result => Draft.strict_equal result SQLITE_OK
                       | Raises _ => false
                       end)]))
      (answered (Api.exec (db this) (table_query (Public.dbName data))) e1 w).
Proof.
  intros Hinst Hs Htag Hr.
  unfold Part000.onmessage, Part000.switch_action. rewrite Htag.
  cbn [String.eqb Ascii.eqb Bool.eqb].
  unfold try_catch, Public.on_dbInstance, get_dbInstance, bind,
    Part000.isTableFound, try_catch, bind, via_sqlite3, call, Public.invoke.
  rewrite Hinst, Hs. unfold table_query in Hr. rewrite Hr.
  destruct r; reflexivity.
Qed.

(** X16.  In [part_000] the PRAGMA of a connection is awaited: when the engine
    refuses it the connection fails with that Error, although the database
    was opened; it is not closed, and the worker keeps the helper it
    had. *)
Theorem part000_connect_pragma_failure
    fuel data (w : World E) sqliteModule e1 vfs e2 v3 e3 handle e4 m e5 :
  Public.action data = "createDBConnection" ->
  respond Api.SQLiteESMFactory (engine w) = (Returns sqliteModule, e1) ->
  respond (Api.VFS_create "my_vfs") e1 = (Returns vfs, e2) ->
  respond (Api.vfs_register vfs) e2 = (Returns v3, e3) ->
  respond (Api.open_v2 (Public.dbName data) "my_vfs") e3 = (Returns handle, e4) ->
  truthy handle = true ->
  respond (Api.exec handle "PRAGMA cache_size = 100;") e4 = (Raises m, e5) ->
  exists w1,
    Part000.onmessage SQLite SQLITE_OK respond fuel data w = (Done tt, w1)
    /\ dbInstance w1 = dbInstance w
    /\ outbox w1 = outbox w ++ [error_envelope (Public.operationId data) m]
    /\ trace w1
       = trace w ++ [Api.SQLiteESMFactory; Api.VFS_create "my_vfs";
                     Api.vfs_register vfs;
                     Api.open_v2 (Public.dbName data) "my_vfs";
                     Api.exec handle "PRAGMA cache_size = 100;"].
Proof.
  intros Htag H1 H2 H3 H4 Hh H5.
  unfold Part000.onmessage, Part000.switch_action. rewrite Htag.
  cbn [String.eqb Ascii.eqb Bool.eqb].
  unfold try_catch, Part000.createDBConnection, Part000.initializeDatabase,
    Part000.setMaxSqlCacheSize, Public.new_DbHelper, bind, via_sqlite3, call.
  cbn [sqlite3 databaseName db]. rewrite H1. cbn [engine answered].
  rewrite H2. cbn [engine answered]. rewrite H3. cbn [engine answered].
  rewrite H4. cbn [engine answered ret db sqlite3]. rewrite Hh.
  match goal with
  | |- context [respond ?c (engine ?w0)] =>
      replace (respond c (engine w0)) with (Raises m, e5)
        by (symmetry; exact H5)
  end.
  eexists. split; [reflexivity|]. cbn.
  repeat split. rewrite <- ?app_assoc. reflexivity.
Qed.

End Part000Facts.

Section Part000Select.
Variable SQLite : Constants.
Variable SQLITE_OK : Z.
Variable this : DbHelper.
Variable handle : Z.
Hypothesis attached : sqlite3 this = true.
Hypothesis opened : db this = VNum handle.

Local Abbreviation respond := (Script.respond SQLite).

Lemma keeps_read_column stmt i :
  keeps (Draft.read_column SQLite respond this stmt i).
Proof.
  unfold Draft.read_column. apply keeps_bind; [apply keeps_via_sqlite3|].
  intros t. repeat (destruct (Draft.strict_equal _ _));
    apply keeps_via_sqlite3.
Qed.

Lemma keeps_fill_row stmt names :
  forall todo i row, keeps (Draft.fill_row SQLite respond this stmt names todo i row).
Proof.
  induction todo as [|todo IH]; intros i row; simpl; [apply keeps_ret|].
  apply keeps_bind; [apply keeps_read_column | intros; apply IH].
Qed.

Lemma keeps_push_names stmt :
  forall todo i names, keeps (Draft.push_names respond this stmt todo i names).
Proof.
  induction todo as [|todo IH]; intros i names; simpl; [apply keeps_ret|].
  apply keeps_bind; [apply keeps_via_sqlite3 | intros; apply IH].
Qed.

Lemma keeps_step_rows stmt count names :
  forall fuel records,
    keeps (Draft.step_rows SQLite respond fuel this stmt count names records).
Proof.
  induction fuel as [|fuel IH]; intros records; simpl;
    [apply keeps_out_of_fuel|].
  apply keeps_bind; [apply keeps_via_sqlite3|]. intros code.
  destruct (Draft.strict_equal _ _); [|apply keeps_ret].
  apply keeps_bind; [apply keeps_fill_row | intros; apply IH].
Qed.

Lemma keeps_read_statement fuel stmt args records :
  keeps (Draft.read_statement SQLite respond fuel this stmt args records).
Proof.
  unfold Draft.read_statement.
  apply keeps_bind; [apply keeps_via_sqlite3|]. intros count.
  apply keeps_bind.
  - destruct args as [[|arg args]|];
      first [apply keeps_ret | apply keeps_via_sqlite3].
  - intros _. apply keeps_bind; [apply keeps_push_names|].
    intros names. apply keeps_step_rows.
Qed.

Lemma keeps_for_await steps iterator args :
  forall fuel records,
    keeps (Draft.for_await SQLite respond fuel steps this iterator args records).
Proof.
  induction fuel as [|fuel IH]; intros records; simpl;
    [apply keeps_out_of_fuel|].
  apply keeps_bind; [apply keeps_call|]. intros result.
  destruct result; try apply keeps_throw.
  destruct (truthy _); [apply keeps_ret|].
  apply keeps_bind; [|intros; apply IH].
  apply keeps_try_catch; [apply keeps_read_statement|].
  intros e. apply keeps_bind; [|intros; apply keeps_throw].
  apply keeps_not_awaited. apply keeps_call.
Qed.

Lemma keeps_executeRawQuery fuel sql args :
  keeps (Draft.executeRawQuery SQLite respond fuel this sql args).
Proof.
  unfold Draft.executeRawQuery. apply keeps_try_catch; [|intros; apply keeps_throw].
  apply keeps_bind; [apply keeps_via_sqlite3|]. intros it.
  apply keeps_bind; [apply keeps_for_await | intros; apply keeps_ret].
Qed.

Lemma executeRawQuery_rows fuel sql args script (w : World Script.State) :
  engine w = Script.start handle script ->
  Script.well_formed script ->
  (length script < fuel)%nat ->
  (Script.steps_needed script <= fuel)%nat ->
  exists w',
    Draft.executeRawQuery SQLite respond fuel this sql args w
    = (Done (VArr (Script.rows_of SQLite script)), w')
    /\ outbox w' = outbox w.
Proof.
  intros He Hwf Hfuel Hsteps.
  destruct (for_await_runs SQLite this attached args fuel
              script fuel (Script.start handle script) eq_refl Hwf Hfuel Hsteps)
    as (st' & Hp' & Hloop).
  assert (Hruns :
    runs (Draft.executeRawQuery SQLite respond fuel this sql args) w
      (VArr (Script.rows_of SQLite script)) st'
      (bindings args (length script))).
  { unfold Draft.executeRawQuery. apply runs_try_catch.
    eapply runs_eq.
    - eapply runs_bind.
      + apply runs_via_sqlite3; [exact attached|]. rewrite He, opened. simpl.
        rewrite Z.eqb_refl. reflexivity.
      + intros w1 He1. eapply runs_bind.
        * apply Hloop. exact He1.
        * intros w2 He2. apply runs_ret_at. exact He2.
    - reflexivity.
    - reflexivity.
    - simpl. now rewrite app_nil_r. }
  destruct Hruns as (w' & Hrun & _ & _).
  exists w'. split; [exact Hrun|].
  pose proof (proj1 (keeps_executeRawQuery fuel sql args w)) as Ho.
  now rewrite Hrun in Ho.
Qed.


End Part000Select.

(** ** The prepared batch in both texts of the worker *)

Section BothWorkers.
Context {E : Type} (respond : Call -> E -> Reply * E).

Lemma reported_succeed this statements (w : World E) ids w' :
  all_reported (pipeline public_worker respond this) statements w ids w' ->
  all_succeed respond this statements w ids w'.
Proof.
  induction 1 as [w | statement rest w error lastID w1 ids w2 Hrun Hok _ IH].
  - apply all_succeed_nil.
  - eapply all_succeed_cons; [exact Hrun | exact Hok | exact IH].
Qed.

Lemma commit_outcome
    which this statements rollbackOnError (w : World E) v0 w1 ids w2 r e3 r' e4 :
  via_sqlite3 respond this "exec" (Api.exec (db this) "BEGIN TRANSACTION;") w
    = (Done v0, w1) ->
  all_reported (pipeline which respond this) statements w1 ids w2 ->
  respond (Api.exec (db this) "COMMIT;") (engine w2) = (r, e3) ->
  respond (Api.exec (db this) "ROLLBACK;") e3 = (r', e4) ->
  executePreparedStatements_of which respond this statements rollbackOnError w
    = match r with
      | Returns _ =>
          (Done (VArr [VNull; VArr ids]),
           answered (Api.exec (db this) "COMMIT;") e3 w2)
      | Raises m =>
          caught this rollbackOnError r' e4 (VError m)
            (answered (Api.exec (db this) "COMMIT;") e3 w2)
      end
  /\ length ids = length statements
  /\ exists cs, trace (answered (Api.exec (db this) "COMMIT;") e3 w2)
                = trace w ++ cs
                /\ issued "COMMIT;" cs = 1%nat /\ issued "ROLLBACK;" cs = 0%nat.
Proof.
  intros Hbegin Hall Hcommit Hrollback. destruct which.
  - apply (public_commit_outcome respond this statements rollbackOnError
             w v0 w1 ids w2 r e3 r' e4 Hbegin); try assumption.
    now apply reported_succeed.
  - exact (part000_commit_outcome respond this statements rollbackOnError
             w v0 w1 ids w2 r e3 r' e4 Hbegin Hall Hcommit Hrollback).
Qed.


(** C2.  In both texts of the worker: when the pipeline reports for a
    statement of the batch a pair whose error slot is truthy (BEGIN was
    accepted and the statements before it succeeded), no call is made for
    a later statement, and neither COMMIT nor ROLLBACK was issued so far.
    The call goes on with ROLLBACK when [rollbackOnError] asks for it and
    with nothing otherwise.  It returns [[error, null]], with [error] not
    null, when it issued no ROLLBACK and when the engine accepted the
    ROLLBACK; when the engine refused the ROLLBACK it throws the Error of
    ROLLBACK. *)
Theorem executePreparedStatements_fails_fast
    which this before statement after rollbackOnError (w : World E)
    v0 w1 ids w2 error lastID w3 r e4 :
  via_sqlite3 respond this "exec" (Api.exec (db this) "BEGIN TRANSACTION;") w
    = (Done v0, w1) ->
  all_reported (pipeline which respond this) before w1 ids w2 ->
  pipeline which respond this statement w2 = (Done (VArr [error; lastID]), w3) ->
  truthy error = true ->
  respond (Api.exec (db this) "ROLLBACK;") (engine w3) = (r, e4) ->
  executePreparedStatements_of which respond this
    (before ++ statement :: after) rollbackOnError w
  = (if truthy (default_param rollbackOnError (VBool true))
     then match r with
          | Returns _ => Done (VArr [error; VNull])
          | Raises m => Thrown (VError m)
          end
     else Done (VArr [error; VNull]),
     if truthy (default_param rollbackOnError (VBool true))
     then answered (Api.exec (db this) "ROLLBACK;") e4 w3
     else w3)
  /\ error <> VNull
  /\ (exists cs, trace w3 = trace w ++ cs /\ issued "ROLLBACK;" cs = 0%nat
                 /\ issued "COMMIT;" cs = 0%nat).
Proof.
  intros Hbegin Hall Hrun Herr Hrollback.
  assert (Hbatch :
    executePreparedStatements_of which respond this
      (before ++ statement :: after) rollbackOnError w
    = caught this rollbackOnError r e4 error w3
    /\ exists cs, trace w3 = trace w ++ cs /\ issued "ROLLBACK;" cs = 0%nat
                  /\ issued "COMMIT;" cs = 0%nat).
  { destruct which.
    - apply (public_failure_outcome respond this before statement after
               rollbackOnError w v0 w1 ids w2 error lastID w3 r e4 Hbegin);
        try assumption.
      now apply reported_succeed.
    - exact (part000_failure_outcome respond this before statement after
               rollbackOnError w v0 w1 ids w2 error lastID w3 r e4
               Hbegin Hall Hrun Herr Hrollback). }
  destruct Hbatch as (Hbatch & Htrace).
  split; [|split; [intros ->; discriminate | exact Htrace]].
  rewrite Hbatch. unfold caught.
  destruct (truthy (default_param rollbackOnError (VBool true))); reflexivity.
Qed.


End BothWorkers.

(** ** More on the router of src/wasm-sql/DatabaseManager.js *)

Section RouterMore.

Lemma get_set_field fields k v k' :
  get_field (set_field fields k v) k'
  = if String.eqb k k' then v else get_field fields k'.
Proof.
  induction fields as [|[k0 v0] rest IH]; simpl.
  - reflexivity.
  - destruct (String.eqb_spec k0 k) as [->|Hne]; simpl.
    + destruct (String.eqb_spec k k'); reflexivity.
    + rewrite IH. destruct (String.eqb_spec k0 k') as [->|]; [|reflexivity].
      destruct (String.eqb_spec k k'); [congruence | reflexivity].
Qed.

Lemma get_field_spread data k :
  forall fields,
    Forall (fun kv => fst kv <> k) data ->
    get_field (fold_left (fun fields kv => set_field fields (fst kv) (snd kv))
                 data fields) k
    = get_field fields k.
Proof.
  induction data as [|[k0 v0] rest IH]; intros fields Hall; [reflexivity|].
  inversion Hall as [|kv l Hk Hrest]; subst. simpl in *.
  rewrite IH by assumption. rewrite get_set_field.
  destruct (String.eqb_spec k0 k); [contradiction | reflexivity].
Qed.

(** X18.  A second delivery of the same message changes nothing: the first
    one removed the entry. *)
Theorem onmessage_twice data this :
  Router.onmessage data (Router.onmessage data this) = Router.onmessage data this.
Proof.
  unfold Router.onmessage.
  destruct (get_field data "operationId") as [| | | | |id| | | |]; try reflexivity.
  destruct (Router.pendingOperations this !! id) as [p|] eqn:Hp; simpl.
  - now rewrite lookup_delete_eq.
  - now rewrite Hp.
Qed.

Lemma sound_in_range this id p :
  sound this -> Router.pendingOperations this !! id = Some p ->
  (p < length (Router.promises this))%nat.
Proof.
  intros Hsound Hp. destruct (Hsound id p Hp) as [Hu _].
  now apply lookup_lt_Some in Hu.
Qed.

Lemma sound_postToWorker random36 action data this inbox :
  Router.worker this = Some inbox ->
  sound this ->
  sound (fst (Router.postToWorker random36 action data this))
  /\ exists inbox', Router.worker (fst (Router.postToWorker random36 action data this))
                    = Some inbox'.
Proof.
  intros Hw Hsound. unfold Router.postToWorker, Router.transmit, Router.register.
  simpl. rewrite Hw. simpl. split; [|eauto].
  intros id p. simpl. intros Hp.
  destruct (decide (Router.generateOperationId random36 = id)) as [<-|Hne].
  - rewrite lookup_insert_eq in Hp. inversion Hp; subst p.
    split; [now apply list_lookup_middle|].
    intros id' Hp'.
    destruct (decide (Router.generateOperationId random36 = id')) as [|Hne'];
      [congruence|].
    rewrite lookup_insert_ne in Hp' by assumption.
    apply (sound_in_range _ _ _ Hsound) in Hp'. lia.
  - rewrite lookup_insert_ne in Hp by assumption.
    destruct (Hsound id p Hp) as [Hu Hinj]. split.
    + rewrite lookup_app_l; [exact Hu | now apply lookup_lt_Some in Hu].
    + intros id' Hp'.
      destruct (decide (Router.generateOperationId random36 = id')) as [<-|Hne'].
      * rewrite lookup_insert_eq in Hp'. inversion Hp'; subst p.
        apply lookup_lt_Some in Hu. lia.
      * rewrite lookup_insert_ne in Hp' by assumption. now apply Hinj.
Qed.

Lemma sound_onmessage data this :
  sound this -> sound (Router.onmessage data this).
Proof.
  intros Hsound. unfold Router.onmessage.
  destruct (get_field data "operationId") as [| | | | |id| | | |]; try exact Hsound.
  destruct (Router.pendingOperations this !! id) as [p|] eqn:Hp; [|exact Hsound].
  intros id0 p0. simpl. intros Hp0.
  destruct (decide (id = id0)) as [<-|Hne];
    [now rewrite lookup_delete_eq in Hp0|].
  rewrite lookup_delete_ne in Hp0 by assumption.
  destruct (Hsound id0 p0 Hp0) as [Hu Hinj].
  assert (Hpp : p0 <> p).
  { intros ->. apply Hne. now apply Hinj. }
  split.
  - rewrite settle_other by assumption. exact Hu.
  - intros id' Hp'.
    destruct (decide (id = id')) as [<-|Hne'];
      [now rewrite lookup_delete_eq in Hp'|].
    rewrite lookup_delete_ne in Hp' by assumption. now apply Hinj.
Qed.

Lemma sound_new : sound Router.new_DatabaseManager.
Proof.
  intros id p Hp. unfold Router.new_DatabaseManager in Hp. simpl in Hp.
  now rewrite lookup_empty in Hp.
Qed.

(** X19.  Whatever requests are sent and whatever messages arrive, in any
    order, starting from a new manager: every waiter in the table names a
    promise that is not settled yet, and no two ids share a waiter. *)
Theorem sound_always (steps : list Step) :
  sound (fold_left step steps Router.new_DatabaseManager).
Proof.
  assert (Hgen : forall this,
            sound this -> (exists inbox, Router.worker this = Some inbox) ->
            sound (fold_left step steps this)).
  { induction steps as [|s rest IH]; intros this Hsound [inbox Hw]; [exact Hsound|].
    simpl. destruct s as [random36 action data | data]; simpl.
    - destruct (sound_postToWorker random36 action data this inbox Hw Hsound)
        as [Hs' Hw']. apply IH; assumption.
    - apply IH; [now apply sound_onmessage|].
      exists inbox. unfold Router.onmessage.
      destruct (get_field data "operationId"); try exact Hw.
      destruct (Router.pendingOperations this !! s); exact Hw. }
  apply Hgen; [apply sound_new | now exists []].
Qed.

(** X20.  In a sound manager a message for a pending id settles the promise
    of that id, rejecting it when the message has a truthy [error] and
    resolving it with [result] otherwise; it removes the entry and touches
    no other promise and no other entry. *)
Theorem reply_settles data this id p :
  sound this ->
  get_field data "operationId" = VStr id ->
  Router.pendingOperations this !! id = Some p ->
  Router.promises (Router.onmessage data this) !! p
    = Some (if truthy (get_field data "error")
            then Router.Rejected (get_field data "error")
            else Router.Resolved (get_field data "result"))
  /\ Router.pendingOperations (Router.onmessage data this) !! id = None
  /\ (forall q, q <> p ->
        Router.promises (Router.onmessage data this) !! q
        = Router.promises this !! q)
  /\ (forall id', id' <> id ->
        Router.pendingOperations (Router.onmessage data this) !! id'
        = Router.pendingOperations this !! id').
Proof.
  intros Hsound Hid Hp. destruct (Hsound id p Hp) as [Hu _].
  unfold Router.onmessage. rewrite Hid, Hp. simpl.
  split; [|split; [|split]].
  - unfold Router.settle. rewrite Hu.
    apply list_lookup_insert_eq. now apply lookup_lt_Some in Hu.
  - apply lookup_delete_eq.
  - intros q Hq. now apply settle_other.
  - intros id' Hne. now apply lookup_delete_ne.
Qed.

(** X21.  A promise that is settled stays as it is, whatever is sent or
    received afterwards. *)
Theorem settled_for_good this q s (st : Step) :
  Router.promises this !! q = Some s ->
  s <> Router.Unsettled ->
  Router.promises (step this st) !! q = Some s.
Proof.
  intros Hq Hs. pose proof (lookup_lt_Some _ _ _ Hq) as Hlt.
  destruct st as [random36 action data | data]; simpl.
  - unfold Router.postToWorker, Router.transmit, Router.register. simpl.
    destruct (Router.worker this); simpl.
    + now rewrite lookup_app_l.
    + rewrite settle_other by lia. now rewrite lookup_app_l.
  - unfold Router.onmessage.
    destruct (get_field data "operationId"); try exact Hq.
    destruct (Router.pendingOperations this !! s0) as [p|]; [|exact Hq].
    simpl. unfold Router.settle.
    destruct (Router.promises this !! p) as [[| |]|] eqn:Hp; try exact Hq.
    rewrite list_lookup_insert_ne; [exact Hq|].
    intros ->. rewrite Hp in Hq. congruence.
Qed.

(** X22.  In a sound manager two messages with different ids can be
    delivered in either order. *)
Theorem replies_commute d1 d2 this :
  sound this ->
  get_field d1 "operationId" <> get_field d2 "operationId" ->
  Router.onmessage d1 (Router.onmessage d2 this)
  = Router.onmessage d2 (Router.onmessage d1 this).
Proof.
  intros Hsound Hne. unfold Router.onmessage.
  destruct (get_field d1 "operationId") as [| | | | |id1| | | |] eqn:H1;
    destruct (get_field d2 "operationId") as [| | | | |id2| | | |] eqn:H2;
    try reflexivity;
    try (destruct (Router.pendingOperations this !! _); reflexivity).
  assert (Hid : id1 <> id2) by congruence.
  destruct (Router.pendingOperations this !! id1) as [p1|] eqn:Hp1;
    destruct (Router.pendingOperations this !! id2) as [p2|] eqn:Hp2; simpl;
    rewrite ?lookup_delete_ne by congruence; rewrite ?Hp1, ?Hp2; simpl;
    try reflexivity.
  destruct (Hsound id1 p1 Hp1) as [Hu1 Hinj1].
  destruct (Hsound id2 p2 Hp2) as [Hu2 _].
  assert (Hpp : p1 <> p2).
  { intros ->. apply Hid. symmetry. now apply Hinj1. }
  f_equal.
  - apply delete_delete.
  - unfold Router.settle.
    rewrite Hu1, Hu2. rewrite !list_lookup_insert_ne by congruence.
    rewrite Hu1, Hu2. now apply list_insert_insert_ne.
Qed.

(** X23.  After [terminateWorker], [postToWorker] still registers a waiter,
    posts nothing, and its promise is rejected at once with the TypeError
    of the call on [null]; the waiter stays in the table. *)
Theorem postToWorker_without_worker random36 action data this :
  Router.worker this = None ->
  let id := Router.generateOperationId random36 in
  let p := length (Router.promises this) in
  let after := fst (Router.postToWorker random36 action data this) in
  Router.promises after !! p
    = Some (Router.Rejected
              (VError "Cannot read properties of null (reading 'postMessage')"))
  /\ Router.pendingOperations after !! id = Some p
  /\ Router.worker after = None
  /\ Router.events after = Router.events this ++ [Router.Registered id p].
Proof.
  intros Hw id p after. subst after.
  unfold Router.postToWorker, Router.transmit, Router.register. simpl.
  rewrite Hw. simpl. split; [apply settle_fresh|].
  split; [apply lookup_insert_eq|]. split; reflexivity.
Qed.

(** X24.  The request of a payload that has no [operationId] key carries the
    id that was registered, so a reply that echoes the request's
    [operationId] resolves the promise that [postToWorker] returned. *)
Theorem request_round_trip random36 action data this inbox result :
  Router.worker this = Some inbox ->
  Forall (fun kv => fst kv <> "operationId") data ->
  exists fields,
    Router.request (Router.generateOperationId random36) action data = VObj fields
    /\ Router.worker (fst (Router.postToWorker random36 action data this))
       = Some (inbox ++ [VObj fields])
    /\ get_field fields "operationId" = VStr (Router.generateOperationId random36)
    /\ Router.promises
         (Router.onmessage
            [("operationId", get_field fields "operationId"); ("result", result)]
            (fst (Router.postToWorker random36 action data this)))
         !! snd (Router.postToWorker random36 action data this)
       = Some (Router.Resolved result).
Proof.
  intros Hw Hdata. eexists. split; [reflexivity|].
  assert (Hid : get_field
                  (fold_left (fun fields kv => set_field fields (fst kv) (snd kv))
                     data [("operationId", VStr (Router.generateOperationId random36));
                           ("action", VStr action)]) "operationId"
                = VStr (Router.generateOperationId random36)).
  { rewrite get_field_spread by assumption. reflexivity. }
  split; [|split; [exact Hid|]].
  - unfold Router.postToWorker, Router.transmit, Router.register. simpl.
    now rewrite Hw.
  - rewrite Hid.
    unfold Router.postToWorker, Router.transmit, Router.register,
      Router.onmessage. simpl. rewrite Hw. simpl.
    rewrite lookup_insert_eq. simpl. apply settle_fresh.
Qed.

(** X25.  Each wrapper registers one waiter and, while the worker lives,
    posts one message: its own tag under the id it registered. *)
Theorem wrappers_post_their_tag random36 (this : Router.DatabaseManager)
    (name sql : string) (args queries statements flag : value) :
  let id := Router.generateOperationId random36 in
  let sent (call : Router.DatabaseManager -> Router.DatabaseManager * nat) tag :=
    exists fields,
      Router.events (fst (call this))
      = Router.events this
        ++ Router.Registered id (length (Router.promises this))
           :: match Router.worker this with
              | Some _ => [Router.Posted (VObj fields)]
              | None => []
              end
      /\ get_field fields "operationId" = VStr id
      /\ get_field fields "action" = VStr tag in
  sent (Manager.createDBConnection random36 name) "createDBConnection"
  /\ sent (Manager.executeRawQuery random36 sql args) "executeRawQuery"
  /\ sent (Manager.executeQueries random36 queries flag) "executeQueries"
  /\ sent (Manager.executePreparedStatements random36 statements flag)
       "executePreparedStatements"
  /\ sent (Manager.executeSelectPreparedStatements random36 sql args)
       "executeSelectPreparedStatements"
  /\ sent (Manager.isTableFound random36 name) "isTableFound"
  /\ sent (Manager.closeDatabase random36) "closeDatabase"
  /\ sent (Manager.exportDatabase_request random36) "exportDatabase".
Proof.
  intros id sent. subst sent. cbv beta.
  repeat split;
    (eexists; split;
     [ unfold Manager.createDBConnection, Manager.executeRawQuery,
         Manager.executeQueries, Manager.executePreparedStatements,
         Manager.executeSelectPreparedStatements, Manager.isTableFound,
         Manager.closeDatabase, Manager.exportDatabase_request,
         Router.postToWorker, Router.transmit, Router.register; simpl;
       destruct (Router.worker this); simpl;
       rewrite <- ?app_assoc; reflexivity
     | split; reflexivity ]).
Qed.

End RouterMore.

(** ** The stream source of src/wasm-sql/DatabaseManager.js *)

Section SourceFacts.
Import DatabaseSource.
Context {V : Type} (K : VfsConstants) (answer : VfsCall -> V -> VfsReply * V).

Lemma run_onDone_calls (todo : list Cleanup) :
  forall this : Source V,
    calls (run_onDone K answer todo this)
    = calls this ++ map (release K (fileId this)) todo
    /\ isDone (run_onDone K answer todo this) = isDone this
    /\ onDone (run_onDone K answer todo this) = onDone this
    /\ controller (run_onDone K answer todo this) = controller this
    /\ fileId (run_onDone K answer todo this) = fileId this.
Proof.
  induction todo as [|f rest IH]; intros this; simpl.
  - rewrite app_nil_r. repeat split.
  - destruct (IH (snd (ask answer
                         match f with
                         | CloseFile => jClose (fileId this)
                         | Unlock => jUnlock (fileId this) (SQLITE_LOCK_NONE K)
                         end this))) as (Hc & Hd & Ho & Hk & Hf).
    rewrite Hc, Hd, Ho, Hk, Hf. unfold ask.
    destruct (answer _ (vfs this)) as [r v]. simpl.
    rewrite <- app_assoc. repeat split.
Qed.

Lemma settle_calls (s : Settled) (this : Source V) :
  isDone this = NotYet ->
  calls (settle K answer s this)
  = calls this ++ map (release K (fileId this)) (rev (onDone this))
  /\ isDone (settle K answer s this) = s
  /\ onDone (settle K answer s this) = []
  /\ controller (settle K answer s this) = controller this.
Proof.
  intros Hopen. unfold settle. rewrite Hopen.
  match goal with
  | |- context [run_onDone K answer ?l ?t] =>
      destruct (run_onDone_calls l t) as (Hc & Hd & Ho & Hk & _)
  end.
  rewrite Hc, Hd, Ho, Hk. repeat split.
Qed.

Ltac rejected :=
  unfold fail;
  match goal with
  | |- context [settle ?K ?answer ?s ?t] =>
      let Hc := fresh in let Hd := fresh in let Ho := fresh in let Hk := fresh in
      destruct (settle_calls s t eq_refl) as (Hc & Hd & Ho & Hk);
      rewrite Hc, Hd, Ho, Hk; simpl
  end;
  repeat (split; [reflexivity|]).


(** X27.  [cancel] on a source that is not settled rejects [isDone] with the
    reason and runs the functions of [#onDone], the last pushed first,
    leaving none; the controller hears nothing; a second [cancel] does
    nothing. *)
Theorem cancel_releases (reason again : string) (this : Source V) :
  isDone this = NotYet ->
  let after := cancel K answer reason this in
  isDone after = Rejected (VError reason)
  /\ calls after = calls this ++ map (release K (fileId this)) (rev (onDone this))
  /\ onDone after = []
  /\ controller after = controller this
  /\ cancel K answer again after = after.
Proof.
  intros Hopen after. subst after. unfold cancel.
  destruct (settle_calls (Rejected (VError reason)) this Hopen)
    as (Hc & Hd & Ho & Hk).
  repeat split; try assumption.
  unfold settle at 1. now rewrite Hd.
Qed.

(** X28.  A read that fails ends the stream: no chunk is given, the
    controller is given the error and [isDone] is rejected with it, and
    the releases run. *)
Theorem pull_read_failure (this : Source V) e :
  isDone this = NotYet ->
  0 <= bytesRemaining this ->
  check K (code (fst (answer (jRead (fileId this)
                                (Z.min (bytesRemaining this) 65536)
                                (iOffset this)) (vfs this)))) = Some e ->
  let after := pull K answer this in
  controller after = controller this ++ [Error e]
  /\ isDone after = Rejected e
  /\ onDone after = []
  /\ calls after
     = calls this
       ++ jRead (fileId this) (Z.min (bytesRemaining this) 65536) (iOffset this)
       :: map (release K (fileId this)) (rev (onDone this)).
Proof.
  intros Hopen Hpos Hread after. subst after. unfold pull.
  destruct (Z.ltb_spec (Z.min (bytesRemaining this) 65536) 0) as [Hneg|_];
    [lia|].
  unfold ask.
  destruct (answer (jRead _ _ _) (vfs this)) as [r v] eqn:Hanswer.
  simpl in Hread. cbn [code]. rewrite Hread. unfold fail.
  match goal with
  | |- context [settle K answer ?s ?t] =>
      destruct (settle_calls s t) as (Hc & Hd & Ho & Hk); [exact Hopen|]
  end.
  rewrite Hc, Hd, Ho, Hk. simpl. rewrite <- app_assoc. repeat split.
Qed.

End SourceFacts.

Section WholeFile.
Import DatabaseSource.
Variables (content : list Z) (name : string) (id : Z).

Local Abbreviation size_of_file := (Z.of_nat (length content)).

Local Abbreviation reading := (reading content name id).

Lemma filled_exact n stored :
  length stored = Z.to_nat n -> filled n stored = stored.
Proof.
  intros Hlen. unfold filled. rewrite <- Hlen.
  rewrite firstn_app, Nat.sub_diag, firstn_all. simpl. apply app_nil_r.
Qed.

Lemma pull_reading offset made given :
  0 <= offset <= size_of_file ->
  let n := Z.min (size_of_file - offset) 65536 in
  let chunk := firstn (Z.to_nat n) (skipn (Z.to_nat offset) content) in
  pull file_constants file_vfs (reading offset made given)
  = if size_of_file - offset - n =? 0
    then {| path := name; fileId := id; iOffset := offset + n;
            bytesRemaining := size_of_file - offset - n;
            onDone := []; isDone := Fulfilled; vfs := content;
            calls := made ++ [jRead id n offset; jUnlock id 0; jClose id];
            controller := given ++ [Enqueue chunk; Close] |}
    else reading (offset + n) (made ++ [jRead id n offset])
           (given ++ [Enqueue chunk]).
Proof.
  intros Hoff n chunk. unfold pull, reading. cbn [bytesRemaining fileId iOffset].
  fold n. destruct (Z.ltb_spec n 0) as [Hneg|_]; [lia|].
  unfold ask. cbn [vfs file_vfs].
  destruct (Z.leb_spec 0 offset) as [_|]; [|lia].
  destruct (Z.leb_spec (offset + n) size_of_file) as [_|]; [|lia].
  cbn [andb code check file_constants SQLITE_OK Z.eqb bytes].
  rewrite filled_exact.
  2:{ rewrite length_firstn, length_skipn. lia. }
  fold chunk. unfold tell. cbn -[Z.sub Z.add Z.eqb Z.min Z.of_nat].
  destruct (size_of_file - offset - n =? 0); [|f_equal; lia].
  unfold settle. cbn -[Z.sub Z.add Z.eqb Z.min Z.of_nat].
  rewrite <- !app_assoc. reflexivity.
Qed.

Lemma pull_all_ended {V : Type} K (answer : VfsCall -> V -> VfsReply * V)
    (fuel : nat) (this : Source V) :
  ended this = true -> pull_all K answer fuel this = this.
Proof.
  intros Hended. destruct fuel; simpl; [reflexivity | now rewrite Hended].
Qed.

Lemma pull_all_reading (fuel : nat) :
  forall offset made chunks_given,
    0 <= offset <= size_of_file ->
    offset < size_of_file \/ size_of_file = 0 ->
    size_of_file - offset < Z.of_nat fuel * 65536 ->
    exists reads more,
      pull_all file_constants file_vfs fuel
        (reading offset made (map Enqueue chunks_given))
      = {| path := name; fileId := id; iOffset := size_of_file;
           bytesRemaining := 0; onDone := []; isDone := Fulfilled;
           vfs := content;
           calls := made ++ reads ++ [jUnlock id 0; jClose id];
           controller := map Enqueue (chunks_given ++ more) ++ [Close] |}
      /\ Forall (is_jRead id) reads
      /\ concat more = skipn (Z.to_nat offset) content
      /\ Forall (fun chunk => Z.of_nat (length chunk) <= 65536) more.
Proof.
  induction fuel as [|fuel IH]; intros offset made chunks_given Hoff Hmore Hfuel;
    [lia|].
  cbn [pull_all].
  assert (Hopen : ended (reading offset made (map Enqueue chunks_given)) = false).
  { unfold ended, reading. cbn [controller].
    induction chunks_given; [reflexivity | assumption]. }
  rewrite Hopen, pull_reading by assumption.
  set (n := Z.min (size_of_file - offset) 65536).
  set (chunk := firstn (Z.to_nat n) (skipn (Z.to_nat offset) content)).
  assert (Hchunk : Z.of_nat (length chunk) <= 65536).
  { subst chunk. rewrite length_firstn. lia. }
  destruct (Z.eqb_spec (size_of_file - offset - n) 0) as [Hlast|Hnot].
  - exists [jRead id n offset], [chunk].
    assert (Hfull : chunk = skipn (Z.to_nat offset) content).
    { subst chunk. apply firstn_all2. rewrite length_skipn. lia. }
    split; [|split; [|split]].
    + rewrite pull_all_ended
        by (unfold ended; cbn [controller]; rewrite existsb_app; simpl;
            now rewrite orb_true_r).
      f_equal; [lia | lia | now rewrite map_app, <- app_assoc].
    + constructor; [now exists n, offset | constructor].
    + simpl. now rewrite app_nil_r.
    + constructor; [assumption | constructor].
  - assert (Hn : n = 65536) by lia.
    destruct (IH (offset + n) (made ++ [jRead id n offset])
                (chunks_given ++ [chunk]))
      as (reads & more & Hrun & Hreads & Hcat & Hsizes); [lia | lia | lia |].
    exists (jRead id n offset :: reads), (chunk :: more).
    split; [|split; [|split]].
    + rewrite map_app in Hrun. simpl in Hrun. rewrite Hrun.
      f_equal; [now rewrite <- app_assoc | now rewrite <- app_assoc].
    + constructor; [now exists n, offset | assumption].
    + simpl. rewrite Hcat. subst chunk.
      replace (Z.to_nat (offset + n)) with (Z.to_nat offset + Z.to_nat n)%nat
        by lia.
      rewrite <- drop_drop. apply take_drop.
    + constructor; assumption.
Qed.

(** X29.  Reading the stream of a file to its end gives the file back: the
    chunks, in order, are the content, each of at most 65536 bytes; the
    stream is closed, [isDone] is fulfilled, the file is left as it was,
    and the calls on the VFS are the open, the lock, the size, reads only,
    then the unlock and the close. *)
Theorem read_all_gives_the_file (fuel : nat) :
  size_of_file < 2 ^ 53 ->
  size_of_file < Z.of_nat fuel * 65536 ->
  let this := read_all file_constants file_vfs fuel
                (new_DatabaseSource content name id) in
  concat (chunks this) = content
  /\ Forall (fun chunk => Z.of_nat (length chunk) <= 65536) (chunks this)
  /\ (exists given, controller this = map Enqueue given ++ [Close])
  /\ isDone this = Fulfilled
  /\ vfs this = content
  /\ exists reads,
       calls this = [jOpen name id 257; jLock id 1; jFileSize id]
                    ++ reads ++ [jUnlock id 0; jClose id]
       /\ Forall (is_jRead id) reads.
Proof.
  intros Hsmall Hfuel this. subst this. unfold read_all.
  assert (Hstart : start file_constants file_vfs
                     (new_DatabaseSource content name id)
                   = reading 0 [jOpen name id 257; jLock id 1; jFileSize id]
                       (map Enqueue [])).
  { unfold start, new_DatabaseSource, ask, reading. simpl.
    f_equal. unfold Number.
    rewrite Z.mod_small by (split; [lia | apply Z.lt_trans with (2 ^ 53); [assumption | reflexivity]]).
    destruct (Z.ltb_spec size_of_file (2 ^ 53)); [lia | lia]. }
  rewrite Hstart.
  destruct (pull_all_reading fuel 0 [jOpen name id 257; jLock id 1; jFileSize id] [])
    as (reads & more & Hrun & Hreads & Hcat & Hsizes); [lia | lia | lia |].
  rewrite Hrun. unfold chunks. cbn [controller calls isDone vfs app].
  assert (Hchunks : flat_map (fun ev => match ev with Enqueue c => [c] | _ => [] end)
                      (map Enqueue more ++ [Close]) = more).
  { rewrite flat_map_app. simpl. rewrite app_nil_r.
    clear. induction more as [|c rest IH]; simpl; [reflexivity | now rewrite IH]. }
  rewrite Hchunks.
  split; [exact Hcat|]. split; [exact Hsizes|]. split; [now exists more|].
  split; [reflexivity|]. split; [reflexivity|]. now exists reads.
Qed.

End WholeFile.

(** ** The manager and the worker of src/public together *)

Section RoundTrip.
Context {E : Type} (respond : Call -> E -> Reply * E).

Lemma deliver_settles fields this id p :
  get_field fields "operationId" = VStr id ->
  Router.pendingOperations this !! id = Some p ->
  Router.promises this !! p = Some Router.Unsettled ->
  Router.promises (deliver (VObj fields) this) !! p
  = Some (if truthy (get_field fields "error")
          then Router.Rejected (get_field fields "error")
          else Router.Resolved (get_field fields "result")).
Proof.
  intros Hid Hp Hu. unfold deliver, Router.onmessage. rewrite Hid, Hp. simpl.
  unfold Router.settle. rewrite Hu.
  apply list_lookup_insert_eq. now apply lookup_lt_Some in Hu.
Qed.

(** X30.  From the handler's outcome to the caller's promise.  When the
    [switch] of the worker returns, the promise waiting for the command's
    id is resolved with the result.  When it throws an Error, the promise
    is rejected with the message text, not with an Error, unless the
    message is empty: then the promise is resolved, with [undefined].
    When the handler never settles, nothing is posted for the manager. *)
Theorem reply_reaches_the_caller fuel data (w : World E) this id p :
  Public.operationId data = VStr id ->
  Router.pendingOperations this !! id = Some p ->
  Router.promises this !! p = Some Router.Unsettled ->
  let after := snd (Public.onmessage respond fuel data w) in
  match Public.switch_action respond fuel data w with
  | (Done result, w1) =>
      exists message,
        outbox after = outbox w1 ++ [message]
        /\ Router.promises (deliver message this) !! p
           = Some (Router.Resolved result)
  | (Thrown (VError m), w1) =>
      exists message,
        outbox after = outbox w1 ++ [message]
        /\ Router.promises (deliver message this) !! p
           = Some (if String.eqb m "" then Router.Resolved VUndefined
                   else Router.Rejected (VStr m))
  | (Pending, w1) => outbox after = outbox w1
  | _ => True
  end.
Proof.
  intros Hid Hp Hu after. subst after.
  pose proof (onmessage_envelope respond fuel data w) as Henv.
  destruct (Public.switch_action respond fuel data w) as [[result | e | | ] w1];
    try exact I; try destruct e; try exact I; rewrite Henv.
  - eexists. split; [reflexivity|].
    rewrite (deliver_settles _ this id p); [reflexivity | exact Hid | exact Hp | exact Hu].
  - eexists. split; [reflexivity|].
    rewrite (deliver_settles _ this id p); [| exact Hid | exact Hp | exact Hu].
    simpl. destruct message; reflexivity.
  - reflexivity.
Qed.

End RoundTrip.

(** ** The properties on concrete engines *)

Lemma executeQueries_commits_witness :
  exists w',
    Public.executeQueries Toy.respond Toy.connected
      ["CREATE TABLE t (name TEXT NOT NULL);"; "INSERT INTO t VALUES ('x');"]
      VUndefined Toy.connected_world
    = (Done VUndefined, w')
    /\ trace w'
       = [Api.exec (VNum 1) "BEGIN TRANSACTION;";
          Api.exec (VNum 1) "CREATE TABLE t (name TEXT NOT NULL);";
          Api.exec (VNum 1) "INSERT INTO t VALUES ('x');";
          Api.exec (VNum 1) "COMMIT;"].
Proof.
  edestruct (executeQueries_commits Toy.respond Toy.connected
               ["CREATE TABLE t (name TEXT NOT NULL);";
                "INSERT INTO t VALUES ('x');"] VUndefined Toy.connected_world)
    as [Hrun Ht].
  - reflexivity.
  - cbv; reflexivity.
  - eapply all_accepted_cons; [cbv; reflexivity|].
    eapply all_accepted_cons; [cbv; reflexivity|]. apply all_accepted_nil.
  - cbv; reflexivity.
  - eexists. split; [exact Hrun|]. rewrite Ht. reflexivity.
Defined.

Lemma executePreparedStatement_finalizes_witness :
  exists w3,
    Public.executePreparedStatement Toy.respond Toy.connected
      "INSERT INTO test_table (name) VALUES (?);" [VStr "Alice"]
      Toy.connected_world
    = (Done (VArr [VNull; VNum 1]), w3)
    /\ Toy.live (engine w3) = []
    /\ trace w3
       = [Api.prepare (VNum 1) "INSERT INTO test_table (name) VALUES (?);";
          Api.bind_text (VNum 100) 1 (VStr "Alice");
          Api.stmt_step (VNum 100); Api.lastInsertRowid (VNum 100);
          Api.stmt_finalize (VNum 100)].
Proof.
  edestruct (executePreparedStatement_finalizes Toy.respond Toy.connected
               "INSERT INTO test_table (name) VALUES (?);" [VStr "Alice"]
               Toy.connected_world)
    as (w3 & Hrun & He & Ht).
  - cbv; reflexivity.
  - eapply stepped_ok; cbv; reflexivity.
  - cbv; reflexivity.
  - exists w3. split; [exact Hrun|]. split; [now rewrite He|].
    rewrite Ht. reflexivity.
Defined.

(** The engine accepts the statement and refuses COMMIT, then ROLLBACK:
    the disk is full and the engine has rolled back by itself. *)
Lemma executePreparedStatements_commit_failure_witness :
  exists w4,
    Public.executePreparedStatements Replay.respond Replay.helper
      [insert_name (VStr "Alice")] VUndefined
      (Replay.world [Returns (VNum 0); Returns (VNum 7); Returns (VNum 0);
                     Returns (VBool false); Returns (VNum 1); Returns (VNum 0);
                     Raises "database or disk is full";
                     Raises "cannot rollback - no transaction is active"]
         (Some Replay.helper))
    = (Thrown (VError "cannot rollback - no transaction is active"), w4)
    /\ trace w4
       = [Api.exec (VNum 1) "BEGIN TRANSACTION;";
          Api.prepare (VNum 1) "INSERT INTO test_table (name) VALUES (?);";
          Api.bind_text (VNum 7) 1 (VStr "Alice");
          Api.stmt_step (VNum 7); Api.lastInsertRowid (VNum 7);
          Api.stmt_finalize (VNum 7);
          Api.exec (VNum 1) "COMMIT;"; Api.exec (VNum 1) "ROLLBACK;"].
Proof.
  eexists. split.
  - etransitivity.
    + eapply (executePreparedStatements_commit_failure Replay.respond
                Replay.helper).
      * cbv; reflexivity.
      * eapply all_succeed_cons; [cbv; reflexivity | reflexivity |].
        apply all_succeed_nil.
      * cbv; reflexivity.
      * cbv; reflexivity.
    + cbv; reflexivity.
  - cbv; reflexivity.
Defined.

(** A batch sent while a transaction is open: BEGIN is refused, and the
    ROLLBACK that follows ends the transaction that was open. *)
Lemma executePreparedStatements_begin_failure_witness :
  let open :=
    {| engine := {| Toy.opened := true; Toy.closed := false;
                    Toy.in_transaction := true; Toy.next_handle := 100;
                    Toy.live := []; Toy.rowid := 0 |};
       trace := []; outbox := []; dbInstance := Some Toy.connected |} in
  exists w2,
    Public.executePreparedStatements Toy.respond Toy.connected
      [insert_name (VStr "Alice")] VUndefined open
    = (Done (VArr [VError "cannot start a transaction within a transaction";
                   VNull]), w2)
    /\ trace w2 = [Api.exec (VNum 1) "BEGIN TRANSACTION;";
                   Api.exec (VNum 1) "ROLLBACK;"]
    /\ Toy.in_transaction (engine w2) = false.
Proof.
  intros open. eexists. split.
  - etransitivity.
    + eapply (executePreparedStatements_begin_failure Toy.respond
                Toy.connected).
      * reflexivity.
      * cbv; reflexivity.
      * cbv; reflexivity.
    + cbv; reflexivity.
  - split; cbv; reflexivity.
Defined.

Lemma commands_before_connect_witness :
  Public.onmessage Toy.respond 10 (bare "closeDatabase" (VStr "c1"))
    (Toy.world Toy.init)
  = postMessage
      (error_envelope (VStr "c1")
         "Cannot read properties of undefined (reading 'closeDatabase')")
      (Toy.world Toy.init).
Proof.
  apply (commands_before_connect Toy.respond 10
           (bare "closeDatabase" (VStr "c1")) (Toy.world Toy.init)).
  - reflexivity.
  - simpl. discriminate.
Defined.

(** The [exportDatabase] of the manager is a tag the worker does not
    know. *)
Lemma unknown_action_reply_witness :
  Public.onmessage Toy.respond 10 (bare "exportDatabase" (VStr "x1"))
    Toy.connected_world
  = postMessage
      (result_envelope (VStr "x1") (VObj [("error", VStr "Unknown action")]))
      Toy.connected_world.
Proof.
  apply (unknown_action_reply Toy.respond 10
           (bare "exportDatabase" (VStr "x1")) Toy.connected_world).
  reflexivity.
Defined.

Lemma isTableFound_reply_witness :
  exists found w1,
    Public.onmessage Toy.respond 10 (bare "isTableFound" (VStr "t1"))
      Toy.connected_world = (Done tt, w1)
    /\ outbox w1 = [result_envelope (VStr "t1") (VObj [("success", VBool found)])]
    /\ found = false.
Proof.
  edestruct (isTableFound_reply Toy.respond 10
               (bare "isTableFound" (VStr "t1")) Toy.connected
               Toy.connected_world)
    as (found & w1 & Hrun & Hout & _ & Hnumber).
  - reflexivity.
  - reflexivity.
  - exists found, w1. split; [exact Hrun|]. split; [exact Hout|].
    eapply Hnumber. cbv; reflexivity.
Defined.

Lemma select_command_always_fails_witness :
  let data :=
    {| Public.action := "executeSelectPreparedStatements"; Public.dbName := "";
       Public.sql := "INSERT INTO test_table (name) VALUES (?);";
       Public.queries := []; Public.statements := [];
       Public.selectionArgs := [VStr "Alice"];
       Public.rollbackOnError := VUndefined;
       Public.operationId := VStr "s1" |} in
  fst (Public.onmessage Toy.respond 10 data Toy.connected_world) = OutOfFuel
  \/ (fst (Public.onmessage Toy.respond 10 data Toy.connected_world) = Done tt
      /\ exists m,
           outbox (snd (Public.onmessage Toy.respond 10 data Toy.connected_world))
           = outbox Toy.connected_world ++ [error_envelope (VStr "s1") m]).
Proof.
  intros data.
  apply (select_command_always_fails Toy.respond 10 data Toy.connected
           Toy.connected_world); reflexivity.
Defined.

(** A second connection on a worker that holds a helper. *)
Lemma createDBConnection_reply_witness :
  let data :=
    {| Public.action := "createDBConnection"; Public.dbName := "other";
       Public.sql := ""; Public.queries := []; Public.statements := [];
       Public.selectionArgs := []; Public.rollbackOnError := VUndefined;
       Public.operationId := VStr "a2" |} in
  exists w1,
    Public.onmessage Toy.respond 10 data Toy.connected_world = (Done tt, w1)
    /\ dbInstance w1 = Some {| databaseName := "other"; db := VNum 1;
                               sqlite3 := true |}
    /\ outbox w1
       = [result_envelope (VStr "a2")
            (VObj [("success", VBool true);
                   ("message", VStr "Database other created")])]
    /\ trace w1
       = [Api.SQLiteESMFactory; Api.VFS_create "my_vfs";
          Api.vfs_register (VStr "my_vfs"); Api.open_v2 "other" "my_vfs";
          Api.exec (VNum 1) "PRAGMA cache_size = 100;"].
Proof.
  intros data.
  edestruct (createDBConnection_reply Toy.respond 10 data Toy.connected_world)
    as (w1 & Hrun & Hdb & Hout & Ht).
  - reflexivity.
  - cbv; reflexivity.
  - cbv; reflexivity.
  - cbv; reflexivity.
  - cbv; reflexivity.
  - exists w1. split; [exact Hrun|]. split; [exact Hdb|].
    split; [exact Hout | exact Ht].
Defined.

(** The module factory fails. *)
Lemma createDBConnection_failure_witness :
  let data :=
    {| Public.action := "createDBConnection"; Public.dbName := "sync";
       Public.sql := ""; Public.queries := []; Public.statements := [];
       Public.selectionArgs := []; Public.rollbackOnError := VUndefined;
       Public.operationId := VStr "a1" |} in
  outbox (snd (Public.onmessage Replay.respond 10 data
                 (Replay.world [Raises "out of memory"] None)))
  = [error_envelope (VStr "a1") "out of memory"]
  /\ dbInstance (snd (Public.onmessage Replay.respond 10 data
                        (Replay.world [Raises "out of memory"] None)))
     = None.
Proof.
  intros data.
  edestruct (createDBConnection_failure Replay.respond 10 data
               (Replay.world [Raises "out of memory"] None))
    as (Hrun & Hdb & Hout).
  - reflexivity.
  - cbv; reflexivity.
  - rewrite Hrun. split; reflexivity.
Defined.

Lemma part000_pipeline_reports_step_witness :
  exists w5,
    Part000.executePreparedStatement Replay.respond Replay.helper
      "INSERT INTO test_table (name) VALUES (?);" [VStr "Alice"]
      (Replay.world [Returns (VNum 5); Replay.yielded (VNum 7);
                     Returns (VNum 0); Returns (VNum 101); Returns (VNum 0)]
         (Some Replay.helper))
    = (Done (VArr [VNull; VNum 101]), w5)
    /\ trace w5
       = [Api.statements (VNum 1) "INSERT INTO test_table (name) VALUES (?);";
          Api.next (VNum 5); Api.bind_collection (VNum 7) [VStr "Alice"];
          Api.step (VNum 7); Api.finalize (VNum 7)].
Proof.
  edestruct (part000_pipeline_reports_step Replay.respond Replay.helper
               "INSERT INTO test_table (name) VALUES (?);" [VStr "Alice"]
               (Replay.world [Returns (VNum 5); Replay.yielded (VNum 7);
                              Returns (VNum 0); Returns (VNum 101);
                              Returns (VNum 0)] (Some Replay.helper)))
    as (w5 & Hrun & _ & Ht).
  - reflexivity.
  - cbv; reflexivity.
  - cbv; reflexivity.
  - cbv; reflexivity.
  - cbv; reflexivity.
  - cbv; reflexivity.
  - exists w5. split; [exact Hrun | exact Ht].
Defined.

(** The text compiles to no statement and the iterator raises. *)
Lemma part000_pipeline_pending_witness :
  fst (Part000.executePreparedStatement Replay.respond Replay.helper
         "SELEC 1" []
         (Replay.world [Returns (VNum 5); Raises "syntax error"]
            (Some Replay.helper)))
  = Pending.
Proof.
  edestruct (part000_pipeline_pending Replay.respond Replay.helper
               "SELEC 1" []
               (Replay.world [Returns (VNum 5); Raises "syntax error"]
                  (Some Replay.helper)))
    as [Hnext _].
  - reflexivity.
  - cbv; reflexivity.
  - erewrite Hnext; [reflexivity | cbv; reflexivity].
Defined.

Lemma part000_batch_commits_witness :
  exists w3,
    Part000.executePreparedStatements Replay.respond Replay.helper
      [insert_name (VStr "Alice")] VUndefined
      (Replay.world [Returns (VNum 0); Returns (VNum 5);
                     Replay.yielded (VNum 7); Returns (VNum 0);
                     Returns (VNum 101); Returns (VNum 0); Returns (VNum 0)]
         (Some Replay.helper))
    = (Done (VArr [VNull; VArr [VNum 101]]), w3)
    /\ exists cs, trace w3 = cs
                  /\ issued "COMMIT;" cs = 1%nat /\ issued "ROLLBACK;" cs = 0%nat.
Proof.
  edestruct (part000_batch_commits Replay.respond Replay.helper
               [insert_name (VStr "Alice")] VUndefined
               (Replay.world [Returns (VNum 0); Returns (VNum 5);
                              Replay.yielded (VNum 7); Returns (VNum 0);
                              Returns (VNum 101); Returns (VNum 0);
                              Returns (VNum 0)] (Some Replay.helper)))
    as (Hrun & _ & cs & Ht & Hcommit & Hrollback).
  - cbv; reflexivity.
  - eapply all_reported_cons; [cbv; reflexivity | reflexivity |].
    apply all_reported_nil.
  - cbv; reflexivity.
  - eexists. split; [exact Hrun|]. exists cs.
    split; [exact Ht|]. split; [exact Hcommit | exact Hrollback].
Defined.

(** The step of the second statement fails. *)
Lemma part000_batch_fails_fast_witness :
  exists w4,
    Part000.executePreparedStatements Replay.respond Replay.helper
      ([insert_name (VStr "Alice")] ++ insert_name VNull
         :: [insert_name (VStr "Bob")]) VUndefined
      (Replay.world [Returns (VNum 0);
                     Returns (VNum 5); Replay.yielded (VNum 7);
                     Returns (VNum 0); Returns (VNum 101); Returns (VNum 0);
                     Returns (VNum 6); Replay.yielded (VNum 8);
                     Returns (VNum 0);
                     Raises "NOT NULL constraint failed: t.name";
                     Returns (VNum 0); Returns (VNum 0)]
         (Some Replay.helper))
    = (Done (VArr [VStr "NOT NULL constraint failed: t.name"; VNull]), w4)
    /\ trace w4
       = [Api.exec (VNum 1) "BEGIN TRANSACTION;";
          Api.statements (VNum 1) "INSERT INTO test_table (name) VALUES (?);";
          Api.next (VNum 5); Api.bind_collection (VNum 7) [VStr "Alice"];
          Api.step (VNum 7); Api.finalize (VNum 7);
          Api.statements (VNum 1) "INSERT INTO test_table (name) VALUES (?);";
          Api.next (VNum 6); Api.bind_collection (VNum 8) [VNull];
          Api.step (VNum 8); Api.finalize (VNum 8);
          Api.exec (VNum 1) "ROLLBACK;"].
Proof.
  eexists. split.
  - etransitivity.
    + eapply (part000_batch_fails_fast Replay.respond Replay.helper
                [insert_name (VStr "Alice")] (insert_name VNull)
                [insert_name (VStr "Bob")] VUndefined).
      * cbv; reflexivity.
      * eapply all_reported_cons; [cbv; reflexivity | reflexivity |].
        apply all_reported_nil.
      * cbv; reflexivity.
      * reflexivity.
      * cbv; reflexivity.
    + cbv; reflexivity.
  - cbv; reflexivity.
Defined.

(** [exec] returns [SQLITE_OK] for a table that does not exist, and the
    reply says it was found. *)
Lemma part000_isTableFound_reply_witness :
  outbox (snd (Part000.onmessage sqlite_constants 0 Replay.respond 10
                 {| Public.action := "isTableFound"; Public.dbName := "nowhere";
                    Public.sql := ""; Public.queries := [];
                    Public.statements := []; Public.selectionArgs := [];
                    Public.rollbackOnError := VUndefined;
                    Public.operationId := VStr "t1" |}
                 (Replay.world [Returns (VNum 0)] (Some Replay.helper))))
  = [result_envelope (VStr "t1") (VObj [("success", VBool true)])].
Proof.
  rewrite (part000_isTableFound_reply sqlite_constants 0 Replay.respond 10
             {| Public.action := "isTableFound"; Public.dbName := "nowhere";
                Public.sql := ""; Public.queries := [];
                Public.statements := []; Public.selectionArgs := [];
                Public.rollbackOnError := VUndefined;
                Public.operationId := VStr "t1" |}
             Replay.helper (Replay.world [Returns (VNum 0)]
                              (Some Replay.helper))
             (Returns (VNum 0)) [] eq_refl eq_refl eq_refl eq_refl).
  reflexivity.
Defined.

Lemma part000_connect_pragma_failure_witness :
  let data :=
    {| Public.action := "createDBConnection"; Public.dbName := "sync";
       Public.sql := ""; Public.queries := []; Public.statements := [];
       Public.selectionArgs := []; Public.rollbackOnError := VUndefined;
       Public.operationId := VStr "a1" |} in
  exists w1,
    Part000.onmessage sqlite_constants 0 Replay.respond 10 data
      (Replay.world [Returns (VObj []); Returns (VStr "my_vfs");
                     Returns (VNum 0); Returns (VNum 1); Raises "disk I/O error"]
         None)
    = (Done tt, w1)
    /\ dbInstance w1 = None
    /\ outbox w1 = [error_envelope (VStr "a1") "disk I/O error"]
    /\ trace w1
       = [Api.SQLiteESMFactory; Api.VFS_create "my_vfs";
          Api.vfs_register (VStr "my_vfs"); Api.open_v2 "sync" "my_vfs";
          Api.exec (VNum 1) "PRAGMA cache_size = 100;"].
Proof.
  intros data.
  edestruct (part000_connect_pragma_failure sqlite_constants 0 Replay.respond
               10 data
               (Replay.world [Returns (VObj []); Returns (VStr "my_vfs");
                              Returns (VNum 0); Returns (VNum 1);
                              Raises "disk I/O error"] None))
    as (w1 & Hrun & Hdb & Hout & Ht).
  - reflexivity.
  - cbv; reflexivity.
  - cbv; reflexivity.
  - cbv; reflexivity.
  - cbv; reflexivity.
  - reflexivity.
  - cbv; reflexivity.
  - exists w1. split; [exact Hrun|]. split; [exact Hdb|].
    split; [exact Hout | exact Ht].
Defined.


Lemma reply_settles_witness :
  let this := fst (Router.postToWorker "0.4fzyo82mvyr" "closeDatabase" []
                     Router.new_DatabaseManager) in
  let after := Router.onmessage
                 [("operationId", VStr "4fzyo82mv");
                  ("error", VStr "database is locked")] this in
  Router.promises after !! 0%nat
    = Some (Router.Rejected (VStr "database is locked"))
  /\ Router.pendingOperations after !! "4fzyo82mv" = None.
Proof.
  intros this after.
  destruct (reply_settles
              [("operationId", VStr "4fzyo82mv");
               ("error", VStr "database is locked")] this "4fzyo82mv" 0%nat)
    as (Hsettled & Hgone & _).
  - eapply sound_postToWorker; [reflexivity | apply sound_new].
  - reflexivity.
  - vm_compute. reflexivity.
  - split; [exact Hsettled | exact Hgone].
Defined.

(** A message with an id that is no longer pending, and a further
    request, leave a resolved promise resolved. *)
Lemma settled_for_good_witness :
  let this := Router.onmessage (Router.reply "4fzyo82mv" (VNum 7))
                (fst (Router.postToWorker "0.4fzyo82mvyr" "closeDatabase" []
                        Router.new_DatabaseManager)) in
  Router.promises
    (step this (Receive [("operationId", VStr "4fzyo82mv");
                         ("error", VStr "too late")])) !! 0%nat
    = Some (Router.Resolved (VNum 7))
  /\ Router.promises (step this (Send "0.4fzyo82mvyr" "closeDatabase" []))
       !! 0%nat
     = Some (Router.Resolved (VNum 7)).
Proof.
  intros this.
  split; apply settled_for_good;
    solve [vm_compute; reflexivity | discriminate].
Defined.

Lemma replies_commute_witness :
  let this :=
    fst (Router.postToWorker "0.9k2j4h1xc7" "isTableFound"
           [("dbName", VStr "t")]
           (fst (Router.postToWorker "0.4fzyo82mvyr" "closeDatabase" []
                   Router.new_DatabaseManager))) in
  Router.onmessage (Router.reply "4fzyo82mv" (VNum 7))
    (Router.onmessage (Router.reply "9k2j4h1xc" (VNum 8)) this)
  = Router.onmessage (Router.reply "9k2j4h1xc" (VNum 8))
      (Router.onmessage (Router.reply "4fzyo82mv" (VNum 7)) this).
Proof.
  intros this. apply replies_commute.
  - eapply sound_postToWorker; [reflexivity|].
    eapply sound_postToWorker; [reflexivity | apply sound_new].
  - simpl. discriminate.
Defined.

Lemma postToWorker_without_worker_witness :
  let after :=
    fst (Router.postToWorker "0.4fzyo82mvyr" "closeDatabase" []
           (Router.terminateWorker Router.new_DatabaseManager)) in
  Router.promises after !! 0%nat
    = Some (Router.Rejected
              (VError "Cannot read properties of null (reading 'postMessage')"))
  /\ Router.pendingOperations after !! "4fzyo82mv" = Some 0%nat
  /\ Router.events after = [Router.Registered "4fzyo82mv" 0].
Proof.
  intros after.
  destruct (postToWorker_without_worker "0.4fzyo82mvyr" "closeDatabase" []
              (Router.terminateWorker Router.new_DatabaseManager) eq_refl)
    as (Hrejected & Hentry & _ & Hevents).
  split; [exact Hrejected|]. split; [exact Hentry | exact Hevents].
Defined.

Lemma request_round_trip_witness :
  exists fields,
    Router.request "4fzyo82mv" "createDBConnection" [("dbName", VStr "sync")]
    = VObj fields
    /\ get_field fields "operationId" = VStr "4fzyo82mv"
    /\ Router.promises
         (Router.onmessage
            [("operationId", get_field fields "operationId");
             ("result", VBool true)]
            (fst (Manager.createDBConnection "0.4fzyo82mvyr" "sync"
                    Router.new_DatabaseManager))) !! 0%nat
       = Some (Router.Resolved (VBool true)).
Proof.
  destruct (request_round_trip "0.4fzyo82mvyr" "createDBConnection"
              [("dbName", VStr "sync")] Router.new_DatabaseManager []
              (VBool true))
    as (fields & Hrequest & _ & Hid & Hresolved).
  - reflexivity.
  - constructor; [simpl; discriminate | constructor].
  - exists fields. split; [exact Hrequest|]. split; [exact Hid | exact Hresolved].
Defined.

Lemma cancel_releases_witness :
  let this := DatabaseSource.start DatabaseSource.file_constants
                DatabaseSource.file_vfs
                (DatabaseSource.new_DatabaseSource [83; 81; 76] "sync" 9) in
  let after := DatabaseSource.cancel DatabaseSource.file_constants
                 DatabaseSource.file_vfs "aborted" this in
  DatabaseSource.isDone after = DatabaseSource.Rejected (VError "aborted")
  /\ DatabaseSource.calls after
     = [DatabaseSource.jOpen "sync" 9 257; DatabaseSource.jLock 9 1;
        DatabaseSource.jFileSize 9; DatabaseSource.jUnlock 9 0;
        DatabaseSource.jClose 9]
  /\ DatabaseSource.cancel DatabaseSource.file_constants
       DatabaseSource.file_vfs "again" after = after.
Proof.
  intros this after.
  destruct (cancel_releases DatabaseSource.file_constants
              DatabaseSource.file_vfs "aborted" "again" this eq_refl)
    as (Hdone & Hcalls & _ & _ & Hagain).
  split; [exact Hdone|]. split; [exact Hcalls | exact Hagain].
Defined.

(** The file has shrunk since its size was taken. *)
Lemma pull_read_failure_witness :
  let shrunk :=
    {| DatabaseSource.path := "sync"; DatabaseSource.fileId := 9;
       DatabaseSource.iOffset := 0; DatabaseSource.bytesRemaining := 3;
       DatabaseSource.onDone :=
         [DatabaseSource.CloseFile; DatabaseSource.Unlock];
       DatabaseSource.isDone := DatabaseSource.NotYet;
       DatabaseSource.vfs := [83];
       DatabaseSource.calls :=
         [DatabaseSource.jOpen "sync" 9 257; DatabaseSource.jLock 9 1;
          DatabaseSource.jFileSize 9];
       DatabaseSource.controller := [] |} in
  let after := DatabaseSource.pull DatabaseSource.file_constants
                 DatabaseSource.file_vfs shrunk in
  DatabaseSource.controller after
    = [DatabaseSource.Error (VError "Error code: 522")]
  /\ DatabaseSource.isDone after
     = DatabaseSource.Rejected (VError "Error code: 522")
  /\ DatabaseSource.calls after
     = [DatabaseSource.jOpen "sync" 9 257; DatabaseSource.jLock 9 1;
        DatabaseSource.jFileSize 9; DatabaseSource.jRead 9 3 0;
        DatabaseSource.jUnlock 9 0; DatabaseSource.jClose 9].
Proof.
  intros shrunk after.
  destruct (pull_read_failure DatabaseSource.file_constants
              DatabaseSource.file_vfs shrunk (VError "Error code: 522"))
    as (Hheard & Hdone & _ & Hcalls).
  - reflexivity.
  - simpl. lia.
  - vm_compute. reflexivity.
  - split; [exact Hheard|]. split; [exact Hdone | exact Hcalls].
Defined.

Lemma read_all_gives_the_file_witness :
  let this := DatabaseSource.read_all DatabaseSource.file_constants
                DatabaseSource.file_vfs 1
                (DatabaseSource.new_DatabaseSource [83; 81; 76] "sync" 9) in
  concat (DatabaseSource.chunks this) = [83; 81; 76]
  /\ DatabaseSource.isDone this = DatabaseSource.Fulfilled.
Proof.
  intros this.
  destruct (read_all_gives_the_file [83; 81; 76] "sync" 9 1)
    as (Hcontent & _ & _ & Hdone & _).
  - simpl. lia.
  - simpl. lia.
  - split; [exact Hcontent | exact Hdone].
Defined.

(** The close command on the small engine, sent by the manager. *)
Lemma reply_reaches_the_caller_witness :
  let this := fst (Manager.closeDatabase "0.4fzyo82mvyr"
                     Router.new_DatabaseManager) in
  let data := bare "closeDatabase" (VStr "4fzyo82mv") in
  exists message,
    outbox (snd (Public.onmessage Toy.respond 10 data Toy.connected_world))
    = [message]
    /\ Router.promises (deliver message this) !! 0%nat
       = Some (Router.Resolved
                 (VObj [("success", VBool true);
                        ("message", VStr "Database closed successfully")])).
Proof.
  intros this data.
  pose proof (reply_reaches_the_caller Toy.respond 10 data Toy.connected_world
                this "4fzyo82mv" 0%nat eq_refl eq_refl eq_refl) as Hreply.
  exact Hreply.
Defined.


(** ** The transaction claims on concrete engines *)

(** A batch of three whose second statement fails: on the small engine
    with the worker of [src/public], and with the worker of [part_000] on
    an engine that refuses the ROLLBACK. *)
Lemma executePreparedStatements_fails_fast_witness :
  (exists w4,
     Public.executePreparedStatements Toy.respond Toy.connected
       ([insert_name (VStr "Alice")] ++ insert_name VNull
          :: [insert_name (VStr "Bob")]) (VBool true) Toy.connected_world
     = (Done (VArr [VStr "NOT NULL constraint failed: t.name"; VNull]), w4)
     /\ trace w4
        = [Api.exec (VNum 1) "BEGIN TRANSACTION;";
           Api.prepare (VNum 1) "INSERT INTO test_table (name) VALUES (?);";
           Api.bind_text (VNum 100) 1 (VStr "Alice");
           Api.stmt_step (VNum 100); Api.lastInsertRowid (VNum 100);
           Api.stmt_finalize (VNum 100);
           Api.prepare (VNum 1) "INSERT INTO test_table (name) VALUES (?);";
           Api.bind_text (VNum 101) 1 VNull;
           Api.stmt_step (VNum 101); Api.stmt_finalize (VNum 101);
           Api.exec (VNum 1) "ROLLBACK;"])
  /\ (exists w4,
        Part000.executePreparedStatements Replay.respond Replay.helper
          ([] ++ insert_name VNull :: [insert_name (VStr "Bob")]) VUndefined
          (Replay.world [Returns (VNum 0);
                         Returns (VNum 5); Replay.yielded (VNum 7);
                         Returns (VNum 0);
                         Raises "database or disk is full";
                         Returns (VNum 0);
                         Raises "cannot rollback - no transaction is active"]
             (Some Replay.helper))
        = (Thrown (VError "cannot rollback - no transaction is active"), w4)
        /\ trace w4
           = [Api.exec (VNum 1) "BEGIN TRANSACTION;";
              Api.statements (VNum 1)
                "INSERT INTO test_table (name) VALUES (?);";
              Api.next (VNum 5); Api.bind_collection (VNum 7) [VNull];
              Api.step (VNum 7); Api.finalize (VNum 7);
              Api.exec (VNum 1) "ROLLBACK;"]).
Proof.
  split.
  - edestruct (executePreparedStatements_fails_fast Toy.respond public_worker
                 Toy.connected [insert_name (VStr "Alice")] (insert_name VNull)
                 [insert_name (VStr "Bob")] (VBool true) Toy.connected_world)
      as (Hrun & _ & _).
    + cbv; reflexivity.
    + eapply all_reported_cons; [cbv; reflexivity | reflexivity |].
      apply all_reported_nil.
    + cbv; reflexivity.
    + reflexivity.
    + cbv; reflexivity.
    + eexists. split; [exact Hrun | cbv; reflexivity].
  - edestruct (executePreparedStatements_fails_fast Replay.respond part_000
                 Replay.helper [] (insert_name VNull)
                 [insert_name (VStr "Bob")] VUndefined
                 (Replay.world [Returns (VNum 0);
                                Returns (VNum 5); Replay.yielded (VNum 7);
                                Returns (VNum 0);
                                Raises "database or disk is full";
                                Returns (VNum 0);
                                Raises "cannot rollback - no transaction is active"]
                    (Some Replay.helper)))
      as (Hrun & _ & _).
    + cbv; reflexivity.
    + apply all_reported_nil.
    + cbv; reflexivity.
    + reflexivity.
    + cbv; reflexivity.
    + eexists. split; [exact Hrun | cbv; reflexivity].
Defined.

(** The pair is not returned when the engine refuses the ROLLBACK, and
    an Error with an empty message is not seen as an error: the batch goes
    on and commits. *)
Lemma executePreparedStatements_without_the_pair :
  fst (Public.executePreparedStatements Replay.respond Replay.helper
         [insert_name VNull; insert_name (VStr "Bob")] (VBool true)
         (Replay.world [Returns (VNum 0); Returns (VNum 7); Returns (VNum 0);
                        Raises "database or disk is full"; Returns (VNum 0);
                        Raises "cannot rollback - no transaction is active"]
            (Some Replay.helper)))
  = Thrown (VError "cannot rollback - no transaction is active")
  /\ (let r := Public.executePreparedStatements Replay.respond Replay.helper
                 [insert_name VNull; insert_name (VStr "Bob")] (VBool true)
                 (Replay.world [Returns (VNum 0);
                                Returns (VNum 7); Returns (VNum 0);
                                Raises ""; Returns (VNum 0);
                                Returns (VNum 8); Returns (VNum 0);
                                Returns (VBool false); Returns (VNum 1);
                                Returns (VNum 0);
                                Returns (VNum 0)]
                    (Some Replay.helper)) in
      fst r = Done (VArr [VNull; VArr [VNull; VNum 1]])
      /\ trace (snd r)
         = [Api.exec (VNum 1) "BEGIN TRANSACTION;";
            Api.prepare (VNum 1) "INSERT INTO test_table (name) VALUES (?);";
            Api.bind_text (VNum 7) 1 VNull;
            Api.stmt_step (VNum 7); Api.stmt_finalize (VNum 7);
            Api.prepare (VNum 1) "INSERT INTO test_table (name) VALUES (?);";
            Api.bind_text (VNum 8) 1 (VStr "Bob");
            Api.stmt_step (VNum 8); Api.lastInsertRowid (VNum 8);
            Api.stmt_finalize (VNum 8);
            Api.exec (VNum 1) "COMMIT;"]).
Proof. vm_compute. repeat split; reflexivity. Qed.



(** A script whose second query does not compile, with and without
    [rollbackOnError], on the small engine; and with the worker of
    [part_000] on an engine that refuses the ROLLBACK. *)
Lemma executeQueries_failure_witness :
  (exists w4,
     Public.executeQueries Toy.respond Toy.connected
       (["CREATE TABLE t (name TEXT NOT NULL);"] ++ "SELEC 1;"
          :: ["INSERT INTO t VALUES ('x');"]) (VBool true) Toy.connected_world
     = (Thrown (VError "Transaction failed, rolled back: syntax error"), w4)
     /\ trace w4
        = [Api.exec (VNum 1) "BEGIN TRANSACTION;";
           Api.exec (VNum 1) "CREATE TABLE t (name TEXT NOT NULL);";
           Api.exec (VNum 1) "SELEC 1;"; Api.exec (VNum 1) "ROLLBACK;"])
  /\ (exists w4,
        Public.executeQueries Toy.respond Toy.connected
          (["CREATE TABLE t (name TEXT NOT NULL);"] ++ "SELEC 1;"
             :: ["INSERT INTO t VALUES ('x');"]) (VBool false)
          Toy.connected_world
        = (Done VUndefined, w4)
        /\ trace w4
           = [Api.exec (VNum 1) "BEGIN TRANSACTION;";
              Api.exec (VNum 1) "CREATE TABLE t (name TEXT NOT NULL);";
              Api.exec (VNum 1) "SELEC 1;"]
        /\ Toy.in_transaction (engine w4) = true)
  /\ (exists w4,
        Part000.executeQueries Replay.respond Replay.helper
          ([] ++ "INSERT INTO t VALUES ('x');" :: []) VUndefined
          (Replay.world [Returns (VNum 0); Raises "database or disk is full";
                         Raises "cannot rollback - no transaction is active"]
             (Some Replay.helper))
        = (Thrown (VError "cannot rollback - no transaction is active"), w4)
        /\ trace w4
           = [Api.exec (VNum 1) "BEGIN TRANSACTION;";
              Api.exec (VNum 1) "INSERT INTO t VALUES ('x');";
              Api.exec (VNum 1) "ROLLBACK;"]).
Proof.
  split; [|split].
  - edestruct (executeQueries_failure Toy.respond public_worker Toy.connected
                 ["CREATE TABLE t (name TEXT NOT NULL);"] "SELEC 1;"
                 ["INSERT INTO t VALUES ('x');"] (VBool true)
                 Toy.connected_world) as (w4 & Hrun & Ht).
    + reflexivity.
    + cbv; reflexivity.
    + eapply all_accepted_cons; [cbv; reflexivity | apply all_accepted_nil].
    + cbv; reflexivity.
    + cbv; reflexivity.
    + exists w4. split; [exact Hrun | exact Ht].
  - edestruct (executeQueries_failure Toy.respond public_worker Toy.connected
                 ["CREATE TABLE t (name TEXT NOT NULL);"] "SELEC 1;"
                 ["INSERT INTO t VALUES ('x');"] (VBool false)
                 Toy.connected_world) as (w4 & Hrun & Ht).
    + reflexivity.
    + cbv; reflexivity.
    + eapply all_accepted_cons; [cbv; reflexivity | apply all_accepted_nil].
    + cbv; reflexivity.
    + cbv; reflexivity.
    + exists w4. split; [exact Hrun|]. split; [exact Ht|].
      replace w4 with
        (snd (Public.executeQueries Toy.respond Toy.connected
                (["CREATE TABLE t (name TEXT NOT NULL);"] ++ "SELEC 1;"
                   :: ["INSERT INTO t VALUES ('x');"]) (VBool false)
                Toy.connected_world))
        by (change (Public.executeQueries Toy.respond Toy.connected)
              with (executeQueries_of public_worker Toy.respond Toy.connected);
            rewrite Hrun; reflexivity).
      vm_compute. reflexivity.
  - edestruct (executeQueries_failure Replay.respond part_000 Replay.helper
                 [] "INSERT INTO t VALUES ('x');" [] VUndefined
                 (Replay.world [Returns (VNum 0);
                                Raises "database or disk is full";
                                Raises "cannot rollback - no transaction is active"]
                    (Some Replay.helper))) as (w4 & Hrun & Ht).
    + reflexivity.
    + cbv; reflexivity.
    + apply all_accepted_nil.
    + cbv; reflexivity.
    + cbv; reflexivity.
    + exists w4. split; [exact Hrun | exact Ht].
Defined.

(** The query fails, and the engine refuses the ROLLBACK: the Error
    thrown is the one of ROLLBACK, which tells neither of the failure nor
    of a rollback. *)
Lemma executeQueries_rollback_refused :
  fst (Public.executeQueries Replay.respond Replay.helper
         ["INSERT INTO t VALUES ('x');"] (VBool true)
         (Replay.world [Returns (VNum 0); Raises "database or disk is full";
                        Raises "cannot rollback - no transaction is active"]
            (Some Replay.helper)))
  = Thrown (VError "cannot rollback - no transaction is active").
Proof. vm_compute. reflexivity. Qed.



